(** * starling-webhook: signature verification and the webhook request path

    A shallow embedding of the two revisions of [main.go] of the
    starling-webhook bridge:

    - the symmetric revision, whose [verifySignature] compares the
      [X-Hook-Signature] header with the base64 text of an HMAC-SHA512 of
      the body (module [Symmetric]);
    - the asymmetric revision, whose [verifySignature] base64-decodes the
      header and checks an RSA PKCS#1 v1.5 / SHA-256 signature against a
      public key parsed at startup by [initialiseKey] (module [Asymmetric]).

    Go byte slices are [list byte], Go strings are [string] (a Go string is
    a sequence of bytes, and so is a Rocq [string]).  The handlers run in a
    small execution monad over a [World] that records the response being
    written, the events the handler causes, and a logical clock. *)

From Stdlib.Strings Require Import String Ascii Byte.
From Stdlib Require Import ZArith List Bool Lia.
Import ListNotations.

Local Open Scope Z_scope.

(** ** Bytes *)

Module Bytes.

Definition to_Z (b : byte) : Z := Z.of_N (Byte.to_N b).

(** The byte whose value is [z mod 256]; Go's [byte(z)] conversion. *)
Definition of_Z (z : Z) : byte :=
  match Byte.of_N (Z.to_N (z mod 256)) with
  | Some b => b
  | None => x00
  end.

Definition eqb (a b : byte) : bool := Byte.eqb a b.

(** [[]byte(s)] and [string(b)]. *)
Definition of_string (s : string) : list byte := list_byte_of_string s.
Definition to_string (l : list byte) : string := string_of_list_byte l.

(** Flip bit [k] (0 = least significant) of one byte. *)
Definition flip_byte (k : nat) (b : byte) : byte :=
  of_Z (Z.lxor (to_Z b) (Z.shiftl 1 (Z.of_nat k))).

(** Flip bit [i] of a byte string, bit [i] living in byte [i / 8]; out of
    range the string is returned unchanged. *)
Fixpoint flip_bit (i : nat) (l : list byte) : list byte :=
  match l with
  | [] => []
  | b :: tl =>
      if Nat.ltb i 8 then flip_byte i b :: tl
      else b :: flip_bit (i - 8) tl
  end.

(** Lower-case hexadecimal text of a byte string. *)
Definition hex_digit (v : Z) : byte :=
  nth (Z.to_nat v) (of_string "0123456789abcdef") x00.

Definition to_hex (l : list byte) : string :=
  to_string (flat_map (fun b => [hex_digit (Z.shiftr (to_Z b) 4);
                                 hex_digit (Z.land (to_Z b) 15)]) l).

Fixpoint list_eqb (x y : list byte) : bool :=
  match x, y with
  | [], [] => true
  | a :: x', b :: y' => eqb a b && list_eqb x' y'
  | _, _ => false
  end.

End Bytes.

(** ** encoding/base64, [StdEncoding]

    The repository calls [base64.StdEncoding.EncodeToString] (symmetric
    revision) and [base64.StdEncoding.DecodeString] (asymmetric revision).
    Both are modelled after the Go library: the standard alphabet, [=]
    padding, and a decoder that skips CR and LF and refuses anything else
    outside the alphabet. *)

Module Base64.

Definition encodeStd : string :=
  "ABCDEFGHIJKLMNOPQRSTUVWXYZabcdefghijklmnopqrstuvwxyz0123456789+/".

Definition padChar : byte := "="%byte.

(** [enc.encode[v]] for a 6-bit value [v]. *)
Definition encode6 (v : Z) : byte :=
  nth (Z.to_nat v) (Bytes.of_string encodeStd) x00.

Fixpoint index_of (c : byte) (l : list byte) (i : Z) : option Z :=
  match l with
  | [] => None
  | d :: tl => if Bytes.eqb c d then Some i else index_of c tl (i + 1)
  end.

(** [enc.decodeMap[c]], [None] standing for the library's [0xff]. *)
Definition decode6 (c : byte) : option Z :=
  index_of c (Bytes.of_string encodeStd) 0.

Definition sextet (val : Z) (shift : Z) : byte :=
  encode6 (Z.land (Z.shiftr val shift) 63).

Fixpoint Encode (src : list byte) : list byte :=
  match src with
  | [] => []
  | [a] =>
      let val := Z.shiftl (Bytes.to_Z a) 16 in
      [sextet val 18; sextet val 12; padChar; padChar]
  | [a; b] =>
      let val := Z.lor (Z.shiftl (Bytes.to_Z a) 16) (Z.shiftl (Bytes.to_Z b) 8) in
      [sextet val 18; sextet val 12; sextet val 6; padChar]
  | a :: b :: c :: rest =>
      let val := Z.lor (Z.lor (Z.shiftl (Bytes.to_Z a) 16)
                              (Z.shiftl (Bytes.to_Z b) 8)) (Bytes.to_Z c) in
      sextet val 18 :: sextet val 12 :: sextet val 6 :: sextet val 0 :: Encode rest
  end.

Definition EncodeToString (src : list byte) : string :=
  Bytes.to_string (Encode src).

Definition is_newline (c : byte) : bool :=
  Bytes.eqb c x0a || Bytes.eqb c x0d.

Definition quantum (d0 d1 d2 d3 : Z) : Z :=
  Z.lor (Z.lor (Z.lor (Z.shiftl d0 18) (Z.shiftl d1 12)) (Z.shiftl d2 6)) d3.

(** The decoder on input from which CR and LF have been dropped: whole
    quanta of four alphabet characters, then at most one padded quantum,
    then nothing. *)
Fixpoint decode_quanta (src : list byte) : option (list byte) :=
  match src with
  | [] => Some []
  | c0 :: c1 :: c2 :: c3 :: rest =>
      match decode6 c0, decode6 c1 with
      | Some d0, Some d1 =>
          match decode6 c2, decode6 c3 with
          | Some d2, Some d3 =>
              let val := quantum d0 d1 d2 d3 in
              match decode_quanta rest with
              | Some out =>
                  Some (Bytes.of_Z (Z.shiftr val 16) :: Bytes.of_Z (Z.shiftr val 8)
                          :: Bytes.of_Z val :: out)
              | None => None
              end
          | Some d2, None =>
              if Bytes.eqb c3 padChar then
                match rest with
                | [] =>
                    let val := quantum d0 d1 d2 0 in
                    Some [Bytes.of_Z (Z.shiftr val 16); Bytes.of_Z (Z.shiftr val 8)]
                | _ :: _ => None
                end
              else None
          | None, _ =>
              if Bytes.eqb c2 padChar && Bytes.eqb c3 padChar then
                match rest with
                | [] => Some [Bytes.of_Z (Z.shiftr (quantum d0 d1 0 0) 16)]
                | _ :: _ => None
                end
              else None
          end
      | _, _ => None
      end
  | _ => None
  end.

Definition Decode (src : list byte) : option (list byte) :=
  decode_quanta (filter (fun c => negb (is_newline c)) src).

(** [DecodeString]: [None] is the library's non-nil error. *)
Definition DecodeString (s : string) : option (list byte) :=
  Decode (Bytes.of_string s).

End Base64.

(** ** crypto/subtle and [hmac.Equal]

    [hmac.Equal(mac1, mac2)] is [subtle.ConstantTimeCompare(mac1, mac2) == 1].
    The comparison is modelled together with what it lets an observer of
    its control flow and memory accesses see: the outcome of the length
    test and the indices it reads.  None of these depends on the bytes
    compared. *)

Module Subtle.

Inductive Leak : Type :=
| LeakLengthsDiffer (differ : bool)   (* the branch [len(x) != len(y)] *)
| LeakIndex (i : nat).                (* one iteration, reading [x[i]] and [y[i]] *)

(** [ConstantTimeByteEq(x, y)]: [int((uint32(x^y) - 1) >> 31)]. *)
Definition ConstantTimeByteEq (x y : Z) : Z :=
  Z.shiftr ((Z.lxor x y - 1) mod 2 ^ 32) 31.

(** The loop [for i := 0; i < len(x); i++ { v |= x[i] ^ y[i] }]. *)
Fixpoint accumulate (x y : list byte) (i : nat) (v : Z) : Z * list Leak :=
  match x, y with
  | a :: x', b :: y' =>
      let (r, seen) :=
        accumulate x' y' (S i) (Z.lor v (Z.lxor (Bytes.to_Z a) (Bytes.to_Z b))) in
      (r, LeakIndex i :: seen)
  | _, _ => (v, [])
  end.

Definition ConstantTimeCompare_observed (x y : list byte) : Z * list Leak :=
  if negb (Nat.eqb (length x) (length y)) then (0, [LeakLengthsDiffer true])
  else
    let (v, seen) := accumulate x y 0 0 in
    (ConstantTimeByteEq v 0, LeakLengthsDiffer false :: seen).

Definition ConstantTimeCompare (x y : list byte) : Z :=
  fst (ConstantTimeCompare_observed x y).

(** The comparison that Go's [bytes.Equal] or [==] on strings may perform:
    it stops at the first difference.  Used only to contrast its
    observations with those of [ConstantTimeCompare]. *)
Fixpoint early_exit_observed (x y : list byte) (i : nat) : bool * list Leak :=
  match x, y with
  | [], [] => (true, [])
  | a :: x', b :: y' =>
      if Bytes.eqb a b then
        let (r, seen) := early_exit_observed x' y' (S i) in (r, LeakIndex i :: seen)
      else (false, [LeakIndex i])
  | _, _ => (false, [])
  end.

End Subtle.

(** ** crypto/sha512 and crypto/hmac

    [hmac.New(sha512.New, key)], [mac.Write] and [mac.Sum(nil)] of the
    symmetric revision: SHA-512 (FIPS 180-4) on 64-bit words, written as
    [Z] reduced modulo [2^64], and HMAC (RFC 2104) with the 128-byte block
    of SHA-512. *)

Module SHA512.

Definition max64 : Z := 0xffffffffffffffff.

(** Truncation to 64 bits. *)
Definition mask (x : Z) : Z := Z.land x max64.

Definition add64 (x y : Z) : Z := mask (x + y).

Definition rotr (n x : Z) : Z :=
  Z.lor (Z.shiftr x n) (mask (Z.shiftl x (64 - n))).

Definition Ch (x y z : Z) : Z :=
  Z.lxor (Z.land x y) (Z.land (Z.lxor x max64) z).

Definition Maj (x y z : Z) : Z :=
  Z.lxor (Z.lxor (Z.land x y) (Z.land x z)) (Z.land y z).

Definition Sigma0 (x : Z) : Z := Z.lxor (Z.lxor (rotr 28 x) (rotr 34 x)) (rotr 39 x).
Definition Sigma1 (x : Z) : Z := Z.lxor (Z.lxor (rotr 14 x) (rotr 18 x)) (rotr 41 x).
Definition sigma0 (x : Z) : Z := Z.lxor (Z.lxor (rotr 1 x) (rotr 8 x)) (Z.shiftr x 7).
Definition sigma1 (x : Z) : Z := Z.lxor (Z.lxor (rotr 19 x) (rotr 61 x)) (Z.shiftr x 6).

Definition K : list Z :=
  [0x428a2f98d728ae22; 0x7137449123ef65cd; 0xb5c0fbcfec4d3b2f;
   0xe9b5dba58189dbbc; 0x3956c25bf348b538; 0x59f111f1b605d019;
   0x923f82a4af194f9b; 0xab1c5ed5da6d8118; 0xd807aa98a3030242;
   0x12835b0145706fbe; 0x243185be4ee4b28c; 0x550c7dc3d5ffb4e2;
   0x72be5d74f27b896f; 0x80deb1fe3b1696b1; 0x9bdc06a725c71235;
   0xc19bf174cf692694; 0xe49b69c19ef14ad2; 0xefbe4786384f25e3;
   0x0fc19dc68b8cd5b5; 0x240ca1cc77ac9c65; 0x2de92c6f592b0275;
   0x4a7484aa6ea6e483; 0x5cb0a9dcbd41fbd4; 0x76f988da831153b5;
   0x983e5152ee66dfab; 0xa831c66d2db43210; 0xb00327c898fb213f;
   0xbf597fc7beef0ee4; 0xc6e00bf33da88fc2; 0xd5a79147930aa725;
   0x06ca6351e003826f; 0x142929670a0e6e70; 0x27b70a8546d22ffc;
   0x2e1b21385c26c926; 0x4d2c6dfc5ac42aed; 0x53380d139d95b3df;
   0x650a73548baf63de; 0x766a0abb3c77b2a8; 0x81c2c92e47edaee6;
   0x92722c851482353b; 0xa2bfe8a14cf10364; 0xa81a664bbc423001;
   0xc24b8b70d0f89791; 0xc76c51a30654be30; 0xd192e819d6ef5218;
   0xd69906245565a910; 0xf40e35855771202a; 0x106aa07032bbd1b8;
   0x19a4c116b8d2d0c8; 0x1e376c085141ab53; 0x2748774cdf8eeb99;
   0x34b0bcb5e19b48a8; 0x391c0cb3c5c95a63; 0x4ed8aa4ae3418acb;
   0x5b9cca4f7763e373; 0x682e6ff3d6b2b8a3; 0x748f82ee5defb2fc;
   0x78a5636f43172f60; 0x84c87814a1f0ab72; 0x8cc702081a6439ec;
   0x90befffa23631e28; 0xa4506cebde82bde9; 0xbef9a3f7b2c67915;
   0xc67178f2e372532b; 0xca273eceea26619c; 0xd186b8c721c0c207;
   0xeada7dd6cde0eb1e; 0xf57d4f7fee6ed178; 0x06f067aa72176fba;
   0x0a637dc5a2c898a6; 0x113f9804bef90dae; 0x1b710b35131c471b;
   0x28db77f523047d84; 0x32caab7b40c72493; 0x3c9ebe0a15c9bebc;
   0x431d67c49c100d4c; 0x4cc5d4becb3e42b6; 0x597f299cfc657e2a;
   0x5fcb6fab3ad6faec; 0x6c44198c4a475817].

Definition H0 : list Z :=
  [0x6a09e667f3bcc908; 0xbb67ae8584caa73b; 0x3c6ef372fe94f82b;
   0xa54ff53a5f1d36f1; 0x510e527fade682d1; 0x9b05688c2b3e6c1f;
   0x1f83d9abfb41bd6b; 0x5be0cd19137e2179].

Record digest_state : Type := mkState {
  sa : Z; sb : Z; sc : Z; sd : Z; se : Z; sf : Z; sg : Z; sh : Z }.

Definition init : digest_state :=
  mkState (nth 0 H0 0) (nth 1 H0 0) (nth 2 H0 0) (nth 3 H0 0)
          (nth 4 H0 0) (nth 5 H0 0) (nth 6 H0 0) (nth 7 H0 0).

Definition round (s : digest_state) (k w : Z) : digest_state :=
  let t1 := add64 (add64 (add64 (add64 (sh s) (Sigma1 (se s))) (Ch (se s) (sf s) (sg s))) k) w in
  let t2 := add64 (Sigma0 (sa s)) (Maj (sa s) (sb s) (sc s)) in
  mkState (add64 t1 t2) (sa s) (sb s) (sc s) (add64 (sd s) t1) (se s) (sf s) (sg s).

(** The eighty rounds; [w] is the window [W[t] .. W[t+15]] of the message
    schedule. *)
Fixpoint rounds (ks : list Z) (w : list Z) (s : digest_state) : digest_state :=
  match ks, w with
  | k :: ks', w0 :: w' =>
      let wnew := add64 (add64 (add64 (sigma1 (nth 14 w 0)) (nth 9 w 0))
                               (sigma0 (nth 1 w 0))) w0 in
      rounds ks' (w' ++ [wnew]) (round s k w0)
  | _, _ => s
  end.

(** Big-endian 64-bit words of a block. *)
Fixpoint be_word (l : list byte) (acc : Z) : Z :=
  match l with
  | [] => acc
  | b :: tl => be_word tl (Z.lor (Z.shiftl acc 8) (Bytes.to_Z b))
  end.

Fixpoint words (n : nat) (l : list byte) : list Z :=
  match n with
  | O => []
  | S n' => be_word (firstn 8 l) 0 :: words n' (skipn 8 l)
  end.

Definition block (s : digest_state) (p : list byte) : digest_state :=
  let r := rounds K (words 16 p) s in
  mkState (add64 (sa s) (sa r)) (add64 (sb s) (sb r)) (add64 (sc s) (sc r))
          (add64 (sd s) (sd r)) (add64 (se s) (se r)) (add64 (sf s) (sf r))
          (add64 (sg s) (sg r)) (add64 (sh s) (sh r)).

Fixpoint blocks (n : nat) (s : digest_state) (l : list byte) : digest_state :=
  match n with
  | O => s
  | S n' => blocks n' (block s (firstn 128 l)) (skipn 128 l)
  end.

(** [n] big-endian bytes of [v]. *)
Fixpoint be_bytes (n : nat) (v : Z) : list byte :=
  match n with
  | O => []
  | S n' => Bytes.of_Z (Z.shiftr v (8 * Z.of_nat n')) :: be_bytes n' v
  end.

Definition pad (msg : list byte) : list byte :=
  let len := Z.of_nat (length msg) in
  msg ++ [x80] ++ repeat x00 (Z.to_nat ((111 - len) mod 128))
      ++ be_bytes 16 ((8 * len) mod 2 ^ 128).

Definition Sum512 (msg : list byte) : list byte :=
  let p := pad msg in
  let s := blocks (Nat.div (length p) 128) init p in
  be_bytes 8 (sa s) ++ be_bytes 8 (sb s) ++ be_bytes 8 (sc s) ++ be_bytes 8 (sd s)
    ++ be_bytes 8 (se s) ++ be_bytes 8 (sf s) ++ be_bytes 8 (sg s) ++ be_bytes 8 (sh s).

Definition BlockSize : nat := 128.

End SHA512.

Module HMAC.

Definition xor_with (c : Z) (l : list byte) : list byte :=
  map (fun b => Bytes.of_Z (Z.lxor (Bytes.to_Z b) c)) l.

(** [hmac.New(sha512.New, key)]: a key longer than the block is hashed,
    then the key is zero-padded to the block. *)
Definition block_key (key : list byte) : list byte :=
  let k := if Nat.ltb SHA512.BlockSize (length key) then SHA512.Sum512 key else key in
  k ++ repeat x00 (SHA512.BlockSize - length k).

(** [mac.Write(msg); mac.Sum(nil)]. *)
Definition Sum (key msg : list byte) : list byte :=
  let k := block_key key in
  SHA512.Sum512 (xor_with 0x5c k ++ SHA512.Sum512 (xor_with 0x36 k ++ msg)).


(** [hmac.Equal]. *)
Definition Equal_observed (mac1 mac2 : list byte) : bool * list Subtle.Leak :=
  let (r, seen) := Subtle.ConstantTimeCompare_observed mac1 mac2 in
  (Z.eqb r 1, seen).

Definition Equal (mac1 mac2 : list byte) : bool := fst (Equal_observed mac1 mac2).

End HMAC.

(** ** Go error values *)

Inductive GoError : Type :=
| ErrIO (msg : string)                          (* a failed read of the request body *)
| ErrJSONSyntax                                 (* *json.SyntaxError *)
| ErrJSONUnmarshalType (value field : string)   (* *json.UnmarshalTypeError *)
| ErrBase64CorruptInput                         (* base64.CorruptInputError *)
| ErrX509 (msg : string)                        (* x509.ParsePKIXPublicKey failures *)
| ErrorsNew (msg : string)                      (* errors.New *)
| ErrRSAVerification                            (* rsa.ErrVerification *)
| ErrRedis (msg : string)                       (* an error of the Redis client *)
| ErrDeadlineExceeded                           (* context.DeadlineExceeded *)
| ErrWrapped (prefix : string) (inner : GoError). (* fmt.Errorf("...: %w", err) *)

(** ** encoding/json

    [json.Unmarshal(body, &event)] first validates the whole input with
    the scanner of [encoding/json] ([checkValid]) and only then decodes.
    The scanner is a byte-at-a-time state machine; it is modelled state by
    state. *)

Module JSON.

Definition isSpace (c : byte) : bool :=
  match c with
  | " "%byte | x09 | x0d | x0a => true
  | _ => false
  end.

Definition in_range (lo hi c : byte) : bool :=
  (Bytes.to_Z lo <=? Bytes.to_Z c) && (Bytes.to_Z c <=? Bytes.to_Z hi).

Definition isDigit (c : byte) : bool := in_range "0" "9" c.

Definition isHex (c : byte) : bool :=
  isDigit c || in_range "a" "f" c || in_range "A" "F" c.

Inductive opcode : Type :=
| scanContinue | scanBeginLiteral | scanBeginObject | scanObjectKey
| scanObjectValue | scanEndObject | scanBeginArray | scanArrayValue
| scanEndArray | scanSkipSpace | scanEnd | scanError.

Inductive parseState : Type := parseObjectKey | parseObjectValue | parseArrayValue.

Inductive stepfn : Type :=
| stateBeginValueOrEmpty | stateBeginValue | stateBeginStringOrEmpty
| stateBeginString | stateEndValue | stateEndTop
| stateInString | stateInStringEsc | stateInStringEscU | stateInStringEscU1
| stateInStringEscU12 | stateInStringEscU123
| stateNeg | state1 | state0 | stateDot | stateDot0 | stateE | stateESign | stateE0
| stateT | stateTr | stateTru | stateF | stateFa | stateFal | stateFals
| stateN | stateNu | stateNul | stateError.

(** The scanner; [parseStack] has the innermost state first, [failed] is
    [s.err != nil]. *)
Record scanner : Type := mkScanner {
  step : stepfn;
  parseStack : list parseState;
  endTop : bool;
  failed : bool }.

Definition maxNestingDepth : nat := Z.to_nat 10000.

Definition reset : scanner := mkScanner stateBeginValue [] false false.

Definition set_step (s : scanner) (f : stepfn) : scanner :=
  mkScanner f (parseStack s) (endTop s) (failed s).

(** [s.error(c, context)]. *)
Definition error (s : scanner) : scanner * opcode :=
  (mkScanner stateError (parseStack s) (endTop s) true, scanError).

Definition continue_with (s : scanner) (f : stepfn) : scanner * opcode :=
  (set_step s f, scanContinue).

Definition pushParseState (s : scanner) (next : stepfn) (p : parseState)
    (success : opcode) : scanner * opcode :=
  let s' := mkScanner next (p :: parseStack s) (endTop s) (failed s) in
  if Nat.leb (length (parseStack s')) maxNestingDepth then (s', success)
  else error s'.

Definition popParseState (s : scanner) : scanner :=
  match tl (parseStack s) with
  | [] => mkScanner stateEndTop [] true (failed s)
  | rest => mkScanner stateEndValue rest (endTop s) (failed s)
  end.

Definition replace_top (s : scanner) (p : parseState) : scanner :=
  mkScanner (step s) (p :: tl (parseStack s)) (endTop s) (failed s).

Definition do_stateEndTop (s : scanner) (c : byte) : scanner * opcode :=
  if isSpace c then (s, scanEnd)
  else (fst (error s), scanEnd).

Definition do_stateEndValue (s : scanner) (c : byte) : scanner * opcode :=
  match parseStack s with
  | [] =>
      do_stateEndTop (mkScanner stateEndTop [] true (failed s)) c
  | ps :: _ =>
      if isSpace c then (set_step s stateEndValue, scanSkipSpace)
      else
        match ps, c with
        | parseObjectKey, ":"%byte =>
            (set_step (replace_top s parseObjectValue) stateBeginValue, scanObjectKey)
        | parseObjectValue, ","%byte =>
            (set_step (replace_top s parseObjectKey) stateBeginString, scanObjectValue)
        | parseObjectValue, "}"%byte => (popParseState s, scanEndObject)
        | parseArrayValue, ","%byte => (set_step s stateBeginValue, scanArrayValue)
        | parseArrayValue, "]"%byte => (popParseState s, scanEndArray)
        | _, _ => error s
        end
  end.

Definition do_stateBeginValue (s : scanner) (c : byte) : scanner * opcode :=
  if isSpace c then (s, scanSkipSpace)
  else
    match c with
    | "{"%byte => pushParseState s stateBeginStringOrEmpty parseObjectKey scanBeginObject
    | "["%byte => pushParseState s stateBeginValueOrEmpty parseArrayValue scanBeginArray
    | x22 => (set_step s stateInString, scanBeginLiteral)
    | "-"%byte => (set_step s stateNeg, scanBeginLiteral)
    | "0"%byte => (set_step s state0, scanBeginLiteral)
    | "t"%byte => (set_step s stateT, scanBeginLiteral)
    | "f"%byte => (set_step s stateF, scanBeginLiteral)
    | "n"%byte => (set_step s stateN, scanBeginLiteral)
    | _ =>
        if in_range "1" "9" c then (set_step s state1, scanBeginLiteral)
        else error s
    end.

Definition do_stateBeginValueOrEmpty (s : scanner) (c : byte) : scanner * opcode :=
  if isSpace c then (s, scanSkipSpace)
  else if Bytes.eqb c "]" then do_stateEndValue s c
  else do_stateBeginValue s c.

Definition do_stateBeginString (s : scanner) (c : byte) : scanner * opcode :=
  if isSpace c then (s, scanSkipSpace)
  else if Bytes.eqb c x22 then (set_step s stateInString, scanBeginLiteral)
  else error s.

Definition do_stateBeginStringOrEmpty (s : scanner) (c : byte) : scanner * opcode :=
  if isSpace c then (s, scanSkipSpace)
  else if Bytes.eqb c "}" then do_stateEndValue (replace_top s parseObjectValue) c
  else do_stateBeginString s c.

Definition do_stateInString (s : scanner) (c : byte) : scanner * opcode :=
  if Bytes.eqb c x22 then continue_with s stateEndValue
  else if Bytes.eqb c "\" then continue_with s stateInStringEsc
  else if Bytes.to_Z c <? 32 then error s
  else (s, scanContinue).

Definition do_stateInStringEsc (s : scanner) (c : byte) : scanner * opcode :=
  match c with
  | "b"%byte | "f"%byte | "n"%byte | "r"%byte | "t"%byte
  | "\"%byte | "/"%byte | x22 => continue_with s stateInString
  | "u"%byte => continue_with s stateInStringEscU
  | _ => error s
  end.

Definition expect_hex (s : scanner) (c : byte) (next : stepfn) : scanner * opcode :=
  if isHex c then continue_with s next else error s.

Definition expect_byte (s : scanner) (c want : byte) (next : stepfn) : scanner * opcode :=
  if Bytes.eqb c want then continue_with s next else error s.

Definition do_state0 (s : scanner) (c : byte) : scanner * opcode :=
  if Bytes.eqb c "." then continue_with s stateDot
  else if Bytes.eqb c "e" || Bytes.eqb c "E" then continue_with s stateE
  else do_stateEndValue s c.

Definition do_state1 (s : scanner) (c : byte) : scanner * opcode :=
  if isDigit c then continue_with s state1 else do_state0 s c.

Definition do_stateNeg (s : scanner) (c : byte) : scanner * opcode :=
  if Bytes.eqb c "0" then continue_with s state0
  else if in_range "1" "9" c then continue_with s state1
  else error s.

Definition do_stateDot (s : scanner) (c : byte) : scanner * opcode :=
  if isDigit c then continue_with s stateDot0 else error s.

Definition do_stateDot0 (s : scanner) (c : byte) : scanner * opcode :=
  if isDigit c then (s, scanContinue)
  else if Bytes.eqb c "e" || Bytes.eqb c "E" then continue_with s stateE
  else do_stateEndValue s c.

Definition do_stateESign (s : scanner) (c : byte) : scanner * opcode :=
  if isDigit c then continue_with s stateE0 else error s.

Definition do_stateE (s : scanner) (c : byte) : scanner * opcode :=
  if Bytes.eqb c "+" || Bytes.eqb c "-" then continue_with s stateESign
  else do_stateESign s c.

Definition do_stateE0 (s : scanner) (c : byte) : scanner * opcode :=
  if isDigit c then (s, scanContinue) else do_stateEndValue s c.

(** [s.step(s, c)]. *)
Definition run_step (s : scanner) (c : byte) : scanner * opcode :=
  match step s with
  | stateBeginValueOrEmpty => do_stateBeginValueOrEmpty s c
  | stateBeginValue => do_stateBeginValue s c
  | stateBeginStringOrEmpty => do_stateBeginStringOrEmpty s c
  | stateBeginString => do_stateBeginString s c
  | stateEndValue => do_stateEndValue s c
  | stateEndTop => do_stateEndTop s c
  | stateInString => do_stateInString s c
  | stateInStringEsc => do_stateInStringEsc s c
  | stateInStringEscU => expect_hex s c stateInStringEscU1
  | stateInStringEscU1 => expect_hex s c stateInStringEscU12
  | stateInStringEscU12 => expect_hex s c stateInStringEscU123
  | stateInStringEscU123 => expect_hex s c stateInString
  | stateNeg => do_stateNeg s c
  | state1 => do_state1 s c
  | state0 => do_state0 s c
  | stateDot => do_stateDot s c
  | stateDot0 => do_stateDot0 s c
  | stateE => do_stateE s c
  | stateESign => do_stateESign s c
  | stateE0 => do_stateE0 s c
  | stateT => expect_byte s c "r" stateTr
  | stateTr => expect_byte s c "u" stateTru
  | stateTru => expect_byte s c "e" stateEndValue
  | stateF => expect_byte s c "a" stateFa
  | stateFa => expect_byte s c "l" stateFal
  | stateFal => expect_byte s c "s" stateFals
  | stateFals => expect_byte s c "e" stateEndValue
  | stateN => expect_byte s c "u" stateNu
  | stateNu => expect_byte s c "l" stateNul
  | stateNul => expect_byte s c "l" stateEndValue
  | stateError => (s, scanError)
  end.

(** [s.eof()]: [true] when the input ended inside a value or after an
    error. *)
Definition eof_fails (s : scanner) : bool :=
  if failed s then true
  else if endTop s then false
  else
    let s' := fst (run_step s " ") in
    negb (endTop s').

(** [checkValid(data, scan)]: [true] when it returns a non-nil error. *)
Fixpoint scan_all (s : scanner) (data : list byte) : bool :=
  match data with
  | [] => eof_fails s
  | c :: rest =>
      let (s', op) := run_step s c in
      match op with
      | scanError => true
      | _ => scan_all s' rest
      end
  end.

Definition checkValid (data : list byte) : bool := negb (scan_all reset data).

(** *** Decoding into [WebhookEvent]

    What follows runs on input [checkValid] has accepted. *)

(** [WebhookEvent], the envelope of the repository. [Content] is a
    [json.RawMessage]; nil and empty are both [[]]. *)
Record WebhookEvent : Type := mkWebhookEvent {
  EventType : string;
  Timestamp : string;
  Content : list byte;
  AccountHolderUID : string;
  EventID : string }.

(** [var event WebhookEvent]. *)
Definition zero_event : WebhookEvent := mkWebhookEvent "" "" [] "" "".

Inductive field : Type :=
| FEventType | FTimestamp | FContent | FAccountHolderUID | FEventID.

(** The [json:"..."] tags. *)
Definition field_name (f : field) : string :=
  match f with
  | FEventType => "eventType"
  | FTimestamp => "timestamp"
  | FContent => "content"
  | FAccountHolderUID => "accountHolderUid"
  | FEventID => "eventId"
  end.

Definition fields : list field :=
  [FEventType; FTimestamp; FContent; FAccountHolderUID; FEventID].

Fixpoint skip_space (s : list byte) : list byte :=
  match s with
  | c :: rest => if isSpace c then skip_space rest else s
  | [] => []
  end.

(** The text of a string literal after its opening quote, and what
    follows the closing quote. *)
Fixpoint take_string (esc : bool) (s : list byte) : list byte * list byte :=
  match s with
  | [] => ([], [])
  | c :: rest =>
      if esc then
        let (text, after) := take_string false rest in (c :: text, after)
      else if Bytes.eqb c x22 then ([], rest)
      else
        let (text, after) := take_string (Bytes.eqb c "\") rest in (c :: text, after)
  end.

(** An object or array up to its closing bracket; [depth] counts the
    brackets open before [s]. *)
Fixpoint take_nested (depth : nat) (instr esc : bool) (s : list byte)
    : list byte * list byte :=
  match s with
  | [] => ([], [])
  | c :: rest =>
      if instr then
        let (text, after) :=
          take_nested depth (esc || negb (Bytes.eqb c x22)) (negb esc && Bytes.eqb c "\") rest in
        (c :: text, after)
      else if Bytes.eqb c "{" || Bytes.eqb c "[" then
        let (text, after) := take_nested (S depth) false false rest in (c :: text, after)
      else if Bytes.eqb c "}" || Bytes.eqb c "]" then
        match depth with
        | S (S d) => let (text, after) := take_nested (S d) false false rest in (c :: text, after)
        | _ => ([c], rest)
        end
      else
        let (text, after) := take_nested depth (Bytes.eqb c x22) false rest in
        (c :: text, after)
  end.

Definition ends_scalar (c : byte) : bool :=
  isSpace c || Bytes.eqb c "," || Bytes.eqb c "}" || Bytes.eqb c "]".

Fixpoint take_scalar (s : list byte) : list byte * list byte :=
  match s with
  | [] => ([], [])
  | c :: rest =>
      if ends_scalar c then ([], s)
      else let (text, after) := take_scalar rest in (c :: text, after)
  end.

(** The bytes of the value that starts at the head of [s]. *)
Definition take_value (s : list byte) : list byte * list byte :=
  match s with
  | x22 :: rest =>
      let (text, after) := take_string false rest in
      ((x22 :: text) ++ [x22], after)
  | "{"%byte :: _ | "["%byte :: _ => take_nested 0 false false s
  | _ => take_scalar s
  end.

(** The members of an object, [s] starting after its opening brace: for
    each the text of the key between its quotes and the bytes of the value.
    Every member consumes input, so [length s] is fuel enough. *)
Fixpoint members (fuel : nat) (s : list byte) : list (list byte * list byte) :=
  match fuel with
  | O => []
  | S fuel' =>
      match skip_space s with
      | x22 :: r =>
          let (key, r1) := take_string false r in
          match skip_space r1 with
          | ":"%byte :: r2 =>
              let (val, r3) := take_value (skip_space r2) in
              (key, val) ::
                match skip_space r3 with
                | ","%byte :: r4 => members fuel' r4
                | _ => []
                end
          | _ => []
          end
      | _ => []
      end
  end.

(** [utf8.EncodeRune]. *)
Definition encodeRune (r : Z) : list byte :=
  if r <? 0x80 then [Bytes.of_Z r]
  else if r <? 0x800 then
    [Bytes.of_Z (Z.lor 0xC0 (Z.shiftr r 6)); Bytes.of_Z (Z.lor 0x80 (Z.land r 0x3F))]
  else if (r <? 0x10000) && negb ((0xD800 <=? r) && (r <? 0xE000)) then
    [Bytes.of_Z (Z.lor 0xE0 (Z.shiftr r 12));
     Bytes.of_Z (Z.lor 0x80 (Z.land (Z.shiftr r 6) 0x3F));
     Bytes.of_Z (Z.lor 0x80 (Z.land r 0x3F))]
  else if (0x10000 <=? r) && (r <=? 0x10FFFF) then
    [Bytes.of_Z (Z.lor 0xF0 (Z.shiftr r 18));
     Bytes.of_Z (Z.lor 0x80 (Z.land (Z.shiftr r 12) 0x3F));
     Bytes.of_Z (Z.lor 0x80 (Z.land (Z.shiftr r 6) 0x3F));
     Bytes.of_Z (Z.lor 0x80 (Z.land r 0x3F))]
  else [xef; xbf; xbd].

Definition replacementChar : list byte := [xef; xbf; xbd].

Definition hexval (c : byte) : Z :=
  if isDigit c then Bytes.to_Z c - 48
  else if in_range "a" "f" c then Bytes.to_Z c - 87
  else Bytes.to_Z c - 55.

(** [getu4] on the four digits after a backslash and [u]. *)
Definition getu4 (h1 h2 h3 h4 : byte) : Z :=
  ((hexval h1 * 16 + hexval h2) * 16 + hexval h3) * 16 + hexval h4.

Definition isSurrogate (r : Z) : bool := (0xD800 <=? r) && (r <? 0xE000).

Definition between (lo hi : Z) (c : byte) : bool :=
  (lo <=? Bytes.to_Z c) && (Bytes.to_Z c <=? hi).

(** The number of continuation bytes after the head of [s] when [s]
    starts with a well-formed multi-byte UTF-8 encoding, as
    [utf8.DecodeRune] accepts it; [None] otherwise. *)
Definition utf8_tail (s : list byte) : option nat :=
  match s with
  | c0 :: c1 :: rest =>
      if between 0xC2 0xDF c0 then
        if between 0x80 0xBF c1 then Some 1%nat else None
      else
        match rest with
        | c2 :: rest' =>
            let second :=
              if Bytes.eqb c0 xe0 then between 0xA0 0xBF c1
              else if Bytes.eqb c0 xed then between 0x80 0x9F c1
              else if between 0xE1 0xEF c0 then between 0x80 0xBF c1
              else if Bytes.eqb c0 xf0 then between 0x90 0xBF c1
              else if Bytes.eqb c0 xf4 then between 0x80 0x8F c1
              else if between 0xF1 0xF3 c0 then between 0x80 0xBF c1
              else false in
            if second && between 0x80 0xBF c2 then
              if between 0xE0 0xEF c0 then Some 2%nat
              else
                match rest' with
                | c3 :: _ => if between 0x80 0xBF c3 then Some 3%nat else None
                | [] => None
                end
            else None
        | [] => None
        end
  | _ => None
  end.

Definition unescape (c : byte) : byte :=
  match c with
  | "b"%byte => x08
  | "f"%byte => x0c
  | "n"%byte => x0a
  | "r"%byte => x0d
  | "t"%byte => x09
  | _ => c
  end.

(** [unquote] on the text between the quotes of a valid literal: escapes
    are resolved, unpaired surrogates and bytes that are not UTF-8 become
    U+FFFD.  [pending] counts continuation bytes still to be copied. *)
Fixpoint unquote_from (pending : nat) (s : list byte) : list byte :=
  match pending, s with
  | _, [] => []
  | S p, c :: rest => c :: unquote_from p rest
  | O, "\"%byte :: "u"%byte :: h1 :: h2 :: h3 :: h4 :: rest =>
      let rr := getu4 h1 h2 h3 h4 in
      if isSurrogate rr then
        match rest with
        | "\"%byte :: "u"%byte :: l1 :: l2 :: l3 :: l4 :: rest' =>
            let rr1 := getu4 l1 l2 l3 l4 in
            if (rr <? 0xDC00) && (0xDC00 <=? rr1) && (rr1 <? 0xE000) then
              encodeRune (Z.shiftl (rr - 0xD800) 10 + (rr1 - 0xDC00) + 0x10000)
                ++ unquote_from O rest'
            else replacementChar ++ unquote_from O rest
        | _ => replacementChar ++ unquote_from O rest
        end
      else encodeRune rr ++ unquote_from O rest
  | O, "\"%byte :: c :: rest => unescape c :: unquote_from O rest
  | O, c :: rest =>
      if Bytes.to_Z c <? 0x80 then c :: unquote_from O rest
      else
        match utf8_tail s with
        | Some n => c :: unquote_from n rest
        | None => replacementChar ++ unquote_from O rest
        end
  end.

Definition unquote (s : list byte) : string := Bytes.to_string (unquote_from O s).

(** [foldName] as far as it can make a key equal one of the field names,
    which are ASCII: letters go to upper case, and the only two other
    runes that fold to ASCII letters are U+017F (to S) and U+212A (to K). *)
Fixpoint foldName (s : list byte) : list byte :=
  match s with
  | [] => []
  | xc5 :: xbf :: rest => "S"%byte :: foldName rest
  | xe2 :: x84 :: xaa :: rest => "K"%byte :: foldName rest
  | c :: rest =>
      (if in_range "a" "z" c then Bytes.of_Z (Bytes.to_Z c - 32) else c) :: foldName rest
  end.

Definition find_field (test : field -> bool) : option field := find test fields.

(** The field a key selects: an exact match of the tag first, a match up
    to case folding second. *)
Definition lookup_field (key : string) : option field :=
  match find_field (fun f => String.eqb (field_name f) key) with
  | Some f => Some f
  | None =>
      find_field (fun f =>
        Bytes.list_eqb (foldName (Bytes.of_string (field_name f)))
                       (foldName (Bytes.of_string key)))
  end.

Definition set_string (f : field) (x : string) (v : WebhookEvent) : WebhookEvent :=
  match f with
  | FEventType => mkWebhookEvent x (Timestamp v) (Content v) (AccountHolderUID v) (EventID v)
  | FTimestamp => mkWebhookEvent (EventType v) x (Content v) (AccountHolderUID v) (EventID v)
  | FAccountHolderUID => mkWebhookEvent (EventType v) (Timestamp v) (Content v) x (EventID v)
  | FEventID => mkWebhookEvent (EventType v) (Timestamp v) (Content v) (AccountHolderUID v) x
  | FContent => v
  end.

Definition set_content (raw : list byte) (v : WebhookEvent) : WebhookEvent :=
  mkWebhookEvent (EventType v) (Timestamp v) raw (AccountHolderUID v) (EventID v).

(** What a value is called in an [UnmarshalTypeError], by its first byte. *)
Definition value_kind (raw : list byte) : string :=
  match raw with
  | "{"%byte :: _ => "object"
  | "["%byte :: _ => "array"
  | x22 :: _ => "string"
  | "t"%byte :: _ | "f"%byte :: _ => "bool"
  | "n"%byte :: _ => "null"
  | _ => "number"
  end.

(** Store one value into one field.  [Content] takes the bytes of any
    value through [RawMessage.UnmarshalJSON]; a string field takes a
    string, ignores [null] and refuses everything else. *)
Definition store (f : field) (raw : list byte) (v : WebhookEvent)
    : WebhookEvent * option GoError :=
  match f with
  | FContent => (set_content raw v, None)
  | _ =>
      match raw with
      | x22 :: text => (set_string f (unquote (removelast text)) v, None)
      | "n"%byte :: _ => (v, None)
      | _ => (v, Some (ErrJSONUnmarshalType (value_kind raw) (field_name f)))
      end
  end.

(** [d.object]: members in order, unknown keys skipped, the first type
    error kept while decoding goes on. *)
Fixpoint object (ms : list (list byte * list byte)) (v : WebhookEvent)
    (saved : option GoError) : WebhookEvent * option GoError :=
  match ms with
  | [] => (v, saved)
  | (key, raw) :: rest =>
      match lookup_field (unquote key) with
      | Some f =>
          let (v', e) := store f raw v in
          object rest v' (match saved with Some _ => saved | None => e end)
      | None => object rest v saved
      end
  end.

(** [json.Unmarshal(data, &v)] for [v] a [WebhookEvent]: the updated
    value and the error returned. *)
Definition Unmarshal (data : list byte) (v : WebhookEvent) : WebhookEvent * option GoError :=
  if negb (checkValid data) then (v, Some ErrJSONSyntax)
  else
    match skip_space data with
    | "{"%byte :: rest => object (members (length rest) rest) v None
    | "n"%byte :: _ => (v, None)
    | raw => (v, Some (ErrJSONUnmarshalType (value_kind raw) ""))
    end.

End JSON.

(** ** The world a handler runs in

    A handler writes a response, logs, calls the Redis client and takes
    time.  [World] records all of it: the status and body written so far,
    the events caused in order, a logical clock in nanoseconds (the
    unit of [time.Duration]), and what the comparisons of [crypto/subtle]
    made so far have let an observer of their running see.
    [EvVerifySignature] and [EvUnmarshal] mark the calls of
    [s.verifySignature] and [json.Unmarshal], so that their order can be
    stated. *)

Inductive LogArg : Type :=
| ArgString (s : string)
| ArgError (e : GoError).

Inductive Event : Type :=
| EvLog (format : string) (args : list LogArg)
| EvReadBody
| EvCloseBody
| EvVerifySignature (payload : list byte) (signature : string)
| EvUnmarshal (data : list byte)
| EvPublish (channel : string) (message : list byte)
| EvPing (timeout : N)
| EvWriteHeader (code : Z)
| EvWrite (data : list byte)
| EvHandleFunc (pattern : string)
| EvListenAndServe (addr : string)
| EvAwaitSignal
| EvShutdown (timeout : N)
| EvRedisClose.

Record World : Type := mkWorld {
  status : option Z;
  written : list byte;
  trace : list Event;
  clock : N;
  leaked : list Subtle.Leak }.

Definition start : World := mkWorld None [] [] 0 [].

(** How a Go function call ends: it returns, it panics, or the process
    exits under it ([os.Exit]). *)
Inductive outcome (A : Type) : Type :=
| Returned (a : A)
| Panicked (msg : string)
| Exited (code : Z).
Arguments Returned {A} a.
Arguments Panicked {A} msg.
Arguments Exited {A} code.

Definition Exec (A : Type) : Type := World -> outcome A * World.

Definition ret {A : Type} (a : A) : Exec A := fun w => (Returned a, w).

Definition bind {A B : Type} (m : Exec A) (k : A -> Exec B) : Exec B :=
  fun w =>
    match m w with
    | (Returned a, w') => k a w'
    | (Panicked msg, w') => (Panicked msg, w')
    | (Exited code, w') => (Exited code, w')
    end.

Declare Scope exec_scope.
Delimit Scope exec_scope with exec.
Notation "x <- m ;; k" := (bind m (fun x => k))
  (at level 61, m at next level, right associativity) : exec_scope.
Notation "m ;; k" := (bind m (fun _ => k))
  (at level 61, right associativity) : exec_scope.
Local Open Scope exec_scope.

Definition emit (e : Event) : Exec unit :=
  fun w => (Returned tt,
            mkWorld (status w) (written w) (trace w ++ [e]) (clock w) (leaked w)).

Definition tick (d : N) : Exec unit :=
  fun w => (Returned tt,
            mkWorld (status w) (written w) (trace w) (clock w + d)%N (leaked w)).

Definition lift {A : Type} (o : outcome A) : Exec A := fun w => (o, w).

(** [defer d] in front of [m]: [d] runs when [m] returns or panics, not
    when the process exits. *)
Definition defer {A : Type} (d : Exec unit) (m : Exec A) : Exec A :=
  fun w =>
    match m w with
    | (Exited code, w') => (Exited code, w')
    | (o, w') => (o, snd (d w'))
    end.

Definition run {A : Type} (m : Exec A) : outcome A * World := m start.

(** *** crypto/hmac

    [hmac.Equal(mac1, mac2)] as a call: it returns the verdict of the
    comparison, and what the comparison shows while it runs is added to
    what has leaked. *)
Definition hmac_Equal (mac1 mac2 : list byte) : Exec bool :=
  fun w =>
    (Returned (HMAC.Equal mac1 mac2),
     mkWorld (status w) (written w) (trace w) (clock w)
             (leaked w ++ snd (HMAC.Equal_observed mac1 mac2))).

(** *** log *)

Definition log_Printf (format : string) (args : list LogArg) : Exec unit :=
  emit (EvLog format args).

Definition log_Println (msg : string) : Exec unit := emit (EvLog msg []).

(** [log.Fatalf] is [Printf] followed by [os.Exit(1)]. *)
Definition log_Fatalf {A : Type} (format : string) (args : list LogArg) : Exec A :=
  emit (EvLog format args) ;; lift (Exited 1).

(** *** net/http *)

Definition MethodPost : string := "POST".
Definition MethodGet : string := "GET".

Definition StatusOK : Z := 200.
Definition StatusBadRequest : Z := 400.
Definition StatusUnauthorized : Z := 401.
Definition StatusMethodNotAllowed : Z := 405.
Definition StatusInternalServerError : Z := 500.
Definition StatusServiceUnavailable : Z := 503.

(** A request as the handlers see it: the method, what [io.ReadAll] of the
    body yields, and the header with its keys in canonical form. *)
Record Request : Type := mkRequest {
  Method : string;
  Body : list byte + GoError;
  Header : list (string * list string) }.

(** [r.Header.Get(key)]: the first value under [key], or the empty
    string. *)
Fixpoint Header_Get (h : list (string * list string)) (key : string) : string :=
  match h with
  | [] => ""
  | (k, vs) :: rest => if String.eqb k key then hd ""%string vs else Header_Get rest key
  end.

(** [w.WriteHeader(code)]: only the first call counts. *)
Definition WriteHeader (code : Z) : Exec unit :=
  fun w =>
    (Returned tt,
     mkWorld (match status w with Some c => Some c | None => Some code end)
             (written w) (trace w ++ [EvWriteHeader code]) (clock w) (leaked w)).

(** [w.Write(data)]: an implicit [WriteHeader(200)] if none was written. *)
Definition Write (data : list byte) : Exec unit :=
  fun w =>
    (Returned tt,
     mkWorld (match status w with Some c => Some c | None => Some StatusOK end)
             (written w ++ data) (trace w ++ [EvWrite data]) (clock w) (leaked w)).

(** [http.Error(w, msg, code)]: the status, then [msg] and a newline. *)
Definition http_Error (msg : string) (code : Z) : Exec unit :=
  WriteHeader code ;; Write (Bytes.of_string msg ++ [x0a]).

(** [io.ReadAll(r.Body)]. *)
Definition io_ReadAll (r : Request) : Exec (list byte + GoError) :=
  emit EvReadBody ;; ret (Body r).

Definition Body_Close : Exec unit := emit EvCloseBody.

(** What becomes of an [http.Server] once started.  [serve_err addr] is
    the error, other than [http.ErrServerClosed], with which
    [ListenAndServe] on [addr] comes back while the process waits for its
    signal (the address cannot be bound, the listener breaks); [None] when
    it serves until [Shutdown] makes it return [http.ErrServerClosed].
    [shutdown_err] is what [Shutdown] returns. *)
Record HTTPServer : Type := mkHTTPServer {
  serve_err : string -> option GoError;
  shutdown_err : option GoError }.

(** [httpServer.ListenAndServe()], with [httpServer.Addr] as [addr]. *)
Definition ListenAndServe (h : HTTPServer) (addr : string) : Exec (option GoError) :=
  emit (EvListenAndServe addr) ;; ret (serve_err h addr).

(** [httpServer.Shutdown(ctx)] under [context.WithTimeout(_, timeout)]. *)
Definition Shutdown (h : HTTPServer) (timeout : N) : Exec (option GoError) :=
  emit (EvShutdown timeout) ;; ret (shutdown_err h).

(** [json.Unmarshal(data, &event)] on a fresh [event]. *)
Definition json_Unmarshal (data : list byte)
    : Exec (JSON.WebhookEvent * option GoError) :=
  emit (EvUnmarshal data) ;; ret (JSON.Unmarshal data JSON.zero_event).

(** *** The Redis client

    What the client at the other end of [redis.Client] does: the error
    [Publish(...).Err()] yields, and whether and when a PING is
    answered. *)

Record RedisClient : Type := mkRedisClient {
  publish_err : string -> list byte -> option GoError;
  ping_reply : option (N * option GoError) }.

Definition Second : N := 1000000000.

(** [c.Publish(context.Background(), channel, message).Err()]. *)
Definition Publish (c : RedisClient) (channel : string) (message : list byte)
    : Exec (option GoError) :=
  emit (EvPublish channel message) ;; ret (publish_err c channel message).

(** [c.Ping(ctx).Err()] under [context.WithTimeout(_, timeout)]: the
    reply if it comes before the deadline, [context.DeadlineExceeded] at
    the deadline otherwise. *)
Definition Ping (c : RedisClient) (timeout : N) : Exec (option GoError) :=
  emit (EvPing timeout) ;;
  match ping_reply c with
  | Some (latency, e) =>
      if (latency <? timeout)%N then tick latency ;; ret e
      else tick timeout ;; ret (Some ErrDeadlineExceeded)
  | None => tick timeout ;; ret (Some ErrDeadlineExceeded)
  end.

(** ** The symmetric revision of [main.go] *)

Module Symmetric.

Record Config : Type := mkConfig {
  Port : string;
  RedisAddr : string;
  RedisChannel : string;
  WebhookSecret : string }.

Record Server : Type := mkServer {
  config : Config;
  redisClient : RedisClient }.

(** The envelope; its decoding is in [JSON]. *)
Definition WebhookEvent : Type := JSON.WebhookEvent.

(** The two byte strings [verifySignature] hands to [hmac.Equal]. *)
Definition expectedSignature (s : Server) (payload : list byte) : string :=
  let expectedMAC := HMAC.Sum (Bytes.of_string (WebhookSecret (config s))) payload in
  Base64.EncodeToString expectedMAC.

Definition verifySignature (s : Server) (payload : list byte) (signature : string)
    : Exec bool :=
  if String.eqb (WebhookSecret (config s)) "" then
    log_Println "Warning: No webhook secret configured, skipping signature verification" ;;
    ret true
  else
    hmac_Equal (Bytes.of_string signature)
               (Bytes.of_string (expectedSignature s payload)).

Definition handleWebhook (s : Server) (r : Request) : Exec unit :=
  if negb (String.eqb (Method r) MethodPost) then
    http_Error "Method not allowed" StatusMethodNotAllowed
  else
    read <- io_ReadAll r ;;
    match read with
    | inr err =>
        log_Printf "Error reading request body: %v" [ArgError err] ;;
        http_Error "Bad request" StatusBadRequest
    | inl body =>
        defer Body_Close (
          let signature := Header_Get (Header r) "X-Hook-Signature" in
          emit (EvVerifySignature body signature) ;;
          ok <- verifySignature s body signature ;;
          if negb ok then
            log_Printf "Invalid signature for webhook" [] ;;
            http_Error "Unauthorized" StatusUnauthorized
          else
            decoded <- json_Unmarshal body ;;
            match decoded with
            | (_, Some err) =>
                log_Printf "Error parsing webhook event: %v" [ArgError err] ;;
                http_Error "Bad request" StatusBadRequest
            | (event, None) =>
                perr <- Publish (redisClient s) (RedisChannel (config s)) body ;;
                match perr with
                | Some err =>
                    log_Printf "Error publishing to Redis: %v" [ArgError err] ;;
                    http_Error "Internal server error" StatusInternalServerError
                | None =>
                    log_Printf "Published event type %s to Redis channel %s"
                      [ArgString (JSON.EventType event);
                       ArgString (RedisChannel (config s))] ;;
                    WriteHeader StatusOK ;;
                    Write (Bytes.of_string "OK")
                end
            end)
    end.

(** The context of [context.WithTimeout] and its deferred [cancel] have
    no effect of their own beyond the deadline [Ping] runs under. *)
Definition handleHealth (s : Server) (r : Request) : Exec unit :=
  err <- Ping (redisClient s) (2 * Second) ;;
  match err with
  | Some _ => http_Error "Service unavailable" StatusServiceUnavailable
  | None => WriteHeader StatusOK ;; Write (Bytes.of_string "OK")
  end.

End Symmetric.

(** ** The asymmetric revision of [main.go] *)

Module Asymmetric.

Record Config : Type := mkConfig {
  Port : string;
  RedisAddr : string;
  RedisChannel : string;
  WebhookSecret : string;
  RedisPassword : string }.

(** [rsa.PublicKey]: the modulus [N] and the exponent [E]. *)
Record RSAPublicKey : Type := mkRSAPublicKey {
  rsa_N : Z;
  rsa_E : Z }.

(** The dynamic types of the [any] that [x509.ParsePKIXPublicKey] returns. *)
Inductive PublicKey : Type :=
| KeyRSA (k : RSAPublicKey)
| KeyDSA (raw : list byte)
| KeyECDSA (raw : list byte)
| KeyEd25519 (raw : list byte)
| KeyECDH (raw : list byte).

(** [publicKey] is a pointer: [None] is nil, its value until
    [initialiseKey] has succeeded. *)
Record Server : Type := mkServer {
  config : Config;
  redisClient : RedisClient;
  publicKey : option RSAPublicKey }.

(** The envelope; its decoding is in [JSON]. *)
Definition WebhookEvent : Type := JSON.WebhookEvent.

Section Crypto.

(** The library functions of [crypto/x509], [crypto/sha256] and
    [crypto/rsa] the revision calls.  [VerifyPKCS1v15 pub hashed sig] is
    [rsa.VerifyPKCS1v15(pub, crypto.SHA256, hashed, sig)] on a non-nil
    [pub]. *)
Variable ParsePKIXPublicKey : list byte -> PublicKey + GoError.
Variable Sum256 : list byte -> list byte.
Variable VerifyPKCS1v15 : RSAPublicKey -> list byte -> list byte -> option GoError.

(** The server after the call and the error returned. *)
Definition initialiseKey (s : Server) : Server * option GoError :=
  match Base64.DecodeString (WebhookSecret (config s)) with
  | None => (s, Some ErrBase64CorruptInput)
  | Some der =>
      match ParsePKIXPublicKey der with
      | inr err => (s, Some err)
      | inl pub =>
          match pub with
          | KeyRSA rsaPub => (mkServer (config s) (redisClient s) (Some rsaPub), None)
          | _ => (s, Some (ErrorsNew "not an RSA public key"))
          end
      end
  end.

(** [rsa.VerifyPKCS1v15] reads through its key pointer, so a nil
    [s.publicKey] is a nil-pointer panic. *)
Definition verifySignature (s : Server) (payload : list byte) (signature : string)
    : outcome bool :=
  if String.eqb (WebhookSecret (config s)) "" then Returned true
  else
    match Base64.DecodeString signature with
    | None => Returned false
    | Some sigBytes =>
        let hash := Sum256 payload in
        match publicKey s with
        | None => Panicked "invalid memory address or nil pointer dereference"
        | Some pub =>
            match VerifyPKCS1v15 pub hash sigBytes with
            | None => Returned true
            | Some _ => Returned false
            end
        end
    end.

Definition handleWebhook (s : Server) (r : Request) : Exec unit :=
  if negb (String.eqb (Method r) MethodPost) then
    http_Error "Method not allowed" StatusMethodNotAllowed
  else
    read <- io_ReadAll r ;;
    match read with
    | inr err =>
        log_Printf "Error reading request body: %v" [ArgError err] ;;
        http_Error "Bad request" StatusBadRequest
    | inl body =>
        let signature := Header_Get (Header r) "X-Hook-Signature" in
        emit (EvVerifySignature body signature) ;;
        ok <- lift (verifySignature s body signature) ;;
        if negb ok then
          log_Printf "Invalid signature for webhook" [] ;;
          http_Error "Unauthorized" StatusUnauthorized
        else
          decoded <- json_Unmarshal body ;;
          match decoded with
          | (_, Some err) =>
              log_Printf "Error parsing webhook event: %v" [ArgError err] ;;
              http_Error "Bad request" StatusBadRequest
          | (event, None) =>
              perr <- Publish (redisClient s) (RedisChannel (config s)) body ;;
              match perr with
              | Some err =>
                  log_Printf "Error publishing to Redis: %v" [ArgError err] ;;
                  http_Error "Internal server error" StatusInternalServerError
              | None =>
                  log_Printf "Published event type %s to Redis channel %s"
                    [ArgString (JSON.EventType event);
                     ArgString (RedisChannel (config s))] ;;
                  WriteHeader StatusOK ;;
                  Write (Bytes.of_string "OK")
              end
          end
    end.

Definition handleHealth (s : Server) (r : Request) : Exec unit :=
  err <- Ping (redisClient s) (2 * Second) ;;
  match err with
  | Some _ => http_Error "Service unavailable" StatusServiceUnavailable
  | None => WriteHeader StatusOK ;; Write (Bytes.of_string "OK")
  end.

(** [os.Getenv] is the function [environ]. *)
Definition getEnv (environ : string -> string) (key defaultValue : string) : string :=
  if negb (String.eqb (environ key) "") then environ key else defaultValue.

Definition loadConfig (environ : string -> string) : Exec Config :=
  let config :=
    mkConfig (getEnv environ "PORT" "8080")
             (getEnv environ "REDIS_ADDR" "localhost:6379")
             (getEnv environ "REDIS_CHANNEL" "starling_events")
             (getEnv environ "WEBHOOK_SECRET" "")
             (getEnv environ "REDIS_PASSWORD" "") in
  (if String.eqb (WebhookSecret config) "" then
     log_Println "Warning: WEBHOOK_SECRET not set. Webhook signature verification will be skipped."
   else ret tt) ;;
  (if String.eqb (RedisPassword config) "" then
     log_Println "Warning: REDIS_PASSWORD not set. Redis connection will be attempted without a password."
   else ret tt) ;;
  ret config.

(** [redis.NewClient] is [dial], from address and password to the client
    reached. *)
Definition NewServer (dial : string -> string -> RedisClient) (config : Config)
    : Exec (Server + GoError) :=
  let redisClient := dial (RedisAddr config) (RedisPassword config) in
  err <- Ping redisClient (5 * Second) ;;
  match err with
  | Some e => ret (inr (ErrWrapped "failed to connect to Redis" e))
  | None =>
      log_Printf "Connected to Redis at %s" [ArgString (RedisAddr config)] ;;
      ret (inl (mkServer config redisClient None))
  end.

(** [main] as one sequence of events.  The goroutine that logs and calls
    [ListenAndServe] runs beside the wait for the signal: either
    [ListenAndServe] comes back with an error first, and the goroutine's
    [log.Fatalf] exits the process, or requests are served until the
    signal [EvAwaitSignal] stands for, and [main] shuts the server down
    and returns.  [log.SetFlags] changes the prefix of the log lines
    only, and the two timeouts of [http.Server] bound single requests;
    neither shows in the events. *)
Definition main (environ : string -> string) (dial : string -> string -> RedisClient)
    (http : HTTPServer) : Exec unit :=
  config <- loadConfig environ ;;
  created <- NewServer dial config ;;
  match created with
  | inr err => log_Fatalf "Failed to create server: %v" [ArgError err]
  | inl server =>
      defer (emit EvRedisClose) (
        match initialiseKey server with
        | (_, Some err) => log_Fatalf "Failed to initialise key: %v" [ArgError err]
        | (server', None) =>
            emit (EvHandleFunc "/webhook") ;;
            emit (EvHandleFunc "/health") ;;
            log_Printf "Starting server on port %s" [ArgString (Port config)] ;;
            served <- ListenAndServe http (":" ++ Port config) ;;
            match served with
            | Some err => log_Fatalf "Server error: %v" [ArgError err]
            | None =>
                emit EvAwaitSignal ;;
                log_Println "Shutting down server..." ;;
                stopped <- Shutdown http (5 * Second) ;;
                match stopped with
                | Some err => log_Printf "Server shutdown error: %v" [ArgError err]
                | None => ret tt
                end ;;
                log_Println "Server stopped"
            end
        end)
  end.

End Crypto.

End Asymmetric.

(** ** Observations on a run *)

(** The processing steps among the events: reading the body, verifying,
    decoding, publishing. *)
Definition is_step (e : Event) : bool :=
  match e with
  | EvReadBody | EvVerifySignature _ _ | EvUnmarshal _ | EvPublish _ _ => true
  | _ => false
  end.

Definition steps (w : World) : list Event := filter is_step (trace w).

(** The [Publish] calls among the events, as channel and message. *)
Definition publishes_of (l : list Event) : list (string * list byte) :=
  flat_map (fun e => match e with EvPublish c m => [(c, m)] | _ => [] end) l.

Definition published (w : World) : list (string * list byte) := publishes_of (trace w).

(** Everything but writing the response. *)
Definition is_response_write (e : Event) : bool :=
  match e with
  | EvWriteHeader _ | EvWrite _ => true
  | _ => false
  end.

Definition side_effects (w : World) : list Event :=
  filter (fun e => negb (is_response_write e)) (trace w).

Definition is_serving (e : Event) : bool :=
  match e with
  | EvHandleFunc _ | EvListenAndServe _ => true
  | _ => false
  end.

(** The value [verifySignature] returns, for each revision. *)
Definition symmetric_accepts (s : Symmetric.Server) (payload : list byte)
    (signature : string) : bool :=
  match fst (Symmetric.verifySignature s payload signature start) with
  | Returned b => b
  | _ => false
  end.

Definition asymmetric_accepts (Sum256 : list byte -> list byte)
    (VerifyPKCS1v15 : Asymmetric.RSAPublicKey -> list byte -> list byte -> option GoError)
    (s : Asymmetric.Server) (payload : list byte) (signature : string) : bool :=
  match Asymmetric.verifySignature Sum256 VerifyPKCS1v15 s payload signature with
  | Returned b => b
  | _ => false
  end.

(** ** Bodies that fit the envelope

    [WebhookEvent] has four fields of type [string] and one, [Content], of
    type [json.RawMessage].  A JSON value fits a string field when it is a
    string or [null], and fits [Content] whatever it is.  A body fits the
    envelope when it is valid JSON, its value is an object or [null], and
    every member of the object whose key selects a field carries a value
    that fits the field.  Nothing in this asks for a member to be
    there. *)

Definition kind_fits (f : JSON.field) (raw : list byte) : bool :=
  match f, raw with
  | JSON.FContent, _ => true
  | _, x22 :: _ => true
  | _, "n"%byte :: _ => true
  | _, _ => false
  end.

Definition member_fits (m : list byte * list byte) : bool :=
  match JSON.lookup_field (JSON.unquote (fst m)) with
  | Some f => kind_fits f (snd m)
  | None => true
  end.

Definition fits_envelope (body : list byte) : bool :=
  JSON.checkValid body &&
  match JSON.skip_space body with
  | "{"%byte :: rest => forallb member_fits (JSON.members (length rest) rest)
  | "n"%byte :: _ => true
  | _ => false
  end.

Definition field_eqb (f g : JSON.field) : bool :=
  match f, g with
  | JSON.FEventType, JSON.FEventType
  | JSON.FTimestamp, JSON.FTimestamp
  | JSON.FContent, JSON.FContent
  | JSON.FAccountHolderUID, JSON.FAccountHolderUID
  | JSON.FEventID, JSON.FEventID => true
  | _, _ => false
  end.

(** Whether [body] is an object with a member whose key selects [f]. *)
Definition names_field (f : JSON.field) (body : list byte) : bool :=
  match JSON.skip_space body with
  | "{"%byte :: rest =>
      existsb (fun m => match JSON.lookup_field (JSON.unquote (fst m)) with
                        | Some g => field_eqb g f
                        | None => false
                        end)
              (JSON.members (length rest) rest)
  | _ => false
  end.

(** The field [f] of an envelope, as bytes. *)
Definition field_value (f : JSON.field) (v : JSON.WebhookEvent) : list byte :=
  match f with
  | JSON.FEventType => Bytes.of_string (JSON.EventType v)
  | JSON.FTimestamp => Bytes.of_string (JSON.Timestamp v)
  | JSON.FContent => JSON.Content v
  | JSON.FAccountHolderUID => Bytes.of_string (JSON.AccountHolderUID v)
  | JSON.FEventID => Bytes.of_string (JSON.EventID v)
  end.

(** The JSON text of an object whose members are strings, for keys and
    values that need no escaping: no quote, no backslash, no control
    character. *)
Definition plain_byte (c : byte) : bool :=
  negb (Bytes.eqb c x22) && negb (Bytes.eqb c "\") && negb (Bytes.to_Z c <? 32).

Definition plain (text : string) : bool := forallb plain_byte (Bytes.of_string text).

Definition plain_members (ms : list (string * string)) : bool :=
  forallb (fun m => plain (fst m) && plain (snd m)) ms.

Definition quoted (text : string) : list byte := x22 :: Bytes.of_string text ++ [x22].

Definition member_text (m : string * string) : list byte :=
  quoted (fst m) ++ ":"%byte :: quoted (snd m).

Fixpoint member_texts (ms : list (string * string)) : list byte :=
  match ms with
  | [] => []
  | [m] => member_text m
  | m :: rest => member_text m ++ ","%byte :: member_texts rest
  end.

Definition object_text (ms : list (string * string)) : list byte :=
  "{"%byte :: member_texts ms ++ ["}"%byte].

(** ** The request path in the words of the specification

    Section 4.2 of the specification: method check, body read, signature
    check, decode, publish, each failure terminal.  [spec_request_path]
    gives, for a request, the status and body of the response and the
    processing steps taken, in order. *)

Definition X_Hook_Signature : string := "X-Hook-Signature".

Definition spec_request_path (verify : list byte -> string -> bool) (redis : RedisClient)
    (channel : string) (r : Request) : option Z * string * list Event :=
  if negb (String.eqb (Method r) "POST") then
    (Some 405, String.append "Method not allowed" (String "010" ""), [])
  else
    match Body r with
    | inr _ => (Some 400, String.append "Bad request" (String "010" ""), [EvReadBody])
    | inl body =>
        let signature := Header_Get (Header r) X_Hook_Signature in
        let verified := [EvReadBody; EvVerifySignature body signature] in
        if negb (verify body signature) then
          (Some 401, String.append "Unauthorized" (String "010" ""), verified)
        else
          match snd (JSON.Unmarshal body JSON.zero_event) with
          | Some _ =>
              (Some 400, String.append "Bad request" (String "010" ""),
               verified ++ [EvUnmarshal body])
          | None =>
              let forwarded := verified ++ [EvUnmarshal body; EvPublish channel body] in
              match publish_err redis channel body with
              | Some _ =>
                  (Some 500, String.append "Internal server error" (String "010" ""),
                   forwarded)
              | None => (Some 200, "OK"%string, forwarded)
              end
          end
    end.

(** What a run shows of the request path. *)
Definition observed (w : World) : option Z * string * list Event :=
  (status w, Bytes.to_string (written w), steps w).


(** ** Key material in the words of the specification

    Section 7 (d): the configured secret is not valid base64, or what it
    decodes to does not parse as a PKIX public key, or the key parsed is
    not an RSA key. *)
Definition spec_invalid_key_material
    (ParsePKIXPublicKey : list byte -> Asymmetric.PublicKey + GoError)
    (secret : string) : Prop :=
  Base64.DecodeString secret = None \/
  (exists der err,
      Base64.DecodeString secret = Some der /\ ParsePKIXPublicKey der = inr err) \/
  (exists der pub,
      Base64.DecodeString secret = Some der /\ ParsePKIXPublicKey der = inl pub /\
      forall k, pub <> Asymmetric.KeyRSA k).

(** ** Fixtures

    The values of the repository's tests ([TestVerifySignature],
    [TestHandleWebhookInvalidJSON], ...), and stand-ins for the three
    library functions of the asymmetric revision so that it can be run on
    concrete requests: a parser that knows two key blobs, a digest, and a
    verification that accepts the digest itself as its signature. *)

Module Fixture.

Definition redis_up : RedisClient :=
  mkRedisClient (fun _ _ => None) (Some (1000000%N, None)).

Definition redis_down : RedisClient :=
  mkRedisClient (fun _ _ => Some (ErrRedis "connection refused")) None.

(** A listener that serves until it is shut down, and one whose address
    cannot be bound. *)
Definition http_up : HTTPServer := mkHTTPServer (fun _ => None) None.

Definition http_down : HTTPServer :=
  mkHTTPServer (fun _ => Some (ErrIO "listen tcp: address already in use")) None.

(** JSON text, its double quotes written as single quotes. *)
Definition json (text : string) : list byte :=
  map (fun b => if Bytes.eqb b "'" then x22 else b) (Bytes.of_string text).

Definition payload : list byte := json "{'eventType':'TEST'}".

(** [base64(HMAC-SHA512("test-secret", payload))]. *)
Definition validSignature : string :=
  "1abJ+0a3XbjsqMhMjDkLorBZ8yEukxoOx8Dr38fDgZtCvKsg8IkCVqn/RlSSfIVBYc0C1hXDpcAnVHrLlFckNQ==".

Definition server : Symmetric.Server :=
  Symmetric.mkServer
    (Symmetric.mkConfig "8080" "localhost:6379" "test" "test-secret") redis_up.

Definition open_server : Symmetric.Server :=
  Symmetric.mkServer (Symmetric.mkConfig "8080" "localhost:6379" "test" "") redis_up.

Definition post (body : list byte) (signature : string) : Request :=
  mkRequest "POST" (inl body) [("X-Hook-Signature"%string, [signature])].

Definition get : Request := mkRequest "GET" (inl []) [].

(** Stand-ins for [x509.ParsePKIXPublicKey], [sha256.Sum256] and
    [rsa.VerifyPKCS1v15]. *)
Definition rsa_key : Asymmetric.RSAPublicKey := Asymmetric.mkRSAPublicKey 3233 17.

Definition ParsePKIXPublicKey (der : list byte) : Asymmetric.PublicKey + GoError :=
  if Bytes.list_eqb der (Bytes.of_string "rsa key") then inl (Asymmetric.KeyRSA rsa_key)
  else if Bytes.list_eqb der (Bytes.of_string "ed25519 key") then
    inl (Asymmetric.KeyEd25519 der)
  else inr (ErrX509 "x509: failed to parse public key").

Definition Sum256 (data : list byte) : list byte := firstn 32 (SHA512.Sum512 data).

Definition VerifyPKCS1v15 (pub : Asymmetric.RSAPublicKey) (hashed sig : list byte)
    : option GoError :=
  if Bytes.list_eqb hashed sig then None else Some ErrRSAVerification.

(** [base64("rsa key")], [base64("ed25519 key")]. *)
Definition rsa_secret : string := "cnNhIGtleQ==".
Definition ed25519_secret : string := "ZWQyNTUxOSBrZXk=".

Definition asymmetric_config (secret : string) : Asymmetric.Config :=
  Asymmetric.mkConfig "8080" "localhost:6379" "test" secret "".

Definition asymmetric_server : Asymmetric.Server :=
  Asymmetric.mkServer (asymmetric_config rsa_secret) redis_up (Some rsa_key).

(** The signature the stand-in verification accepts for [payload]. *)
Definition asymmetric_signature : string := Base64.EncodeToString (Sum256 payload).

Definition environ (secret : string) (key : string) : string :=
  if String.eqb key "WEBHOOK_SECRET" then secret else "".

End Fixture.

(** ** Startup of the symmetric revision

    [getEnv], [loadConfig], [NewServer] and [main] of the symmetric
    revision.  They differ from the asymmetric ones in that there is no
    Redis password and no key to initialise. *)

Module SymmetricProcess.

(** [os.Getenv] is the function [environ]. *)
Definition getEnv (environ : string -> string) (key defaultValue : string) : string :=
  if negb (String.eqb (environ key) "") then environ key else defaultValue.

Definition loadConfig (environ : string -> string) : Exec Symmetric.Config :=
  let config :=
    Symmetric.mkConfig (getEnv environ "PORT" "8080")
                       (getEnv environ "REDIS_ADDR" "localhost:6379")
                       (getEnv environ "REDIS_CHANNEL" "starling_events")
                       (getEnv environ "WEBHOOK_SECRET" "") in
  (if String.eqb (Symmetric.WebhookSecret config) "" then
     log_Println "Warning: WEBHOOK_SECRET not set. Webhook signature verification will be skipped."
   else ret tt) ;;
  ret config.

(** [redis.NewClient] is [dial], from the address to the client reached. *)
Definition NewServer (dial : string -> RedisClient) (config : Symmetric.Config)
    : Exec (Symmetric.Server + GoError) :=
  let redisClient := dial (Symmetric.RedisAddr config) in
  err <- Ping redisClient (5 * Second) ;;
  match err with
  | Some e => ret (inr (ErrWrapped "failed to connect to Redis" e))
  | None =>
      log_Printf "Connected to Redis at %s" [ArgString (Symmetric.RedisAddr config)] ;;
      ret (inl (Symmetric.mkServer config redisClient))
  end.

(** [s.Close()], whose error [main] drops. *)
Definition Close (s : Symmetric.Server) : Exec unit := emit EvRedisClose.

(** [main] as one sequence of events, as for the asymmetric revision:
    the goroutine's [log.Fatalf] when [ListenAndServe] fails, the wait
    for the signal and the shutdown otherwise. *)
Definition main (environ : string -> string) (dial : string -> RedisClient)
    (http : HTTPServer) : Exec unit :=
  config <- loadConfig environ ;;
  created <- NewServer dial config ;;
  match created with
  | inr err => log_Fatalf "Failed to create server: %v" [ArgError err]
  | inl server =>
      defer (Close server) (
        emit (EvHandleFunc "/webhook") ;;
        emit (EvHandleFunc "/health") ;;
        log_Printf "Starting server on port %s" [ArgString (Symmetric.Port config)] ;;
        served <- ListenAndServe http (":" ++ Symmetric.Port config) ;;
        match served with
        | Some err => log_Fatalf "Server error: %v" [ArgError err]
        | None =>
            emit EvAwaitSignal ;;
            log_Println "Shutting down server..." ;;
            stopped <- Shutdown http (5 * Second) ;;
            match stopped with
            | Some err => log_Printf "Server shutdown error: %v" [ArgError err]
            | None => ret tt
            end ;;
            log_Println "Server stopped"
        end)
  end.

End SymmetricProcess.

(** ** More observations on a run *)

Definition is_close_body (e : Event) : bool :=
  match e with EvCloseBody => true | _ => false end.

Definition is_write_header (e : Event) : bool :=
  match e with EvWriteHeader _ => true | _ => false end.

Definition is_write (e : Event) : bool :=
  match e with EvWrite _ => true | _ => false end.

Definition is_redis_close (e : Event) : bool :=
  match e with EvRedisClose => true | _ => false end.

Definition is_log (e : Event) : bool :=
  match e with EvLog _ _ => true | _ => false end.

(** The log lines of a run. *)
Definition logged (w : World) : list Event := filter is_log (trace w).

(** The events by which a process serves, in order. *)
Definition serving (w : World) : list Event := filter is_serving (trace w).

(** The warning of the symmetric [verifySignature], and the one of
    [loadConfig]. *)
Definition no_secret_warning : Event :=
  EvLog "Warning: No webhook secret configured, skipping signature verification" [].

Definition startup_secret_warning : Event :=
  EvLog "Warning: WEBHOOK_SECRET not set. Webhook signature verification will be skipped." [].

Definition startup_password_warning : Event :=
  EvLog "Warning: REDIS_PASSWORD not set. Redis connection will be attempted without a password." [].

(** Whether a PING under the deadline [timeout] comes back without error. *)
Definition ping_ok (c : RedisClient) (timeout : N) : bool :=
  match fst (run (Ping c timeout)) with
  | Returned None => true
  | _ => false
  end.

(** Whether [initialiseKey] succeeds on the server [NewServer] builds. *)
Definition key_ok (ParsePKIXPublicKey : list byte -> Asymmetric.PublicKey + GoError)
    (config : Asymmetric.Config) (redis : RedisClient) : bool :=
  match snd (Asymmetric.initialiseKey ParsePKIXPublicKey
               (Asymmetric.mkServer config redis None)) with
  | None => true
  | Some _ => false
  end.

(** The configuration [loadConfig] returns. *)
Definition symmetric_config (environ : string -> string) : Symmetric.Config :=
  match fst (run (SymmetricProcess.loadConfig environ)) with
  | Returned config => config
  | _ => Symmetric.mkConfig "" "" "" ""
  end.

Definition asymmetric_config (environ : string -> string) : Asymmetric.Config :=
  match fst (run (Asymmetric.loadConfig environ)) with
  | Returned config => config
  | _ => Asymmetric.mkConfig "" "" "" "" ""
  end.

(** Whether [io.ReadAll] of the request's body succeeds. *)
Definition readable (r : Request) : bool :=
  match Body r with
  | inl _ => true
  | inr _ => false
  end.

Definition is_no_secret_warning (e : Event) : bool :=
  match e with
  | EvLog format [] =>
      String.eqb format
        "Warning: No webhook secret configured, skipping signature verification"
  | _ => false
  end.
(** * Properties *)

(** ** Bytes *)

Lemma to_Z_range (b : byte) : 0 <= Bytes.to_Z b < 256.
Proof.
  unfold Bytes.to_Z. pose proof (Byte.to_N_bounded b) as H.
  split; [apply N2Z.is_nonneg|].
  apply N.le_lteq in H. lia.
Qed.

Lemma of_to_Z (b : byte) : Bytes.of_Z (Bytes.to_Z b) = b.
Proof.
  unfold Bytes.of_Z. rewrite Z.mod_small by apply to_Z_range.
  unfold Bytes.to_Z. rewrite N2Z.id, Byte.of_to_N. reflexivity.
Qed.

Lemma to_of_Z (z : Z) : 0 <= z < 256 -> Bytes.to_Z (Bytes.of_Z z) = z.
Proof.
  intros Hz. unfold Bytes.of_Z. rewrite Z.mod_small by exact Hz.
  destruct (Byte.of_N (Z.to_N z)) as [b|] eqn:E.
  - apply Byte.to_of_N in E. unfold Bytes.to_Z. rewrite E. lia.
  - apply Byte.of_N_None_iff in E. lia.
Qed.

Lemma byte_eqb_eq (a b : byte) : Bytes.eqb a b = true <-> a = b.
Proof. unfold Bytes.eqb. split; [apply Byte.byte_dec_bl | apply Byte.byte_dec_lb]. Qed.

Lemma list_eqb_eq (x y : list byte) : Bytes.list_eqb x y = true <-> x = y.
Proof.
  revert y; induction x as [|a x IH]; intros [|b y]; simpl;
    try (split; [discriminate|discriminate]); try tauto.
  rewrite andb_true_iff, byte_eqb_eq, IH.
  split; [intros [-> ->]; reflexivity | intros H; inversion H; auto].
Qed.

Lemma flip_byte_neq (k : nat) (b : byte) : (k < 8)%nat -> Bytes.flip_byte k b <> b.
Proof.
  intros Hk.
  do 8 (destruct k as [|k]; [destruct b; vm_compute; discriminate|]).
  lia.
Qed.

Lemma flip_bit_neq (l : list byte) :
  forall i, (i < 8 * length l)%nat -> Bytes.flip_bit i l <> l.
Proof.
  induction l as [|b tl IH]; intros i Hi; simpl in *; [lia|].
  destruct (Nat.ltb i 8) eqn:E.
  - apply Nat.ltb_lt in E. intros H. inversion H as [Hb].
    now apply (flip_byte_neq i b).
  - apply Nat.ltb_ge in E. intros H. inversion H as [Htl].
    apply (IH (i - 8)%nat); [lia | exact Htl].
Qed.

Lemma flip_bit_length (l : list byte) : forall i, length (Bytes.flip_bit i l) = length l.
Proof.
  induction l as [|b tl IH]; intros i; simpl; [reflexivity|].
  destruct (Nat.ltb i 8); simpl; [reflexivity | now rewrite IH].
Qed.

(** *** Arithmetic of the base64 quantum *)

Lemma lor_shiftl_add (hi lo n : Z) :
  0 <= n -> 0 <= lo < 2 ^ n -> Z.lor (Z.shiftl hi n) lo = hi * 2 ^ n + lo.
Proof.
  intros Hn Hlo.
  rewrite <- (Z.shiftl_mul_pow2 hi n Hn), <- Z.add_lor_land.
  assert (E : Z.land (Z.shiftl hi n) lo = 0).
  { apply Z.bits_inj'. intros i Hi.
    rewrite Z.land_spec, Z.bits_0.
    destruct (Z.lt_ge_cases i n) as [Hlt|Hge].
    - now rewrite Z.shiftl_spec_low.
    - rewrite <- (Z.mod_small lo (2 ^ n)) by exact Hlo.
      rewrite Z.mod_pow2_bits_high by lia. apply andb_false_r. }
  rewrite E. lia.
Qed.

Lemma land_63 (v : Z) : Z.land v 63 = v mod 64.
Proof. exact (Z.land_ones v 6 ltac:(lia)). Qed.

Lemma encode6_decode6 (v : Z) : 0 <= v < 64 -> Base64.decode6 (Base64.encode6 v) = Some v.
Proof.
  intros Hv. rewrite <- (Z2Nat.id v) by lia.
  assert (Hn : (Z.to_nat v < 64)%nat) by lia.
  generalize dependent (Z.to_nat v). clear v Hv. intros n Hn.
  do 64 (destruct n as [|n]; [reflexivity|]). lia.
Qed.

Lemma encode6_not_newline (v : Z) : Base64.is_newline (Base64.encode6 v) = false.
Proof.
  unfold Base64.encode6.
  generalize (Z.to_nat v). intros n.
  do 65 (destruct n as [|n]; [reflexivity|]). reflexivity.
Qed.

Lemma Encode_no_newline (src : list byte) :
  filter (fun c => negb (Base64.is_newline c)) (Base64.Encode src) = Base64.Encode src.
Proof.
  assert (P : forall n src, (length src <= n)%nat ->
    filter (fun c => negb (Base64.is_newline c)) (Base64.Encode src) = Base64.Encode src).
  { clear src. induction n as [|n IH]; intros src Hlen.
    - destruct src; [reflexivity | simpl in Hlen; lia].
    - destruct src as [|a [|b [|c rest]]]; try reflexivity;
        unfold Base64.Encode; fold Base64.Encode; unfold Base64.sextet;
        cbn [filter]; rewrite ?encode6_not_newline; cbn [negb]; try reflexivity.
      rewrite IH by (simpl in Hlen; lia). reflexivity. }
  apply (P (length src)). lia.
Qed.

Lemma quantum3 (a b c : Z) :
  0 <= a < 256 -> 0 <= b < 256 -> 0 <= c < 256 ->
  let val := Z.lor (Z.lor (Z.shiftl a 16) (Z.shiftl b 8)) c in
  val = a * 65536 + b * 256 + c.
Proof.
  intros Ha Hb Hc val. subst val.
  rewrite (Z.shiftl_mul_pow2 b 8) by lia.
  rewrite (lor_shiftl_add a (b * 2 ^ 8) 16) by lia.
  replace (a * 2 ^ 16 + b * 2 ^ 8) with ((a * 256 + b) * 2 ^ 8) by lia.
  rewrite <- (Z.shiftl_mul_pow2 _ 8) by lia.
  rewrite lor_shiftl_add by lia. lia.
Qed.

Lemma quantum_add (d0 d1 d2 d3 : Z) :
  0 <= d0 < 64 -> 0 <= d1 < 64 -> 0 <= d2 < 64 -> 0 <= d3 < 64 ->
  Base64.quantum d0 d1 d2 d3 = d0 * 262144 + d1 * 4096 + d2 * 64 + d3.
Proof.
  intros H0 H1 H2 H3. unfold Base64.quantum.
  rewrite (Z.shiftl_mul_pow2 d1 12), (Z.shiftl_mul_pow2 d2 6) by lia.
  rewrite (lor_shiftl_add d0 (d1 * 2 ^ 12) 18) by lia.
  replace (d0 * 2 ^ 18 + d1 * 2 ^ 12) with ((d0 * 64 + d1) * 2 ^ 12) by lia.
  rewrite <- (Z.shiftl_mul_pow2 _ 12) by lia.
  rewrite (lor_shiftl_add _ (d2 * 2 ^ 6) 12) by lia.
  replace ((d0 * 64 + d1) * 2 ^ 12 + d2 * 2 ^ 6) with (((d0 * 64 + d1) * 64 + d2) * 2 ^ 6) by lia.
  rewrite <- (Z.shiftl_mul_pow2 _ 6) by lia.
  rewrite lor_shiftl_add by lia. lia.
Qed.

Lemma decode6_sextet (val k : Z) :
  Base64.decode6 (Base64.sextet val k) = Some (Z.land (Z.shiftr val k) 63).
Proof.
  unfold Base64.sextet. apply encode6_decode6.
  rewrite land_63. apply Z.mod_pos_bound. lia.
Qed.

Lemma decode_quanta_step (c0 c1 c2 c3 : byte) (rest : list byte) :
  Base64.decode_quanta (c0 :: c1 :: c2 :: c3 :: rest) =
  match Base64.decode6 c0, Base64.decode6 c1 with
  | Some d0, Some d1 =>
      match Base64.decode6 c2, Base64.decode6 c3 with
      | Some d2, Some d3 =>
          let val := Base64.quantum d0 d1 d2 d3 in
          match Base64.decode_quanta rest with
          | Some out =>
              Some (Bytes.of_Z (Z.shiftr val 16) :: Bytes.of_Z (Z.shiftr val 8)
                      :: Bytes.of_Z val :: out)
          | None => None
          end
      | Some d2, None =>
          if Bytes.eqb c3 Base64.padChar then
            match rest with
            | [] =>
                let val := Base64.quantum d0 d1 d2 0 in
                Some [Bytes.of_Z (Z.shiftr val 16); Bytes.of_Z (Z.shiftr val 8)]
            | _ :: _ => None
            end
          else None
      | None, _ =>
          if Bytes.eqb c2 Base64.padChar && Bytes.eqb c3 Base64.padChar then
            match rest with
            | [] => Some [Bytes.of_Z (Z.shiftr (Base64.quantum d0 d1 0 0) 16)]
            | _ :: _ => None
            end
          else None
      end
  | _, _ => None
  end.
Proof. reflexivity. Qed.

Lemma of_Z_mod (z : Z) : Bytes.of_Z (z mod 256) = Bytes.of_Z z.
Proof. unfold Bytes.of_Z. now rewrite Z.mod_mod by lia. Qed.

Lemma of_Z_eq (z : Z) (b : byte) : z mod 256 = Bytes.to_Z b -> Bytes.of_Z z = b.
Proof. intros H. rewrite <- of_Z_mod, H. apply of_to_Z. Qed.

Ltac bits_to_arith :=
  rewrite ?land_63, ?Z.shiftr_div_pow2, ?Z.shiftl_mul_pow2 by lia;
  change (2 ^ 18) with 262144; change (2 ^ 16) with 65536;
  change (2 ^ 12) with 4096; change (2 ^ 8) with 256;
  change (2 ^ 6) with 64; change (2 ^ 0) with 1.

Lemma decode_encode_1 (a : byte) :
  let val := Z.shiftl (Bytes.to_Z a) 16 in
  Bytes.of_Z (Z.shiftr (Base64.quantum (Z.land (Z.shiftr val 18) 63)
                          (Z.land (Z.shiftr val 12) 63) 0 0) 16) = a.
Proof.
  intros val. subst val. pose proof (to_Z_range a) as Ha.
  apply of_Z_eq. bits_to_arith.
  rewrite quantum_add by (try lia; apply Z.mod_pos_bound; lia).
  Z.div_mod_to_equations. lia.
Qed.

Lemma decode_encode_2 (a b : byte) :
  let val := Z.lor (Z.shiftl (Bytes.to_Z a) 16) (Z.shiftl (Bytes.to_Z b) 8) in
  let q := Base64.quantum (Z.land (Z.shiftr val 18) 63) (Z.land (Z.shiftr val 12) 63)
             (Z.land (Z.shiftr val 6) 63) 0 in
  Bytes.of_Z (Z.shiftr q 16) = a /\ Bytes.of_Z (Z.shiftr q 8) = b.
Proof.
  intros val q. pose proof (to_Z_range a) as Ha. pose proof (to_Z_range b) as Hb.
  assert (Hval : val = Bytes.to_Z a * 65536 + Bytes.to_Z b * 256).
  { pose proof (quantum3 (Bytes.to_Z a) (Bytes.to_Z b) 0 Ha Hb ltac:(lia)) as H.
    cbv zeta in H. rewrite Z.lor_0_r in H. subst val. rewrite H. lia. }
  subst q. rewrite Hval. bits_to_arith.
  rewrite quantum_add by (try lia; apply Z.mod_pos_bound; lia).
  split; apply of_Z_eq; Z.div_mod_to_equations; lia.
Qed.

Lemma decode_encode_3 (a b c : byte) :
  let val := Z.lor (Z.lor (Z.shiftl (Bytes.to_Z a) 16) (Z.shiftl (Bytes.to_Z b) 8))
               (Bytes.to_Z c) in
  let q := Base64.quantum (Z.land (Z.shiftr val 18) 63) (Z.land (Z.shiftr val 12) 63)
             (Z.land (Z.shiftr val 6) 63) (Z.land (Z.shiftr val 0) 63) in
  Bytes.of_Z (Z.shiftr q 16) = a /\ Bytes.of_Z (Z.shiftr q 8) = b /\ Bytes.of_Z q = c.
Proof.
  intros val q. pose proof (to_Z_range a) as Ha. pose proof (to_Z_range b) as Hb.
  pose proof (to_Z_range c) as Hc.
  assert (Hval : val = Bytes.to_Z a * 65536 + Bytes.to_Z b * 256 + Bytes.to_Z c)
    by (apply quantum3; assumption).
  subst q. rewrite Hval. bits_to_arith.
  rewrite quantum_add by (try lia; apply Z.mod_pos_bound; lia).
  repeat split; apply of_Z_eq; Z.div_mod_to_equations; lia.
Qed.

(** The decoder inverts the encoder. *)
Lemma Decode_Encode (src : list byte) : Base64.Decode (Base64.Encode src) = Some src.
Proof.
  unfold Base64.Decode. rewrite Encode_no_newline.
  assert (P : forall n src, (length src <= n)%nat ->
    Base64.decode_quanta (Base64.Encode src) = Some src).
  { clear src. induction n as [|n IH]; intros src Hlen.
    - destruct src; [reflexivity | simpl in Hlen; lia].
    - destruct src as [|a [|b [|c rest]]]; [reflexivity| | |];
        unfold Base64.Encode; fold Base64.Encode;
        rewrite decode_quanta_step, !decode6_sextet.
      + change (Base64.decode6 Base64.padChar) with (@None Z).
        change (Bytes.eqb Base64.padChar Base64.padChar) with true.
        cbv beta iota zeta. cbn [andb]. now rewrite decode_encode_1.
      + change (Base64.decode6 Base64.padChar) with (@None Z).
        change (Bytes.eqb Base64.padChar Base64.padChar) with true.
        cbv beta iota zeta.
        destruct (decode_encode_2 a b) as [-> ->]. reflexivity.
      + cbv beta iota zeta. rewrite IH by (simpl in Hlen; lia).
        destruct (decode_encode_3 a b c) as (-> & -> & ->). reflexivity. }
  apply (P (length src)). lia.
Qed.

Lemma of_to_string (l : list byte) : Bytes.of_string (Bytes.to_string l) = l.
Proof. apply list_byte_of_string_of_list_byte. Qed.

Lemma to_of_string (s : string) : Bytes.to_string (Bytes.of_string s) = s.
Proof. apply string_of_list_byte_of_string. Qed.

Lemma DecodeString_EncodeToString (src : list byte) :
  Base64.DecodeString (Base64.EncodeToString src) = Some src.
Proof.
  unfold Base64.DecodeString, Base64.EncodeToString.
  rewrite of_to_string. apply Decode_Encode.
Qed.

Lemma EncodeToString_inj (x y : list byte) :
  Base64.EncodeToString x = Base64.EncodeToString y -> x = y.
Proof.
  intros H. apply (f_equal Base64.DecodeString) in H.
  rewrite !DecodeString_EncodeToString in H. now inversion H.
Qed.

(** ** [subtle.ConstantTimeCompare] and [hmac.Equal] *)

Lemma lor_range (n a b : Z) :
  0 <= n -> 0 <= a < 2 ^ n -> 0 <= b < 2 ^ n -> 0 <= Z.lor a b < 2 ^ n.
Proof.
  intros Hn Ha Hb. split; [apply Z.lor_nonneg; lia|].
  destruct (Z.eq_dec a 0) as [->|Ha0]; [rewrite Z.lor_0_l; lia|].
  destruct (Z.eq_dec b 0) as [->|Hb0]; [rewrite Z.lor_0_r; lia|].
  assert (Hpos : 0 < Z.lor a b).
  { assert (0 <= Z.lor a b) by (apply Z.lor_nonneg; lia).
    destruct (Z.eq_dec (Z.lor a b) 0) as [E|]; [|lia].
    apply Z.lor_eq_0_iff in E. lia. }
  apply Z.log2_lt_pow2; [exact Hpos|].
  rewrite Z.log2_lor by lia.
  apply Z.max_lub_lt; apply Z.log2_lt_pow2; lia.
Qed.

Lemma lxor_range (n a b : Z) :
  0 <= n -> 0 <= a < 2 ^ n -> 0 <= b < 2 ^ n -> 0 <= Z.lxor a b < 2 ^ n.
Proof.
  intros Hn Ha Hb.
  assert (Hnn : 0 <= Z.lxor a b) by (apply Z.lxor_nonneg; lia).
  split; [exact Hnn|].
  destruct (Z.eq_dec (Z.lxor a b) 0) as [->|Hx]; [lia|].
  destruct (Z.eq_dec a 0) as [->|Ha0]; [rewrite Z.lxor_0_l; lia|].
  destruct (Z.eq_dec b 0) as [->|Hb0]; [rewrite Z.lxor_0_r; lia|].
  apply Z.log2_lt_pow2; [lia|].
  eapply Z.le_lt_trans; [apply Z.log2_lxor; lia|].
  apply Z.max_lub_lt; apply Z.log2_lt_pow2; lia.
Qed.

Lemma byte_lxor_range (a b : byte) : 0 <= Z.lxor (Bytes.to_Z a) (Bytes.to_Z b) < 256.
Proof. apply (lxor_range 8); [lia | apply to_Z_range | apply to_Z_range]. Qed.

Lemma to_Z_inj (a b : byte) : Bytes.to_Z a = Bytes.to_Z b -> a = b.
Proof. intros H. rewrite <- (of_to_Z a), <- (of_to_Z b), H. reflexivity. Qed.

Lemma ConstantTimeByteEq_zero (v : Z) :
  0 <= v < 256 -> (Subtle.ConstantTimeByteEq v 0 = 1 <-> v = 0).
Proof.
  intros Hv. unfold Subtle.ConstantTimeByteEq.
  rewrite Z.lxor_0_r, Z.shiftr_div_pow2 by lia.
  change (2 ^ 32) with 4294967296. change (2 ^ 31) with 2147483648.
  split; intros H.
  - destruct (Z.eq_dec v 0) as [|Hne]; [assumption|].
    rewrite Z.mod_small in H by lia. rewrite Z.div_small in H by lia. discriminate.
  - subst v. reflexivity.
Qed.

(** The accumulator of the loop ends at zero exactly when it started at
    zero and the two strings, of equal length, are equal. *)
Lemma accumulate_zero (x : list byte) :
  forall y i v, length x = length y -> 0 <= v < 256 ->
    0 <= fst (Subtle.accumulate x y i v) < 256 /\
    (fst (Subtle.accumulate x y i v) = 0 <-> v = 0 /\ x = y).
Proof.
  induction x as [|a x IH]; intros [|b y] i v Hlen Hv; simpl in Hlen; try discriminate.
  - simpl. split; [exact Hv|]. tauto.
  - simpl.
    pose proof (byte_lxor_range a b) as Hab.
    assert (Hv' : 0 <= Z.lor v (Z.lxor (Bytes.to_Z a) (Bytes.to_Z b)) < 256)
      by (apply (lor_range 8); lia).
    specialize (IH y (S i) _ (eq_add_S _ _ Hlen) Hv').
    destruct (Subtle.accumulate x y (S i) _) as [r seen]. simpl in *.
    destruct IH as [Hr Hiff]. split; [exact Hr|].
    rewrite Hiff, Z.lor_eq_0_iff, Z.lxor_eq_0_iff.
    split.
    + intros [[Hv0 Heq] Hxy]. apply to_Z_inj in Heq. subst. auto.
    + intros [Hv0 Hxy]. inversion Hxy; subst. auto.
Qed.

Lemma accumulate_seen (x : list byte) :
  forall y i v, length x = length y ->
    snd (Subtle.accumulate x y i v) = map Subtle.LeakIndex (seq i (length x)).
Proof.
  induction x as [|a x IH]; intros [|b y] i v Hlen; simpl in Hlen; try discriminate.
  - reflexivity.
  - simpl. specialize (IH y (S i) (Z.lor v (Z.lxor (Bytes.to_Z a) (Bytes.to_Z b)))
                         (eq_add_S _ _ Hlen)).
    destruct (Subtle.accumulate x y (S i) _) as [r seen]. simpl in *.
    now rewrite IH.
Qed.

Lemma ConstantTimeCompare_one (x y : list byte) :
  Subtle.ConstantTimeCompare x y = 1 <-> x = y.
Proof.
  unfold Subtle.ConstantTimeCompare, Subtle.ConstantTimeCompare_observed.
  destruct (Nat.eqb (length x) (length y)) eqn:E; simpl.
  - apply Nat.eqb_eq in E.
    destruct (accumulate_zero x y 0%nat 0 E ltac:(lia)) as [Hr Hiff].
    destruct (Subtle.accumulate x y 0 0) as [r seen]. simpl in *.
    rewrite ConstantTimeByteEq_zero by exact Hr. rewrite Hiff. tauto.
  - apply Nat.eqb_neq in E. split; [discriminate|].
    intros ->. now elim E.
Qed.

Lemma Equal_true_iff (x y : list byte) : HMAC.Equal x y = true <-> x = y.
Proof.
  unfold HMAC.Equal, HMAC.Equal_observed.
  pose proof (ConstantTimeCompare_one x y) as H.
  unfold Subtle.ConstantTimeCompare in H.
  destruct (Subtle.ConstantTimeCompare_observed x y) as [r seen]. simpl in *.
  rewrite Z.eqb_eq. exact H.
Qed.

Lemma Equal_false_iff (x y : list byte) : HMAC.Equal x y = false <-> x <> y.
Proof.
  rewrite <- Equal_true_iff. destruct (HMAC.Equal x y); split; congruence.
Qed.

(** What the comparison shows depends on the two lengths alone. *)
Lemma Equal_observed_lengths (x y : list byte) :
  snd (HMAC.Equal_observed x y) =
  if Nat.eqb (length x) (length y)
  then Subtle.LeakLengthsDiffer false :: map Subtle.LeakIndex (seq 0 (length x))
  else [Subtle.LeakLengthsDiffer true].
Proof.
  unfold HMAC.Equal_observed, Subtle.ConstantTimeCompare_observed.
  destruct (Nat.eqb (length x) (length y)) eqn:E; simpl; [|reflexivity].
  apply Nat.eqb_eq in E. pose proof (accumulate_seen x y 0%nat 0 E) as H.
  destruct (Subtle.accumulate x y 0 0) as [r seen]. simpl in *. now rewrite H.
Qed.

(** ** Lengths *)

Lemma of_string_length (s : string) : length (Bytes.of_string s) = String.length s.
Proof.
  unfold Bytes.of_string, list_byte_of_string. rewrite length_map.
  induction s as [|c s IH]; simpl; [reflexivity | now rewrite IH].
Qed.

Lemma be_bytes_length (n : nat) (v : Z) : length (SHA512.be_bytes n v) = n.
Proof. induction n as [|n IH]; simpl; [reflexivity | now rewrite IH]. Qed.

Lemma Sum512_length (msg : list byte) : length (SHA512.Sum512 msg) = 64%nat.
Proof. unfold SHA512.Sum512. cbv zeta. rewrite !length_app, !be_bytes_length. reflexivity. Qed.

Lemma HMAC_Sum_length (key msg : list byte) : length (HMAC.Sum key msg) = 64%nat.
Proof. unfold HMAC.Sum. apply Sum512_length. Qed.

Lemma Encode_length (src : list byte) :
  length (Base64.Encode src) = (4 * Nat.div (length src + 2) 3)%nat.
Proof.
  assert (P : forall n src, (length src <= n)%nat ->
    length (Base64.Encode src) = (4 * Nat.div (length src + 2) 3)%nat).
  { clear src. induction n as [|n IH]; intros src Hlen.
    - destruct src; [reflexivity | simpl in Hlen; lia].
    - destruct src as [|a [|b [|c rest]]]; try reflexivity.
      unfold Base64.Encode; fold Base64.Encode. cbn [length].
      rewrite IH by (simpl in Hlen; lia).
      replace (S (S (S (length rest))) + 2)%nat with (length rest + 2 + 1 * 3)%nat by lia.
      rewrite Nat.div_add by lia. lia. }
  apply (P (length src)). lia.
Qed.

(** The header value a configured server expects is always 88 characters
    long. *)
Lemma expectedSignature_length (s : Symmetric.Server) (payload : list byte) :
  length (Bytes.of_string (Symmetric.expectedSignature s payload)) = 88%nat.
Proof.
  unfold Symmetric.expectedSignature, Base64.EncodeToString.
  rewrite of_to_string, Encode_length, HMAC_Sum_length. reflexivity.
Qed.

(** ** Runs of the handlers *)

(** Evaluate a run: unfold the monad and the world, nothing else. *)
Ltac eval_run :=
  lazy beta iota zeta delta
    [bind ret emit tick defer lift Write WriteHeader http_Error log_Printf log_Println
     log_Fatalf json_Unmarshal Publish Ping Body_Close io_ReadAll hmac_Equal
     ListenAndServe Shutdown run start negb app fst snd
     status written trace clock leaked steps published publishes_of side_effects observed
     filter flat_map is_step is_response_write].

Ltac done_run := eval_run; eexists; split; reflexivity.

Lemma publishes_of_steps (l : list Event) : publishes_of (filter is_step l) = publishes_of l.
Proof.
  induction l as [|e l IH]; [reflexivity|].
  destruct e; simpl; rewrite ?IH; reflexivity.
Qed.

Lemma published_steps (w : World) : published w = publishes_of (steps w).
Proof. unfold published, steps. now rewrite publishes_of_steps. Qed.

(** ** The symmetric revision *)

Section SymmetricFacts.

Import Symmetric.

Lemma symmetric_accepts_disabled (s : Server) (payload : list byte) (signature : string) :
  WebhookSecret (config s) = ""%string -> symmetric_accepts s payload signature = true.
Proof.
  intros H. unfold symmetric_accepts, verifySignature. rewrite H. reflexivity.
Qed.

Lemma symmetric_accepts_enabled (s : Server) (payload : list byte) (signature : string) :
  WebhookSecret (config s) <> ""%string ->
  symmetric_accepts s payload signature =
  HMAC.Equal (Bytes.of_string signature) (Bytes.of_string (expectedSignature s payload)).
Proof.
  intros H. unfold symmetric_accepts, verifySignature.
  apply String.eqb_neq in H. rewrite H. reflexivity.
Qed.

(** [verifySignature] returns in every world, with the same value, and
    leaves the response and the clock alone. *)
Lemma symmetric_verifySignature_returns (s : Server) (payload : list byte)
    (signature : string) (w : World) :
  fst (verifySignature s payload signature w) = Returned (symmetric_accepts s payload signature)
  /\ status (snd (verifySignature s payload signature w)) = status w
  /\ written (snd (verifySignature s payload signature w)) = written w
  /\ clock (snd (verifySignature s payload signature w)) = clock w.
Proof.
  unfold symmetric_accepts, verifySignature.
  destruct (String.eqb (WebhookSecret (config s)) ""); repeat split; reflexivity.
Qed.


(** The symmetric handler returns, and what its run shows is what the
    specification's request path prescribes. *)
Lemma symmetric_handleWebhook_observed (s : Server) (r : Request) :
  exists w, run (handleWebhook s r) = (Returned tt, w) /\
    observed w = spec_request_path (symmetric_accepts s) (redisClient s) (RedisChannel (config s)) r.
Proof.
  unfold handleWebhook, spec_request_path, symmetric_accepts, verifySignature,
    MethodPost, X_Hook_Signature.
  destruct (String.eqb (Method r) "POST"); [|done_run].
  eval_run.
  destruct (Body r) as [body|err]; [|done_run].
  destruct (String.eqb (WebhookSecret (config s)) ""); eval_run;
    try (destruct (HMAC.Equal _ _); [|done_run]);
    eval_run;
    (destruct (JSON.Unmarshal body JSON.zero_event) as [ev [e|]]; [done_run|]);
    eval_run;
    destruct (publish_err (redisClient s) (RedisChannel (config s)) body);
    done_run.
Qed.

End SymmetricFacts.

(** ** The asymmetric revision *)

Section AsymmetricFacts.

Import Asymmetric.

Variable ParsePKIXPublicKey : list byte -> PublicKey + GoError.
Variable Sum256 : list byte -> list byte.
Variable VerifyPKCS1v15 : RSAPublicKey -> list byte -> list byte -> option GoError.

(** With a key in place [verifySignature] returns. *)
Lemma asymmetric_verifySignature_returns (cfg : Config) (redis : RedisClient)
    (k : RSAPublicKey) (payload : list byte) (signature : string) :
  let s := mkServer cfg redis (Some k) in
  verifySignature Sum256 VerifyPKCS1v15 s payload signature =
  Returned (asymmetric_accepts Sum256 VerifyPKCS1v15 s payload signature).
Proof.
  unfold asymmetric_accepts, verifySignature. cbn [publicKey config].
  destruct (String.eqb (WebhookSecret cfg) ""); [reflexivity|].
  destruct (Base64.DecodeString signature); [|reflexivity].
  destruct (VerifyPKCS1v15 k _ _); reflexivity.
Qed.

(** A successful [initialiseKey] leaves a key in place and changes
    nothing else. *)
Lemma initialiseKey_ok (s s' : Server) :
  initialiseKey ParsePKIXPublicKey s = (s', None) ->
  exists k, s' = mkServer (config s) (redisClient s) (Some k).
Proof.
  unfold initialiseKey.
  destruct (Base64.DecodeString _) as [der|]; [|discriminate].
  destruct (ParsePKIXPublicKey der) as [[k| | | |]|err]; try discriminate.
  intros H. inversion H. now exists k.
Qed.

(** The asymmetric handler with a key in place returns, and what its run
    shows is what the specification's request path prescribes. *)
Lemma asymmetric_handleWebhook_observed (cfg : Config) (redis : RedisClient)
    (k : RSAPublicKey) (r : Request) :
  let s := mkServer cfg redis (Some k) in
  exists w, run (handleWebhook Sum256 VerifyPKCS1v15 s r) = (Returned tt, w) /\
    observed w =
    spec_request_path (asymmetric_accepts Sum256 VerifyPKCS1v15 s) redis (RedisChannel cfg) r.
Proof.
  intros s. unfold handleWebhook, spec_request_path, MethodPost, X_Hook_Signature.
  destruct (String.eqb (Method r) "POST"); [|done_run].
  eval_run.
  destruct (Body r) as [body|err]; [|done_run].
  rewrite (asymmetric_verifySignature_returns cfg redis k). fold s.
  destruct (asymmetric_accepts Sum256 VerifyPKCS1v15 s body _); [|done_run].
  eval_run. cbn [redisClient config s].
  destruct (JSON.Unmarshal body JSON.zero_event) as [ev [e|]]; [done_run|].
  eval_run.
  destruct (publish_err redis (RedisChannel cfg) body); done_run.
Qed.

End AsymmetricFacts.

(** ** Consequences of the request path *)

(** What the path of the specification says about publishing: at most
    one publish; exactly the raw body once method, read, signature and
    decode have succeeded, answered 200 "OK" if the publish itself
    succeeds; none under 405, 400 or 401. *)
Lemma spec_request_path_publishes (verify : list byte -> string -> bool) (redis : RedisClient)
    (channel : string) (r : Request) :
  forall st bd sts, spec_request_path verify redis channel r = (st, bd, sts) ->
    (length (publishes_of sts) <= 1)%nat /\
    (forall body,
        Method r = "POST"%string -> Body r = inl body ->
        verify body (Header_Get (Header r) X_Hook_Signature) = true ->
        snd (JSON.Unmarshal body JSON.zero_event) = None ->
        publishes_of sts = [(channel, body)] /\
        (publish_err redis channel body = None -> st = Some 200 /\ bd = "OK"%string)) /\
    (st = Some 405 \/ st = Some 400 \/ st = Some 401 -> publishes_of sts = []).
Proof.
  intros st bd sts. unfold spec_request_path.
  destruct (String.eqb (Method r) "POST") eqn:Hm; cbn [negb];
    [destruct (Body r) as [body|err] eqn:Hb;
      [destruct (verify body _) eqn:Hv; cbn [negb];
        [destruct (snd (JSON.Unmarshal body JSON.zero_event)) eqn:Hj;
          [|destruct (publish_err redis channel body) eqn:Hp]|]|]|];
    intros H; inversion H; subst; clear H;
    cbn [publishes_of flat_map app length];
    (split; [lia|]);
    (split; [intros b Hm' Hb' Hv' Hj' | intros [C|[C|C]]; congruence]);
    try (inversion Hb'; subst b);
    try congruence.
  - split; [reflexivity|]. congruence.
  - split; [reflexivity|]. intros _. split; reflexivity.
  - rewrite Hm', String.eqb_refl in Hm. discriminate.
Qed.

(** A run of either handler that shows the request path obeys what the
    path says about publishing. *)
Lemma observed_publishes (w : World) (verify : list byte -> string -> bool)
    (redis : RedisClient) (channel : string) (r : Request) :
  observed w = spec_request_path verify redis channel r ->
  (length (published w) <= 1)%nat /\
  (forall body,
      Method r = "POST"%string -> Body r = inl body ->
      verify body (Header_Get (Header r) X_Hook_Signature) = true ->
      snd (JSON.Unmarshal body JSON.zero_event) = None ->
      published w = [(channel, body)] /\
      (publish_err redis channel body = None ->
       status w = Some 200 /\ Bytes.to_string (written w) = "OK"%string)) /\
  (status w = Some 405 \/ status w = Some 400 \/ status w = Some 401 ->
   published w = []).
Proof.
  intros H. rewrite published_steps.
  exact (spec_request_path_publishes verify redis channel r _ _ _ (eq_sym H)).
Qed.

(** ** The member scan of the JSON decoder needs no more fuel than bytes *)

Lemma skip_space_length (s : list byte) : (length (JSON.skip_space s) <= length s)%nat.
Proof.
  induction s as [|c s IH]; simpl; [lia|].
  destruct (JSON.isSpace c); simpl; lia.
Qed.

Lemma take_string_length (s : list byte) :
  forall esc, (length (snd (JSON.take_string esc s)) <= length s)%nat.
Proof.
  induction s as [|c s IH]; intros esc; simpl; [lia|].
  destruct esc.
  - specialize (IH false). destruct (JSON.take_string false s); simpl in *; lia.
  - destruct (Bytes.eqb c x22); simpl; [lia|].
    specialize (IH (Bytes.eqb c "\")). destruct (JSON.take_string _ s); simpl in *; lia.
Qed.

Lemma take_nested_length (s : list byte) :
  forall depth instr esc,
    (length (snd (JSON.take_nested depth instr esc s)) <= length s)%nat.
Proof.
  induction s as [|c s IH]; intros depth instr esc; simpl; [lia|].
  destruct instr.
  - specialize (IH depth (esc || negb (Bytes.eqb c x22)) (negb esc && Bytes.eqb c "\")).
    destruct (JSON.take_nested _ _ _ s); simpl in *; lia.
  - destruct (Bytes.eqb c "{" || Bytes.eqb c "[").
    + specialize (IH (S depth) false false).
      destruct (JSON.take_nested _ _ _ s); simpl in *; lia.
    + destruct (Bytes.eqb c "}" || Bytes.eqb c "]").
      * destruct depth as [|[|d]]; simpl; try lia.
        specialize (IH (S d) false false).
        destruct (JSON.take_nested _ _ _ s); simpl in *; lia.
      * specialize (IH depth (Bytes.eqb c x22) false).
        destruct (JSON.take_nested _ _ _ s); simpl in *; lia.
Qed.

Lemma take_scalar_length (s : list byte) :
  (length (snd (JSON.take_scalar s)) <= length s)%nat.
Proof.
  induction s as [|c s IH]; simpl; [lia|].
  destruct (JSON.ends_scalar c); simpl; [lia|].
  destruct (JSON.take_scalar s); simpl in *; lia.
Qed.

Lemma take_value_length (s : list byte) :
  (length (snd (JSON.take_value s)) <= length s)%nat.
Proof.
  unfold JSON.take_value.
  destruct s as [|c s]; [simpl; lia|].
  pose proof (take_string_length s false) as Hs.
  pose proof (take_nested_length (c :: s) 0 false false) as Hn.
  pose proof (take_scalar_length (c :: s)) as Hc.
  destruct c; try exact Hc; try exact Hn.
  destruct (JSON.take_string false s); simpl in *; lia.
Qed.

(** Any fuel from the length of the input on gives the same members. *)
Lemma members_fuel (n : nat) :
  forall m s, (length s <= n)%nat -> (length s <= m)%nat ->
    JSON.members n s = JSON.members m s.
Proof.
  induction n as [|n IH]; intros m s Hn Hm.
  - destruct s; [|simpl in Hn; lia]. destruct m; reflexivity.
  - destruct m as [|m].
    + destruct s; [reflexivity | simpl in Hm; lia].
    + cbn [JSON.members].
      pose proof (skip_space_length s) as H0.
      destruct (JSON.skip_space s) as [|c r]; [reflexivity|].
      destruct c; try reflexivity.
      pose proof (take_string_length r false) as H1.
      destruct (JSON.take_string false r) as [key r1]. cbn [snd] in H1.
      pose proof (skip_space_length r1) as H2.
      destruct (JSON.skip_space r1) as [|c1 r2]; [reflexivity|].
      destruct c1; try reflexivity.
      pose proof (skip_space_length r2) as H3.
      pose proof (take_value_length (JSON.skip_space r2)) as H4.
      destruct (JSON.take_value (JSON.skip_space r2)) as [val r3]. cbn [snd] in H4.
      pose proof (skip_space_length r3) as H5.
      destruct (JSON.skip_space r3) as [|c2 r4]; [reflexivity|].
      destruct c2; try reflexivity.
      f_equal. apply IH; simpl in *; lia.
Qed.

(** ** Nothing but the answer on a wrong method *)

(** Property X19.  A request whose method is not POST causes nothing but
    the writing of the response: no read of the body, no log line, no
    call of Redis (which is why the handler can be tested on a server
    without a Redis client).  In both revisions. *)
Lemma wrong_method_only_answers (r : Request) :
  Method r <> "POST"%string ->
  (forall s : Symmetric.Server,
      side_effects (snd (run (Symmetric.handleWebhook s r))) = []) /\
  (forall Sum256 VerifyPKCS1v15 (s : Asymmetric.Server),
      side_effects (snd (run (Asymmetric.handleWebhook Sum256 VerifyPKCS1v15 s r))) = []).
Proof.
  intros H. apply String.eqb_neq in H.
  split; intros; unfold Symmetric.handleWebhook, Asymmetric.handleWebhook, MethodPost;
    rewrite H; eval_run; reflexivity.
Qed.

(** ** Test vectors *)

(** SHA-512 of [abc] (FIPS 180-4) and of the empty string. *)
Example sha512_abc :
  Bytes.to_hex (SHA512.Sum512 (Bytes.of_string "abc")) =
  "ddaf35a193617abacc417349ae20413112e6fa4e89a97ea20a9eeee64b55d39a2192992a274fc1a836ba3c23a3feebbd454d4423643ce80e2a9ac94fa54ca49f"%string.
Proof. vm_compute. reflexivity. Qed.

Example sha512_empty :
  Bytes.to_hex (SHA512.Sum512 []) =
  "cf83e1357eefb8bdf1542850d66d8007d620e4050b5715dc83f4a921d36ce9ce47d0d13c5d85f2b0ff8318d2877eec2f63b931bd47417a81a538327af927da3e"%string.
Proof. vm_compute. reflexivity. Qed.

(** HMAC-SHA512, test case 2 of RFC 4231: key [Jefe]. *)
Example hmac_sha512_rfc4231 :
  Bytes.to_hex (HMAC.Sum (Bytes.of_string "Jefe")
                  (Bytes.of_string "what do ya want for nothing?")) =
  "164b7a7bfcf819e2e395fbe73b56e0a387bd64222e831fd610270cd7ea2505549758bf75c05a994a6d034f65f8f0e6fdcaeab1a34d4a6b4b636e070a38bce737"%string.
Proof. vm_compute. reflexivity. Qed.

(** The valid signature of the repository's test. *)
Example test_signature :
  Symmetric.expectedSignature Fixture.server Fixture.payload = Fixture.validSignature.
Proof. vm_compute. reflexivity. Qed.

(** RFC 4648 test vectors, and texts [StdEncoding] refuses. *)
Example base64_vectors :
  map (fun s => Base64.EncodeToString (Bytes.of_string s))
      ["f"; "fo"; "foo"; "foob"; "fooba"; "foobar"]%string
    = ["Zg=="; "Zm8="; "Zm9v"; "Zm9vYg=="; "Zm9vYmE="; "Zm9vYmFy"]%string /\
  map Base64.DecodeString ["Zg"; "Zg="; "Zg==Zg=="; "Z-9v"; "invalid-signature"]%string
    = [None; None; None; None; None].
Proof. vm_compute. split; reflexivity. Qed.

(** What [json.Unmarshal] accepts and refuses at the level of syntax. *)
Example json_syntax :
  map (fun s => JSON.checkValid (Fixture.json s))
      ["{}"; "null"; " {'a' : [1, 2.5e-3, true, false, null, 'x'] } "; "-0.5E+10"]%string
    = [true; true; true; true] /\
  map (fun s => JSON.checkValid (Fixture.json s))
      [""; "invalid json"; "{'a':1,}"; "[1,]"; "01"; "1 2"; "{'a' 1}"; "tru"; "{} x"]%string
    = [false; false; false; false; false; false; false; false; false].
Proof. vm_compute. split; reflexivity. Qed.

(** * The claims *)

(** ** The request path *)

(** Claim C1.  Every request to the webhook handler is processed in the
    fixed order of [spec_request_path]: the method check first (a method
    other than POST gives 405 and no processing step at all), then the read of the
    whole body (400 on failure), then the signature check on exactly the
    bytes read, before any JSON decoding (401 on failure), then the
    decoding into the envelope (400 on failure), then the publish (500 on
    failure, 200 with body "OK" on success); the steps of a run are those
    up to the first failure and no more.  This holds of the symmetric
    revision for every server, and of the asymmetric revision for every
    server whose key is in place. *)
Theorem webhook_processing_order :
  (forall (s : Symmetric.Server) (r : Request),
      fst (run (Symmetric.handleWebhook s r)) = Returned tt /\
      observed (snd (run (Symmetric.handleWebhook s r))) =
      spec_request_path (symmetric_accepts s) (Symmetric.redisClient s)
        (Symmetric.RedisChannel (Symmetric.config s)) r) /\
  (forall Sum256 VerifyPKCS1v15 cfg redis k (r : Request),
      let s := Asymmetric.mkServer cfg redis (Some k) in
      fst (run (Asymmetric.handleWebhook Sum256 VerifyPKCS1v15 s r)) = Returned tt /\
      observed (snd (run (Asymmetric.handleWebhook Sum256 VerifyPKCS1v15 s r))) =
      spec_request_path (asymmetric_accepts Sum256 VerifyPKCS1v15 s) redis
        (Asymmetric.RedisChannel cfg) r).
Proof.
  split.
  - intros s r. destruct (symmetric_handleWebhook_observed s r) as (w & Hrun & Hobs).
    rewrite Hrun. split; [reflexivity | exact Hobs].
  - intros Sum256 Verify cfg redis k r s.
    destruct (asymmetric_handleWebhook_observed Sum256 Verify cfg redis k r)
      as (w & Hrun & Hobs).
    fold s in Hrun, Hobs. rewrite Hrun. split; [reflexivity | exact Hobs].
Qed.

(** The tests of the repository, run: GET gives 405 with nothing read;
    the body [invalid json] with no secret gives 400; a valid signature
    gives 200 and an invalid one 401. *)
Example run_invalid_method :
  observed (snd (run (Symmetric.handleWebhook Fixture.server Fixture.get))) =
  (Some 405, String.append "Method not allowed" (String "010" ""), []).
Proof. vm_compute. reflexivity. Qed.

Example run_invalid_json :
  let body := Bytes.of_string "invalid json" in
  observed (snd (run (Symmetric.handleWebhook Fixture.open_server
                        (Fixture.post body "")))) =
  (Some 400, String.append "Bad request" (String "010" ""),
   [EvReadBody; EvVerifySignature body ""; EvUnmarshal body]).
Proof. vm_compute. reflexivity. Qed.

Example run_valid_signature :
  observed (snd (run (Symmetric.handleWebhook Fixture.server
                        (Fixture.post Fixture.payload Fixture.validSignature)))) =
  (Some 200, "OK"%string,
   [EvReadBody; EvVerifySignature Fixture.payload Fixture.validSignature;
    EvUnmarshal Fixture.payload; EvPublish "test" Fixture.payload]).
Proof. vm_compute. reflexivity. Qed.

Example run_invalid_signature :
  observed (snd (run (Symmetric.handleWebhook Fixture.server
                        (Fixture.post Fixture.payload "invalid-signature")))) =
  (Some 401, String.append "Unauthorized" (String "010" ""),
   [EvReadBody; EvVerifySignature Fixture.payload "invalid-signature"]).
Proof. vm_compute. reflexivity. Qed.

(** Claim C4.  For every request the webhook handler calls [Publish] at
    most once; it calls it exactly once, with the raw body of the request
    as the message, when method, body read, signature and decode all
    succeed; and it does not call it when it answers 405, 400 or 401.
    This holds of the symmetric revision for every server, and of the
    asymmetric revision for every server whose key is in place. *)
Theorem publish_at_most_once :
  (forall (s : Symmetric.Server) (r : Request),
      let w := snd (run (Symmetric.handleWebhook s r)) in
      (length (published w) <= 1)%nat /\
      (forall body,
          Method r = "POST"%string -> Body r = inl body ->
          symmetric_accepts s body (Header_Get (Header r) X_Hook_Signature) = true ->
          snd (JSON.Unmarshal body JSON.zero_event) = None ->
          published w = [(Symmetric.RedisChannel (Symmetric.config s), body)]) /\
      (status w = Some 405 \/ status w = Some 400 \/ status w = Some 401 ->
       published w = [])) /\
  (forall Sum256 VerifyPKCS1v15 cfg redis k (r : Request),
      let s := Asymmetric.mkServer cfg redis (Some k) in
      let w := snd (run (Asymmetric.handleWebhook Sum256 VerifyPKCS1v15 s r)) in
      (length (published w) <= 1)%nat /\
      (forall body,
          Method r = "POST"%string -> Body r = inl body ->
          asymmetric_accepts Sum256 VerifyPKCS1v15 s body
            (Header_Get (Header r) X_Hook_Signature) = true ->
          snd (JSON.Unmarshal body JSON.zero_event) = None ->
          published w = [(Asymmetric.RedisChannel cfg, body)]) /\
      (status w = Some 405 \/ status w = Some 400 \/ status w = Some 401 ->
       published w = [])).
Proof.
  split.
  - intros s r w.
    destruct (symmetric_handleWebhook_observed s r) as (w' & Hrun & Hobs).
    assert (E : w = w') by (unfold w; now rewrite Hrun). rewrite E. clear E w.
    destruct (observed_publishes _ _ _ _ _ Hobs) as (H1 & H2 & H3).
    split; [exact H1 | split; [| exact H3]].
    intros body Hm Hb Hv Hj. exact (proj1 (H2 body Hm Hb Hv Hj)).
  - intros Sum256 Verify cfg redis k r s w.
    destruct (asymmetric_handleWebhook_observed Sum256 Verify cfg redis k r)
      as (w' & Hrun & Hobs).
    fold s in Hrun, Hobs.
    assert (E : w = w') by (unfold w; now rewrite Hrun). rewrite E. clear E w.
    destruct (observed_publishes _ _ _ _ _ Hobs) as (H1 & H2 & H3).
    split; [exact H1 | split; [| exact H3]].
    intros body Hm Hb Hv Hj. exact (proj1 (H2 body Hm Hb Hv Hj)).
Qed.

(** The test request with its valid signature is published once, as it
    came; with the signature [invalid-signature] the answer is 401 and
    nothing is published; the same for the asymmetric revision. *)
Lemma publish_at_most_once_witness :
  published (snd (run (Symmetric.handleWebhook Fixture.server
                         (Fixture.post Fixture.payload Fixture.validSignature)))) =
    [("test"%string, Fixture.payload)] /\
  published (snd (run (Symmetric.handleWebhook Fixture.server
                         (Fixture.post Fixture.payload "invalid-signature")))) = [] /\
  published (snd (run (Asymmetric.handleWebhook Fixture.Sum256 Fixture.VerifyPKCS1v15
                         Fixture.asymmetric_server
                         (Fixture.post Fixture.payload Fixture.asymmetric_signature)))) =
    [("test"%string, Fixture.payload)] /\
  published (snd (run (Asymmetric.handleWebhook Fixture.Sum256 Fixture.VerifyPKCS1v15
                         Fixture.asymmetric_server
                         (Fixture.post Fixture.payload "invalid-signature")))) = [].
Proof.
  destruct publish_at_most_once as [Hsym Hasym].
  split; [|split; [|split]].
  - apply (proj1 (proj2 (Hsym Fixture.server
             (Fixture.post Fixture.payload Fixture.validSignature))));
      vm_compute; reflexivity.
  - apply (proj2 (proj2 (Hsym Fixture.server
             (Fixture.post Fixture.payload "invalid-signature")))).
    right; right. vm_compute. reflexivity.
  - apply (proj1 (proj2 (Hasym Fixture.Sum256 Fixture.VerifyPKCS1v15
             (Fixture.asymmetric_config Fixture.rsa_secret) Fixture.redis_up
             Fixture.rsa_key (Fixture.post Fixture.payload Fixture.asymmetric_signature))));
      vm_compute; reflexivity.
  - apply (proj2 (proj2 (Hasym Fixture.Sum256 Fixture.VerifyPKCS1v15
             (Fixture.asymmetric_config Fixture.rsa_secret) Fixture.redis_up
             Fixture.rsa_key (Fixture.post Fixture.payload "invalid-signature")))).
    right; right. vm_compute. reflexivity.
Defined.

(** ** The decode step and the envelope *)

(** A value is stored without error exactly when its kind fits the
    field. *)
Lemma store_fits (f : JSON.field) (raw : list byte) (v : JSON.WebhookEvent) :
  snd (JSON.store f raw v) = None <-> kind_fits f raw = true.
Proof.
  destruct f; (destruct raw as [|c raw]; [cbn; split; discriminate || reflexivity|]);
    destruct c; cbn; split; (discriminate || reflexivity).
Qed.

Lemma object_fits (ms : list (list byte * list byte)) :
  forall v saved,
    snd (JSON.object ms v saved) = None <-> saved = None /\ forallb member_fits ms = true.
Proof.
  induction ms as [|[key raw] ms IH]; intros v saved; cbn [JSON.object forallb].
  - cbn. tauto.
  - unfold member_fits at 1. cbn [fst snd].
    destruct (JSON.lookup_field (JSON.unquote key)) as [f|].
    + pose proof (store_fits f raw v) as Hs.
      destruct (JSON.store f raw v) as [v' e]. cbn [snd] in Hs.
      rewrite IH, andb_true_iff. destruct saved as [e0|].
      * split; [intros [C _]; discriminate | intros [C _]; discriminate].
      * rewrite <- Hs. tauto.
    + rewrite IH. cbn [andb]. tauto.
Qed.

Lemma Unmarshal_fits (body : list byte) :
  snd (JSON.Unmarshal body JSON.zero_event) = None <-> fits_envelope body = true.
Proof.
  unfold JSON.Unmarshal, fits_envelope.
  destruct (JSON.checkValid body); cbn [negb andb]; [|split; discriminate].
  destruct (JSON.skip_space body) as [|c rest]; [split; discriminate|].
  destruct c; try (split; discriminate); try (split; reflexivity).
  rewrite object_fits. tauto.
Qed.

(** Storing into a field leaves every other field as it was. *)
Lemma store_other_field (f g : JSON.field) (raw : list byte) (v : JSON.WebhookEvent) :
  field_eqb g f = false ->
  field_value f (fst (JSON.store g raw v)) = field_value f v.
Proof.
  intros H.
  destruct g; (destruct raw as [|c raw]; [destruct f; try discriminate; reflexivity|]);
    destruct c; destruct f; try discriminate; reflexivity.
Qed.

Lemma object_other_field (f : JSON.field) (ms : list (list byte * list byte)) :
  forall v saved,
    existsb (fun m => match JSON.lookup_field (JSON.unquote (fst m)) with
                      | Some g => field_eqb g f
                      | None => false
                      end) ms = false ->
    field_value f (fst (JSON.object ms v saved)) = field_value f v.
Proof.
  induction ms as [|[key raw] ms IH]; intros v saved H; cbn [JSON.object]; [reflexivity|].
  cbn [existsb fst] in H. apply orb_false_iff in H. destruct H as [Hm Hms].
  destruct (JSON.lookup_field (JSON.unquote key)) as [g|].
  - pose proof (store_other_field f g raw v Hm) as Hs.
    destruct (JSON.store g raw v) as [v' e]. cbn [fst] in Hs.
    rewrite IH by exact Hms. exact Hs.
  - now apply IH.
Qed.

Lemma Unmarshal_missing_field (body : list byte) (f : JSON.field) :
  names_field f body = false ->
  field_value f (fst (JSON.Unmarshal body JSON.zero_event)) = [].
Proof.
  unfold names_field, JSON.Unmarshal. intros H.
  assert (Z : field_value f JSON.zero_event = []) by now destruct f.
  destruct (JSON.checkValid body); cbn [negb]; [|exact Z].
  destruct (JSON.skip_space body) as [|c rest]; [exact Z|].
  destruct c; try exact Z.
  rewrite object_other_field by exact H. exact Z.
Qed.

(** *** Objects of string members *)

Lemma plain_byte_cases (c : byte) :
  plain_byte c = true ->
  Bytes.eqb c x22 = false /\ Bytes.eqb c "\" = false /\ (Bytes.to_Z c <? 32) = false.
Proof.
  unfold plain_byte. rewrite !andb_true_iff, !negb_true_iff. tauto.
Qed.

(** Inside a string literal the scanner stays where it is up to the
    closing quote. *)
Lemma scan_in_string (stack : list JSON.parseState) (text rest : list byte) :
  forallb plain_byte text = true ->
  JSON.scan_all (JSON.mkScanner JSON.stateInString stack false false) (text ++ x22 :: rest) =
  JSON.scan_all (JSON.mkScanner JSON.stateEndValue stack false false) rest.
Proof.
  induction text as [|c text IH]; intros H; [reflexivity|].
  cbn [forallb] in H. apply andb_true_iff in H. destruct H as [Hc H].
  destruct (plain_byte_cases c Hc) as (Hq & Hb & Hl).
  cbn [app JSON.scan_all]. unfold JSON.run_step. cbn [JSON.step].
  unfold JSON.do_stateInString. rewrite Hq, Hb, Hl. now apply IH.
Qed.

Lemma take_string_plain (text rest : list byte) :
  forallb plain_byte text = true ->
  JSON.take_string false (text ++ x22 :: rest) = (text, rest).
Proof.
  induction text as [|c text IH]; intros H; [reflexivity|].
  cbn [forallb] in H. apply andb_true_iff in H. destruct H as [Hc H].
  destruct (plain_byte_cases c Hc) as (Hq & Hb & _).
  cbn [app JSON.take_string]. rewrite Hq, Hb, IH by exact H. reflexivity.
Qed.

(** The scanner over one member, from the state after the opening brace
    or after a comma. *)
Lemma scan_member (first : bool) (m : string * string) (rest : list byte) :
  plain (fst m) && plain (snd m) = true ->
  JSON.scan_all
    (JSON.mkScanner (if first then JSON.stateBeginStringOrEmpty else JSON.stateBeginString)
       [JSON.parseObjectKey] false false)
    (member_text m ++ rest) =
  JSON.scan_all (JSON.mkScanner JSON.stateEndValue [JSON.parseObjectValue] false false) rest.
Proof.
  destruct m as [k v]. cbn [fst snd]. intros H. apply andb_true_iff in H.
  destruct H as [Hk Hv]. unfold member_text, quoted, plain in *. cbn [fst snd].
  repeat (cbn [app]; rewrite <- app_assoc). cbn [app].
  transitivity (JSON.scan_all (JSON.mkScanner JSON.stateInString [JSON.parseObjectKey] false false)
                  (Bytes.of_string k ++ x22 :: ":"%byte :: x22 :: Bytes.of_string v ++ x22 :: rest)).
  { destruct first; reflexivity. }
  rewrite scan_in_string by exact Hk.
  transitivity (JSON.scan_all (JSON.mkScanner JSON.stateInString [JSON.parseObjectValue] false false)
                  (Bytes.of_string v ++ x22 :: rest)).
  { reflexivity. }
  now rewrite scan_in_string by exact Hv.
Qed.

Lemma scan_members (ms : list (string * string)) :
  forall first : bool, ms <> [] -> plain_members ms = true ->
    JSON.scan_all
      (JSON.mkScanner (if first then JSON.stateBeginStringOrEmpty else JSON.stateBeginString)
         [JSON.parseObjectKey] false false)
      (member_texts ms ++ ["}"%byte]) = false.
Proof.
  induction ms as [|m ms IH]; intros first Hne H; [now elim Hne|].
  cbn [plain_members forallb] in H. apply andb_true_iff in H. destruct H as [Hm H].
  destruct ms as [|m' ms].
  - cbn [member_texts]. rewrite scan_member by exact Hm. reflexivity.
  - change (member_texts (m :: m' :: ms))
      with (member_text m ++ ","%byte :: member_texts (m' :: ms)).
    rewrite <- app_assoc. rewrite scan_member by exact Hm.
    cbn [app].
    transitivity (JSON.scan_all
                    (JSON.mkScanner JSON.stateBeginString [JSON.parseObjectKey] false false)
                    (member_texts (m' :: ms) ++ ["}"%byte])).
    { reflexivity. }
    apply (IH false); [discriminate | exact H].
Qed.

Lemma checkValid_object_text (ms : list (string * string)) :
  plain_members ms = true -> JSON.checkValid (object_text ms) = true.
Proof.
  intros H. unfold JSON.checkValid, object_text.
  destruct ms as [|m ms]; [vm_compute; reflexivity|].
  transitivity (negb (JSON.scan_all
                        (JSON.mkScanner JSON.stateBeginStringOrEmpty [JSON.parseObjectKey]
                           false false)
                        (member_texts (m :: ms) ++ ["}"%byte]))).
  { vm_compute JSON.maxNestingDepth. reflexivity. }
  rewrite (scan_members (m :: ms) true) by (discriminate || exact H). reflexivity.
Qed.

Lemma skip_space_head (c : byte) (rest : list byte) :
  JSON.isSpace c = false -> JSON.skip_space (c :: rest) = c :: rest.
Proof. intros H. cbn [JSON.skip_space]. now rewrite H. Qed.

(** The member scan of the decoder finds each member of such a text, its
    value a string literal. *)
Lemma members_member_texts (ms : list (string * string)) :
  forall fuel, (length ms <= fuel)%nat -> plain_members ms = true ->
    JSON.members fuel (member_texts ms ++ ["}"%byte]) =
    map (fun m => (Bytes.of_string (fst m), quoted (snd m))) ms.
Proof.
  induction ms as [|m ms IH]; intros fuel Hfuel H.
  - destruct fuel; reflexivity.
  - destruct fuel as [|fuel]; [cbn in Hfuel; lia|].
    cbn [plain_members forallb] in H. apply andb_true_iff in H. destruct H as [Hm H].
    apply andb_true_iff in Hm. destruct Hm as [Hk Hv]. unfold plain in Hk, Hv.
    assert (Hone : forall rest,
      JSON.members (S fuel) (member_text m ++ rest) =
      (Bytes.of_string (fst m), quoted (snd m)) ::
        match JSON.skip_space rest with
        | ","%byte :: r4 => JSON.members fuel r4
        | _ => []
        end).
    { intros rest. unfold member_text, quoted.
      repeat (cbn [app]; rewrite <- app_assoc). cbn [app JSON.members].
      rewrite skip_space_head by reflexivity.
      rewrite take_string_plain by exact Hk.
      rewrite !skip_space_head by reflexivity.
      unfold JSON.take_value. rewrite take_string_plain by exact Hv. reflexivity. }
    destruct ms as [|m' ms].
    + cbn [member_texts map]. rewrite Hone. reflexivity.
    + change (member_texts (m :: m' :: ms))
        with (member_text m ++ ","%byte :: member_texts (m' :: ms)).
      rewrite <- app_assoc, Hone. cbn [app].
      rewrite skip_space_head by reflexivity.
      rewrite IH by (cbn [length] in *; lia || exact H).
      reflexivity.
Qed.

Lemma member_texts_length (ms : list (string * string)) :
  (length ms <= length (member_texts ms ++ ["}"%byte]))%nat.
Proof.
  induction ms as [|m ms IH]; [cbn; lia|].
  destruct ms as [|m' ms].
  - cbn [member_texts]. rewrite length_app. cbn. lia.
  - change (member_texts (m :: m' :: ms))
      with (member_text m ++ ","%byte :: member_texts (m' :: ms)).
    rewrite <- app_assoc, length_app. cbn [app length] in *. lia.
Qed.

(** Every object of string members fits the envelope, whatever its
    keys. *)
Lemma object_text_fits (ms : list (string * string)) :
  plain_members ms = true -> fits_envelope (object_text ms) = true.
Proof.
  intros H. unfold fits_envelope. rewrite checkValid_object_text by exact H.
  unfold object_text. rewrite skip_space_head by reflexivity. cbn [andb].
  rewrite members_member_texts by (apply member_texts_length || exact H).
  rewrite forallb_forall. intros m Hin. apply in_map_iff in Hin.
  destruct Hin as (m0 & <- & _). unfold member_fits, quoted. cbn [fst snd].
  destruct (JSON.lookup_field _) as [f|]; [|reflexivity]. now destruct f.
Qed.

(** Claim C10.  The decode step enforces no required field.
    [json.Unmarshal] into the envelope returns no error exactly for the
    bodies that fit the envelope: valid JSON whose value is an object or
    [null], each member that names a field carrying a value of the
    field's kind; no member has to be there, and a field that no member
    names is left empty.  Every object of string members fits, whatever
    its keys, and so do the empty object and [null], which decode to the
    envelope with all fields empty.  A POST request with a body that fits
    and a signature the server accepts has that body published, and is
    answered 200 "OK" once the publish succeeds. *)
Theorem decode_requires_no_field :
  (forall body : list byte,
      snd (JSON.Unmarshal body JSON.zero_event) = None <-> fits_envelope body = true) /\
  (forall (body : list byte) (f : JSON.field),
      names_field f body = false ->
      field_value f (fst (JSON.Unmarshal body JSON.zero_event)) = []) /\
  (forall ms : list (string * string),
      plain_members ms = true -> fits_envelope (object_text ms) = true) /\
  JSON.Unmarshal (Bytes.of_string "{}") JSON.zero_event = (JSON.zero_event, None) /\
  JSON.Unmarshal (Bytes.of_string "null") JSON.zero_event = (JSON.zero_event, None) /\
  (forall (s : Symmetric.Server) (r : Request) (body : list byte),
      let w := snd (run (Symmetric.handleWebhook s r)) in
      Method r = "POST"%string -> Body r = inl body ->
      symmetric_accepts s body (Header_Get (Header r) X_Hook_Signature) = true ->
      fits_envelope body = true ->
      published w = [(Symmetric.RedisChannel (Symmetric.config s), body)] /\
      (publish_err (Symmetric.redisClient s)
         (Symmetric.RedisChannel (Symmetric.config s)) body = None ->
       status w = Some 200 /\ Bytes.to_string (written w) = "OK"%string)).
Proof.
  split; [exact Unmarshal_fits|].
  split; [exact Unmarshal_missing_field|].
  split; [exact object_text_fits|].
  split; [vm_compute; reflexivity|].
  split; [vm_compute; reflexivity|].
  intros s r body w Hm Hb Hv Hfits. apply Unmarshal_fits in Hfits.
  destruct (symmetric_handleWebhook_observed s r) as (w' & Hrun & Hobs).
  assert (E : w = w') by (unfold w; now rewrite Hrun). rewrite E. clear E w.
  destruct (observed_publishes _ _ _ _ _ Hobs) as (_ & H2 & _).
  exact (H2 body Hm Hb Hv Hfits).
Qed.

(** Requests to a server without a secret whose bodies are [{}], [null]
    and an object with one member that is no field of the envelope: each
    is published as it is and answered 200, and the event type decoded
    from the last is empty. *)
Lemma decode_requires_no_field_witness :
  let run_body (body : list byte) :=
    snd (run (Symmetric.handleWebhook Fixture.open_server (Fixture.post body ""))) in
  let note := object_text [("note", "first")]%string in
  (published (run_body (Bytes.of_string "{}")) = [("test"%string, Bytes.of_string "{}")] /\
   status (run_body (Bytes.of_string "{}")) = Some 200) /\
  (published (run_body (Bytes.of_string "null")) = [("test"%string, Bytes.of_string "null")] /\
   status (run_body (Bytes.of_string "null")) = Some 200) /\
  (published (run_body note) = [("test"%string, note)] /\
   status (run_body note) = Some 200) /\
  field_value JSON.FEventType (fst (JSON.Unmarshal note JSON.zero_event)) = [].
Proof.
  intros run_body note.
  destruct decode_requires_no_field as (Hiff & Hmissing & Hobjects & _ & Hnull & Hpost).
  assert (Hfits : forall body, fits_envelope body = true ->
            published (run_body body) = [("test"%string, body)] /\
            status (run_body body) = Some 200).
  { intros body Hbody.
    destruct (Hpost Fixture.open_server (Fixture.post body "") body) as [Hp Hs];
      try reflexivity; try exact Hbody.
    split; [exact Hp | apply Hs; reflexivity]. }
  split; [|split; [|split]].
  - apply Hfits. exact (Hobjects [] eq_refl).
  - apply Hfits. apply Hiff. now rewrite Hnull.
  - apply Hfits. apply Hobjects. vm_compute. reflexivity.
  - apply Hmissing. vm_compute. reflexivity.
Defined.

(** The run on [{}] in full: the event type logged is the empty string. *)
Example run_empty_object :
  let body := Bytes.of_string "{}" in
  trace (snd (run (Symmetric.handleWebhook Fixture.server
                     (Fixture.post body
                        (Symmetric.expectedSignature Fixture.server body))))) =
  [EvReadBody;
   EvVerifySignature body (Symmetric.expectedSignature Fixture.server body);
   EvUnmarshal body;
   EvPublish "test" body;
   EvLog "Published event type %s to Redis channel %s" [ArgString ""; ArgString "test"];
   EvWriteHeader 200;
   EvWrite (Bytes.of_string "OK");
   EvCloseBody].
Proof. vm_compute. reflexivity. Qed.

(** The envelope of the repository's [TestWebhookEventParsing]. *)
Example decode_feed_item :
  let data := Fixture.json
    "{'eventType':'TRANSACTION_FEED_ITEM_CREATED','timestamp':'2023-06-17T10:43:17.892Z','content':{'feedItemUid':'abc-123','amount':{'currency':'GBP','minorUnits':1000}},'accountHolderUid':'xyz-789'}" in
  let (event, err) := JSON.Unmarshal data JSON.zero_event in
  err = None /\
  JSON.EventType event = "TRANSACTION_FEED_ITEM_CREATED"%string /\
  JSON.AccountHolderUID event = "xyz-789"%string /\
  JSON.Timestamp event = "2023-06-17T10:43:17.892Z"%string.
Proof. vm_compute. repeat split. Qed.

(** Bodies the decode step refuses although they are JSON: a value of
    the wrong kind at the top or under a known key. *)
Example decode_refuses_wrong_kinds :
  snd (JSON.Unmarshal (Bytes.of_string "[]") JSON.zero_event)
    = Some (ErrJSONUnmarshalType "array" "") /\
  snd (JSON.Unmarshal (Fixture.json "{'eventType':5}") JSON.zero_event)
    = Some (ErrJSONUnmarshalType "number" "eventType") /\
  snd (JSON.Unmarshal (Bytes.of_string "invalid json") JSON.zero_event)
    = Some ErrJSONSyntax.
Proof. vm_compute. repeat split. Qed.

(** ** Signature verification, symmetric revision *)

(** With a secret configured, a signature is accepted exactly when it is
    the expected text. *)
Lemma symmetric_accepts_iff (s : Symmetric.Server) (payload : list byte) (signature : string) :
  Symmetric.WebhookSecret (Symmetric.config s) <> ""%string ->
  (symmetric_accepts s payload signature = true <->
   signature = Symmetric.expectedSignature s payload).
Proof.
  intros Hs. rewrite symmetric_accepts_enabled by exact Hs.
  rewrite Equal_true_iff. split.
  - intros H. apply (f_equal Bytes.to_string) in H. now rewrite !to_of_string in H.
  - now intros ->.
Qed.

Lemma symmetric_rejects_iff (s : Symmetric.Server) (payload : list byte) (signature : string) :
  Symmetric.WebhookSecret (Symmetric.config s) <> ""%string ->
  (symmetric_accepts s payload signature = false <->
   signature <> Symmetric.expectedSignature s payload).
Proof.
  intros Hs. rewrite <- (symmetric_accepts_iff s payload signature Hs).
  destruct (symmetric_accepts s payload signature); split; congruence.
Qed.

(** For the signature of [P], another payload is accepted exactly when it
    has the HMAC of [P]. *)
Lemma other_payload_accepted_iff (s : Symmetric.Server) (P P' : list byte) :
  Symmetric.WebhookSecret (Symmetric.config s) <> ""%string ->
  let key := Bytes.of_string (Symmetric.WebhookSecret (Symmetric.config s)) in
  (symmetric_accepts s P' (Symmetric.expectedSignature s P) = true <->
   HMAC.Sum key P' = HMAC.Sum key P).
Proof.
  intros Hs key. rewrite symmetric_accepts_iff by exact Hs.
  unfold Symmetric.expectedSignature. fold key. split.
  - intros H. symmetry. now apply EncodeToString_inj.
  - now intros ->.
Qed.

(** Property X20.  In the symmetric revision with a non-empty secret,
    for every payload [P]: the base64 text [S] of the HMAC-SHA512 of [P]
    under the secret is accepted; [S] with any one of its bits flipped is
    rejected for [P]; and another payload is accepted for [S] exactly
    when it has the very HMAC of [P], so that a changed payload passes
    only on a collision of HMAC-SHA512. *)
Theorem hmac_signature_verification (s : Symmetric.Server) (P : list byte) :
  Symmetric.WebhookSecret (Symmetric.config s) <> ""%string ->
  let key := Bytes.of_string (Symmetric.WebhookSecret (Symmetric.config s)) in
  let S := Base64.EncodeToString (HMAC.Sum key P) in
  symmetric_accepts s P S = true /\
  (forall i, (i < 8 * String.length S)%nat ->
     symmetric_accepts s P (Bytes.to_string (Bytes.flip_bit i (Bytes.of_string S))) = false) /\
  (forall P' : list byte,
     symmetric_accepts s P' S = true <-> HMAC.Sum key P' = HMAC.Sum key P).
Proof.
  intros Hs key S.
  assert (HS : S = Symmetric.expectedSignature s P) by reflexivity.
  split; [|split].
  - now apply symmetric_accepts_iff.
  - intros i Hi. apply symmetric_rejects_iff; [exact Hs|].
    rewrite <- HS. intros H.
    apply (f_equal Bytes.of_string) in H. rewrite of_to_string in H.
    revert H. apply flip_bit_neq. now rewrite of_string_length.
  - intros P'. exact (other_payload_accepted_iff s P P' Hs).
Qed.

(** The test of the repository: secret [test-secret], payload
    [{"eventType":"TEST"}].  Its signature is accepted; the signature with
    its lowest bit flipped is rejected; the payload with the fourth bit of
    its first byte flipped has another HMAC and is rejected. *)
Lemma hmac_signature_verification_witness :
  symmetric_accepts Fixture.server Fixture.payload Fixture.validSignature = true /\
  symmetric_accepts Fixture.server Fixture.payload
    (Bytes.to_string (Bytes.flip_bit 0 (Bytes.of_string Fixture.validSignature))) = false /\
  symmetric_accepts Fixture.server (Bytes.flip_bit 3 Fixture.payload)
    Fixture.validSignature = false.
Proof.
  assert (Hs : Symmetric.WebhookSecret (Symmetric.config Fixture.server) <> ""%string)
    by discriminate.
  assert (HS : Base64.EncodeToString
                 (HMAC.Sum (Bytes.of_string "test-secret") Fixture.payload)
               = Fixture.validSignature) by (vm_compute; reflexivity).
  pose proof (hmac_signature_verification Fixture.server Fixture.payload Hs) as H.
  cbv zeta in H.
  change (Symmetric.WebhookSecret (Symmetric.config Fixture.server))
    with "test-secret"%string in H.
  rewrite HS in H. destruct H as (H1 & H2 & H3).
  split; [exact H1|]. split.
  - apply H2. vm_compute. lia.
  - destruct (symmetric_accepts Fixture.server (Bytes.flip_bit 3 Fixture.payload)
                Fixture.validSignature) eqn:E; [|reflexivity].
    apply H3 in E. vm_compute in E. discriminate.
Defined.

(** A sample of the 160 single-bit mutations of the test payload, every
    tenth bit: each is rejected. *)
Example sampled_payload_bits_matter :
  forallb (fun k => negb (symmetric_accepts Fixture.server
                            (Bytes.flip_bit (10 * k) Fixture.payload)
                            Fixture.validSignature))
          (seq 0 16) = true.
Proof. vm_compute. reflexivity. Qed.

(** Claim C9.  In the symmetric revision with a non-empty secret, a
    signature is accepted if and only if it is, character for character,
    the standard padded base64 text of the HMAC-SHA512 of the payload
    under the secret.  The header is never decoded: a text that
    [base64.StdEncoding] would decode to the very same MAC, but that is
    not this text, is rejected. *)
Theorem signature_compared_as_text (s : Symmetric.Server) (P : list byte) (S : string) :
  Symmetric.WebhookSecret (Symmetric.config s) <> ""%string ->
  let mac := HMAC.Sum (Bytes.of_string (Symmetric.WebhookSecret (Symmetric.config s))) P in
  (symmetric_accepts s P S = true <-> S = Base64.EncodeToString mac) /\
  (Base64.DecodeString S = Some mac -> S <> Base64.EncodeToString mac ->
   symmetric_accepts s P S = false).
Proof.
  intros Hs mac. split.
  - exact (symmetric_accepts_iff s P S Hs).
  - intros _ Hne. now apply symmetric_rejects_iff.
Qed.

(** The valid signature of the test followed by a line feed decodes to
    the same MAC and is rejected; so are the signature without its
    padding and the signature in the URL alphabet. *)
Lemma signature_compared_as_text_witness :
  let with_newline := String.append Fixture.validSignature (String "010" "") in
  Base64.DecodeString with_newline = Base64.DecodeString Fixture.validSignature /\
  symmetric_accepts Fixture.server Fixture.payload with_newline = false /\
  symmetric_accepts Fixture.server Fixture.payload
    "1abJ+0a3XbjsqMhMjDkLorBZ8yEukxoOx8Dr38fDgZtCvKsg8IkCVqn/RlSSfIVBYc0C1hXDpcAnVHrLlFckNQ"
    = false /\
  symmetric_accepts Fixture.server Fixture.payload
    "1abJ-0a3XbjsqMhMjDkLorBZ8yEukxoOx8Dr38fDgZtCvKsg8IkCVqn_RlSSfIVBYc0C1hXDpcAnVHrLlFckNQ=="
    = false.
Proof.
  intros with_newline.
  assert (Hs : Symmetric.WebhookSecret (Symmetric.config Fixture.server) <> ""%string)
    by discriminate.
  pose proof (signature_compared_as_text Fixture.server Fixture.payload) as H.
  split; [vm_compute; reflexivity|].
  split; [|split].
  - apply (proj2 (H with_newline Hs)).
    + vm_compute. reflexivity.
    + vm_compute. discriminate.
  - destruct (symmetric_accepts Fixture.server Fixture.payload _) eqn:E; [|reflexivity].
    apply (proj1 (H _ Hs)) in E. vm_compute in E. discriminate.
  - destruct (symmetric_accepts Fixture.server Fixture.payload _) eqn:E; [|reflexivity].
    apply (proj1 (H _ Hs)) in E. vm_compute in E. discriminate.
Defined.

(** Claim C3.  When the configured secret is the empty string,
    [verifySignature] returns true for every payload and every signature,
    the empty payload and the empty signature included; in both
    revisions, and in the asymmetric one whether or not a key is in
    place. *)
Theorem no_secret_accepts_everything :
  (forall (s : Symmetric.Server) (payload : list byte) (signature : string) (w : World),
      Symmetric.WebhookSecret (Symmetric.config s) = ""%string ->
      fst (Symmetric.verifySignature s payload signature w) = Returned true) /\
  (forall Sum256 VerifyPKCS1v15 (s : Asymmetric.Server) (payload : list byte)
          (signature : string),
      Asymmetric.WebhookSecret (Asymmetric.config s) = ""%string ->
      Asymmetric.verifySignature Sum256 VerifyPKCS1v15 s payload signature = Returned true).
Proof.
  split.
  - intros s payload signature w H. unfold Symmetric.verifySignature.
    rewrite H. reflexivity.
  - intros Sum256 Verify s payload signature H. unfold Asymmetric.verifySignature.
    rewrite H. reflexivity.
Qed.

(** The test [TestVerifySignatureNoSecret], and the empty payload with
    the empty signature, in both revisions. *)
Lemma no_secret_accepts_everything_witness :
  fst (Symmetric.verifySignature Fixture.open_server Fixture.payload "any-signature" start)
    = Returned true /\
  fst (Symmetric.verifySignature Fixture.open_server [] "" start) = Returned true /\
  Asymmetric.verifySignature Fixture.Sum256 Fixture.VerifyPKCS1v15
    (Asymmetric.mkServer (Fixture.asymmetric_config "") Fixture.redis_up None) [] ""
    = Returned true.
Proof.
  destruct no_secret_accepts_everything as [Hsym Hasym].
  split; [|split].
  - apply Hsym. reflexivity.
  - apply Hsym. reflexivity.
  - apply Hasym. reflexivity.
Defined.

(** What a comparison has shown by the end of [verifySignature]: nothing
    without a secret, and with one what [hmac.Equal] shows on a signature
    of that length against the 88 characters expected. *)
Lemma verifySignature_leaked (s : Symmetric.Server) (payload : list byte)
    (signature : string) (w : World) :
  leaked (snd (Symmetric.verifySignature s payload signature w)) =
  leaked w ++
  if String.eqb (Symmetric.WebhookSecret (Symmetric.config s)) "" then []
  else if Nat.eqb (String.length signature) 88
       then Subtle.LeakLengthsDiffer false :: map Subtle.LeakIndex (seq 0 88)
       else [Subtle.LeakLengthsDiffer true].
Proof.
  unfold Symmetric.verifySignature.
  destruct (String.eqb (Symmetric.WebhookSecret (Symmetric.config s)) "").
  - cbn [log_Println bind emit ret snd leaked]. now rewrite app_nil_r.
  - cbn [hmac_Equal snd leaked].
    rewrite Equal_observed_lengths, expectedSignature_length, of_string_length.
    destruct (Nat.eqb (String.length signature) 88) eqn:E; [|reflexivity].
    apply Nat.eqb_eq in E. now rewrite E.
Qed.

(** Claim C6.  In the symmetric revision the comparison of the provided
    signature with the expected one does not stop at the first differing
    byte.  What a call of [verifySignature] lets an observer of its
    comparison see (the outcome of the length test and the indices read,
    in order) is the same for any two signatures of the same length,
    whatever the payloads and whatever state it is called in, so it
    cannot depend on where the provided signature first differs from the
    expected one; and with a secret configured a signature of the
    expected length has all its 88 positions read, right or wrong. *)
Theorem comparison_is_constant_time (s : Symmetric.Server) (payload1 payload2 : list byte)
    (signature1 signature2 : string) (w : World) :
  String.length signature1 = String.length signature2 ->
  leaked (snd (Symmetric.verifySignature s payload1 signature1 w)) =
  leaked (snd (Symmetric.verifySignature s payload2 signature2 w)) /\
  (Symmetric.WebhookSecret (Symmetric.config s) <> ""%string ->
   String.length signature1 = 88%nat ->
   leaked (snd (Symmetric.verifySignature s payload1 signature1 w)) =
   leaked w ++ Subtle.LeakLengthsDiffer false :: map Subtle.LeakIndex (seq 0 88)).
Proof.
  intros H. rewrite !verifySignature_leaked. split.
  - now rewrite H.
  - intros Hs H88. apply String.eqb_neq in Hs. rewrite Hs, H88. reflexivity.
Qed.

(** Two wrong signatures for the test payload, one wrong in its first
    character and one in its last: both are rejected, and the comparison
    shows the same in both cases, a read of every position. *)
Lemma comparison_is_constant_time_witness :
  let wrong_first :=
    "2abJ+0a3XbjsqMhMjDkLorBZ8yEukxoOx8Dr38fDgZtCvKsg8IkCVqn/RlSSfIVBYc0C1hXDpcAnVHrLlFckNQ=="%string in
  let wrong_last :=
    "1abJ+0a3XbjsqMhMjDkLorBZ8yEukxoOx8Dr38fDgZtCvKsg8IkCVqn/RlSSfIVBYc0C1hXDpcAnVHrLlFckNQ=?"%string in
  leaked (snd (Symmetric.verifySignature Fixture.server Fixture.payload wrong_first start)) =
  leaked (snd (Symmetric.verifySignature Fixture.server Fixture.payload wrong_last start)) /\
  leaked (snd (Symmetric.verifySignature Fixture.server Fixture.payload wrong_first start)) =
  Subtle.LeakLengthsDiffer false :: map Subtle.LeakIndex (seq 0 88).
Proof.
  intros wrong_first wrong_last.
  destruct (comparison_is_constant_time Fixture.server Fixture.payload Fixture.payload
              wrong_first wrong_last start) as [Hsame Hall]; [reflexivity|].
  split; [exact Hsame|].
  apply Hall; [discriminate | reflexivity].
Defined.

(** The handler makes no other comparison: what a request to the
    symmetric handler shows is what its one call of [verifySignature], on
    the body read and the signature header, shows. *)
Lemma handleWebhook_leaked (s : Symmetric.Server) (r : Request) :
  leaked (snd (run (Symmetric.handleWebhook s r))) =
  match Body r with
  | inl body =>
      if String.eqb (Method r) "POST" then
        leaked (snd (Symmetric.verifySignature s body
                       (Header_Get (Header r) X_Hook_Signature) start))
      else []
  | inr _ => []
  end.
Proof.
  unfold Symmetric.handleWebhook, Symmetric.verifySignature, MethodPost, X_Hook_Signature.
  destruct (String.eqb (Method r) "POST");
    [|destruct (Body r); reflexivity].
  eval_run.
  destruct (Body r) as [body|err]; [|reflexivity].
  destruct (String.eqb (Symmetric.WebhookSecret (Symmetric.config s)) ""); eval_run;
    try destruct (HMAC.Equal _ _); eval_run; try reflexivity;
    (destruct (JSON.Unmarshal body JSON.zero_event) as [ev [e|]]; [reflexivity|]);
    eval_run;
    destruct (publish_err (Symmetric.redisClient s) _ body); reflexivity.
Qed.

(** A comparison that stops at the first difference would show where the
    difference is. *)
Example early_exit_shows_position :
  let expected := Bytes.of_string "abcd" in
  snd (Subtle.early_exit_observed (Bytes.of_string "xbcd") expected 0) =
    [Subtle.LeakIndex 0] /\
  snd (Subtle.early_exit_observed (Bytes.of_string "abcx") expected 0) =
    map Subtle.LeakIndex (seq 0 4) /\
  snd (HMAC.Equal_observed (Bytes.of_string "xbcd") expected) =
    snd (HMAC.Equal_observed (Bytes.of_string "abcx") expected).
Proof. vm_compute. repeat split. Qed.

(** ** Signature verification and startup, asymmetric revision *)

(** Claim C5.  In the asymmetric revision, on a server whose key
    [initialiseKey] has put in place and whose secret is not empty,
    [verifySignature] returns for every payload and every signature: a
    signature that is not valid base64 gives false, a signature whose
    decoded bytes the PKCS#1 v1.5 / SHA-256 verification refuses under the
    configured key gives false, and no input makes it panic.  It gives
    true only for a signature that decodes and that the verification
    passes. *)
Theorem asymmetric_verification_is_total
    (ParsePKIXPublicKey : list byte -> Asymmetric.PublicKey + GoError)
    (Sum256 : list byte -> list byte)
    (VerifyPKCS1v15 : Asymmetric.RSAPublicKey -> list byte -> list byte -> option GoError)
    (s0 s : Asymmetric.Server) :
  Asymmetric.initialiseKey ParsePKIXPublicKey s0 = (s, None) ->
  Asymmetric.WebhookSecret (Asymmetric.config s) <> ""%string ->
  forall (payload : list byte) (signature : string),
    (exists b, Asymmetric.verifySignature Sum256 VerifyPKCS1v15 s payload signature
               = Returned b) /\
    (Base64.DecodeString signature = None ->
     Asymmetric.verifySignature Sum256 VerifyPKCS1v15 s payload signature
     = Returned false) /\
    (forall sigBytes k err,
        Base64.DecodeString signature = Some sigBytes ->
        Asymmetric.publicKey s = Some k ->
        VerifyPKCS1v15 k (Sum256 payload) sigBytes = Some err ->
        Asymmetric.verifySignature Sum256 VerifyPKCS1v15 s payload signature
        = Returned false) /\
    (Asymmetric.verifySignature Sum256 VerifyPKCS1v15 s payload signature
     = Returned true ->
     exists sigBytes k,
       Base64.DecodeString signature = Some sigBytes /\
       Asymmetric.publicKey s = Some k /\
       VerifyPKCS1v15 k (Sum256 payload) sigBytes = None).
Proof.
  intros Hinit Hsecret payload signature.
  destruct (initialiseKey_ok ParsePKIXPublicKey s0 s Hinit) as [k ->].
  cbn [Asymmetric.config] in Hsecret. apply String.eqb_neq in Hsecret.
  unfold Asymmetric.verifySignature. cbn [Asymmetric.config Asymmetric.publicKey].
  rewrite Hsecret.
  destruct (Base64.DecodeString signature) as [sigBytes|].
  - split; [|split; [|split]].
    + destruct (VerifyPKCS1v15 k _ _); eexists; reflexivity.
    + discriminate.
    + intros sigBytes' k' err Hd Hk Hv. inversion Hd; subst. inversion Hk; subst.
      now rewrite Hv.
    + destruct (VerifyPKCS1v15 k (Sum256 payload) sigBytes) eqn:Hv; [discriminate|].
      intros _. now exists sigBytes, k.
  - split; [|split; [|split]].
    + eexists; reflexivity.
    + reflexivity.
    + discriminate.
    + discriminate.
Qed.

(** With the stand-in key in place: the text [invalid-signature], which
    is not base64, gives false, and so does the base64 of bytes that are
    not the signature. *)
Lemma asymmetric_verification_is_total_witness :
  Asymmetric.verifySignature Fixture.Sum256 Fixture.VerifyPKCS1v15
    Fixture.asymmetric_server Fixture.payload "invalid-signature" = Returned false /\
  Asymmetric.verifySignature Fixture.Sum256 Fixture.VerifyPKCS1v15
    Fixture.asymmetric_server Fixture.payload Fixture.validSignature = Returned false.
Proof.
  assert (Hinit : Asymmetric.initialiseKey Fixture.ParsePKIXPublicKey
            (Asymmetric.mkServer (Fixture.asymmetric_config Fixture.rsa_secret)
               Fixture.redis_up None) = (Fixture.asymmetric_server, None))
    by (vm_compute; reflexivity).
  assert (Hsecret : Asymmetric.WebhookSecret (Asymmetric.config Fixture.asymmetric_server)
                    <> ""%string) by discriminate.
  pose proof (asymmetric_verification_is_total Fixture.ParsePKIXPublicKey Fixture.Sum256
                Fixture.VerifyPKCS1v15 _ _ Hinit Hsecret Fixture.payload) as H.
  split.
  - apply (proj1 (proj2 (H "invalid-signature"%string))). vm_compute. reflexivity.
  - destruct (Base64.DecodeString Fixture.validSignature) as [sigBytes|] eqn:Hd;
      [|vm_compute in Hd; discriminate].
    apply (proj1 (proj2 (proj2 (H Fixture.validSignature))) sigBytes Fixture.rsa_key
             ErrRSAVerification).
    + exact Hd.
    + reflexivity.
    + vm_compute in Hd. inversion Hd. vm_compute. reflexivity.
Defined.

(** Property X7.  Without a key in place, a secret and a signature that
    is base64 make the asymmetric [verifySignature] panic: the hypothesis
    on [initialiseKey] is needed. *)
Lemma nil_key_panics (Sum256 : list byte -> list byte)
    (VerifyPKCS1v15 : Asymmetric.RSAPublicKey -> list byte -> list byte -> option GoError)
    (cfg : Asymmetric.Config) (redis : RedisClient) (payload sigBytes : list byte)
    (signature : string) :
  Asymmetric.WebhookSecret cfg <> ""%string ->
  Base64.DecodeString signature = Some sigBytes ->
  exists msg,
    Asymmetric.verifySignature Sum256 VerifyPKCS1v15
      (Asymmetric.mkServer cfg redis None) payload signature = Panicked msg.
Proof.
  intros Hsecret Hd. apply String.eqb_neq in Hsecret.
  unfold Asymmetric.verifySignature. cbn [Asymmetric.config Asymmetric.publicKey].
  rewrite Hsecret, Hd. eexists. reflexivity.
Qed.

(** [initialiseKey] fails on invalid key material and leaves the server
    as it was. *)
Lemma initialiseKey_fails
    (ParsePKIXPublicKey : list byte -> Asymmetric.PublicKey + GoError)
    (s : Asymmetric.Server) :
  spec_invalid_key_material ParsePKIXPublicKey (Asymmetric.WebhookSecret (Asymmetric.config s)) ->
  exists err, Asymmetric.initialiseKey ParsePKIXPublicKey s = (s, Some err).
Proof.
  unfold spec_invalid_key_material, Asymmetric.initialiseKey.
  intros [H | [(der & err & H1 & H2) | (der & pub & H1 & H2 & H3)]].
  - rewrite H. eexists; reflexivity.
  - rewrite H1, H2. eexists; reflexivity.
  - rewrite H1, H2. destruct pub; try (eexists; reflexivity).
    now elim (H3 k).
Qed.

(** Claim C7.  In the asymmetric revision invalid key material is fatal
    at startup: if the configured secret is not valid base64, or does not
    decode to a PKIX public key, or the key is not an RSA key, then
    [initialiseKey] returns an error, and [main] ends in [os.Exit(1)]
    without having registered a handler or started to listen. *)
Theorem invalid_key_is_fatal
    (ParsePKIXPublicKey : list byte -> Asymmetric.PublicKey + GoError) :
  (forall s : Asymmetric.Server,
      spec_invalid_key_material ParsePKIXPublicKey
        (Asymmetric.WebhookSecret (Asymmetric.config s)) ->
      snd (Asymmetric.initialiseKey ParsePKIXPublicKey s) <> None) /\
  (forall (environ : string -> string) (dial : string -> string -> RedisClient)
          (http : HTTPServer),
      spec_invalid_key_material ParsePKIXPublicKey
        (Asymmetric.getEnv environ "WEBHOOK_SECRET" "") ->
      fst (run (Asymmetric.main ParsePKIXPublicKey environ dial http)) = Exited 1 /\
      filter is_serving
        (trace (snd (run (Asymmetric.main ParsePKIXPublicKey environ dial http))))
      = []).
Proof.
  split.
  - intros s H. destruct (initialiseKey_fails ParsePKIXPublicKey s H) as [err ->].
    discriminate.
  - intros environ dial http H.
    unfold Asymmetric.main, Asymmetric.loadConfig, Asymmetric.NewServer.
    set (cfg := Asymmetric.mkConfig _ _ _ _ _).
    assert (Hcfg : Asymmetric.WebhookSecret cfg
                   = Asymmetric.getEnv environ "WEBHOOK_SECRET" "") by reflexivity.
    destruct (String.eqb (Asymmetric.WebhookSecret cfg) "");
      destruct (String.eqb (Asymmetric.RedisPassword cfg) "");
      eval_run;
      (destruct (ping_reply (dial (Asymmetric.RedisAddr cfg) (Asymmetric.RedisPassword cfg)))
         as [[latency [e|]]|]; [| |];
       try (destruct (latency <? 5 * Second)%N);
       eval_run; try (split; reflexivity));
      (destruct (initialiseKey_fails ParsePKIXPublicKey
                   (Asymmetric.mkServer cfg
                      (dial (Asymmetric.RedisAddr cfg) (Asymmetric.RedisPassword cfg)) None))
         as [err ->]; [cbn [Asymmetric.config]; rewrite Hcfg; exact H|]);
      eval_run; split; reflexivity.
Qed.

(** A secret that is not base64, and one that is the base64 of an
    Ed25519 key: [initialiseKey] fails on the first, and [main] exits on
    the second with Redis up, having logged the failure and nothing
    after it. *)
Lemma invalid_key_is_fatal_witness :
  snd (Asymmetric.initialiseKey Fixture.ParsePKIXPublicKey
         (Asymmetric.mkServer (Fixture.asymmetric_config "not base64!")
            Fixture.redis_up None)) <> None /\
  fst (run (Asymmetric.main Fixture.ParsePKIXPublicKey
              (Fixture.environ Fixture.ed25519_secret) (fun _ _ => Fixture.redis_up)
              Fixture.http_up))
    = Exited 1 /\
  filter is_serving
    (trace (snd (run (Asymmetric.main Fixture.ParsePKIXPublicKey
                        (Fixture.environ Fixture.ed25519_secret)
                        (fun _ _ => Fixture.redis_up) Fixture.http_up)))) = [].
Proof.
  destruct (invalid_key_is_fatal Fixture.ParsePKIXPublicKey) as [Hinit Hmain].
  split.
  - apply Hinit. left. vm_compute. reflexivity.
  - apply Hmain. right; right.
    exists (Bytes.of_string "ed25519 key"),
           (Asymmetric.KeyEd25519 (Bytes.of_string "ed25519 key")).
    split; [vm_compute; reflexivity|].
    split; [vm_compute; reflexivity|].
    intros k; discriminate.
Defined.

(** With valid key material and Redis up, [main] does get to listen. *)
Example valid_key_serves :
  filter is_serving
    (trace (snd (run (Asymmetric.main Fixture.ParsePKIXPublicKey
                        (Fixture.environ Fixture.rsa_secret)
                        (fun _ _ => Fixture.redis_up) Fixture.http_up)))) =
  [EvHandleFunc "/webhook"; EvHandleFunc "/health"; EvListenAndServe ":8080"].
Proof. vm_compute. reflexivity. Qed.

(** ** The health check *)



(** Redis up, Redis answering too late, and Redis unreachable. *)
Example health_runs :
  let slow := mkRedisClient (fun _ _ => None) (Some (3 * Second, None))%N in
  let probe redis :=
    let w := snd (run (Symmetric.handleHealth
                         (Symmetric.mkServer (Symmetric.config Fixture.server) redis)
                         Fixture.get)) in
    (status w, clock w) in
  probe Fixture.redis_up = (Some 200, 1000000%N) /\
  probe slow = (Some 503, 2000000000%N) /\
  probe Fixture.redis_down = (Some 503, 2000000000%N).
Proof. vm_compute. repeat split. Qed.

(** * Further properties of the code *)

(** ** Configuration *)

Lemma getEnv_nonempty (environ : string -> string) (key d : string) :
  d <> ""%string -> Asymmetric.getEnv environ key d <> ""%string.
Proof.
  intros Hd. unfold Asymmetric.getEnv.
  destruct (String.eqb (environ key) "") eqn:E; cbn [negb]; [exact Hd|].
  now apply String.eqb_neq.
Qed.

Lemma getEnv_value (environ : string -> string) (key d : string) :
  Asymmetric.getEnv environ key d = if String.eqb (environ key) "" then d else environ key.
Proof. unfold Asymmetric.getEnv. now destruct (String.eqb (environ key) ""). Qed.

Lemma getEnv_no_default (environ : string -> string) (key : string) :
  Asymmetric.getEnv environ key "" = environ key.
Proof.
  rewrite getEnv_value. destruct (String.eqb (environ key) "") eqn:E; [|reflexivity].
  apply String.eqb_eq in E. now rewrite E.
Qed.

(** Property X1.  [loadConfig] never yields an empty port, Redis address
    or channel, whatever the environment: an unset or empty variable gives
    way to the default.  The secret (and the password) is taken as it is,
    and the only thing [loadConfig] does besides is to log one warning
    when the secret is empty (and one when the password is).  In both
    revisions. *)
Theorem loadConfig_defaults (environ : string -> string) :
  (exists cfg w,
      run (SymmetricProcess.loadConfig environ) = (Returned cfg, w) /\
      Symmetric.Port cfg <> ""%string /\
      Symmetric.RedisAddr cfg <> ""%string /\
      Symmetric.RedisChannel cfg <> ""%string /\
      Symmetric.WebhookSecret cfg = environ "WEBHOOK_SECRET"%string /\
      trace w = (if String.eqb (environ "WEBHOOK_SECRET"%string) ""
                 then [startup_secret_warning] else [])) /\
  (exists cfg w,
      run (Asymmetric.loadConfig environ) = (Returned cfg, w) /\
      Asymmetric.Port cfg <> ""%string /\
      Asymmetric.RedisAddr cfg <> ""%string /\
      Asymmetric.RedisChannel cfg <> ""%string /\
      Asymmetric.WebhookSecret cfg = environ "WEBHOOK_SECRET"%string /\
      Asymmetric.RedisPassword cfg = environ "REDIS_PASSWORD"%string /\
      trace w = (if String.eqb (environ "WEBHOOK_SECRET"%string) ""
                 then [startup_secret_warning] else [])
                ++ (if String.eqb (environ "REDIS_PASSWORD"%string) ""
                    then [startup_password_warning] else [])).
Proof.
  split.
  - unfold SymmetricProcess.loadConfig. cbn [Symmetric.WebhookSecret].
    change SymmetricProcess.getEnv with Asymmetric.getEnv.
    rewrite getEnv_no_default.
    destruct (String.eqb (environ "WEBHOOK_SECRET"%string) "");
      eval_run; (eexists; eexists; split; [reflexivity|]);
      cbn [Symmetric.Port Symmetric.RedisAddr Symmetric.RedisChannel
             Symmetric.WebhookSecret trace];
      repeat (split; [apply getEnv_nonempty; discriminate|]);
      split; reflexivity.
  - unfold Asymmetric.loadConfig.
    cbn [Asymmetric.WebhookSecret Asymmetric.RedisPassword].
    rewrite !getEnv_no_default.
    destruct (String.eqb (environ "WEBHOOK_SECRET"%string) "");
      destruct (String.eqb (environ "REDIS_PASSWORD"%string) "");
      eval_run; (eexists; eexists; split; [reflexivity|]);
      cbn [Asymmetric.Port Asymmetric.RedisAddr Asymmetric.RedisChannel
             Asymmetric.WebhookSecret Asymmetric.RedisPassword trace];
      repeat (split; [apply getEnv_nonempty; discriminate|]);
      (split; [reflexivity|split; reflexivity]).
Qed.

(** ** Startup *)

Lemma ping_ok_cases (c : RedisClient) (timeout : N) :
  ping_ok c timeout =
  match ping_reply c with
  | Some (latency, None) => (latency <? timeout)%N
  | _ => false
  end.
Proof.
  unfold ping_ok, Ping.
  destruct (ping_reply c) as [[latency [e|]]|]; eval_run;
    try destruct (latency <? timeout)%N; reflexivity.
Qed.

Lemma symmetric_config_value (environ : string -> string) :
  symmetric_config environ =
  Symmetric.mkConfig (SymmetricProcess.getEnv environ "PORT" "8080")
    (SymmetricProcess.getEnv environ "REDIS_ADDR" "localhost:6379")
    (SymmetricProcess.getEnv environ "REDIS_CHANNEL" "starling_events")
    (SymmetricProcess.getEnv environ "WEBHOOK_SECRET" "").
Proof.
  unfold symmetric_config, SymmetricProcess.loadConfig. cbn [Symmetric.WebhookSecret].
  destruct (String.eqb _ ""); reflexivity.
Qed.

Lemma asymmetric_config_value (environ : string -> string) :
  asymmetric_config environ =
  Asymmetric.mkConfig (Asymmetric.getEnv environ "PORT" "8080")
    (Asymmetric.getEnv environ "REDIS_ADDR" "localhost:6379")
    (Asymmetric.getEnv environ "REDIS_CHANNEL" "starling_events")
    (Asymmetric.getEnv environ "WEBHOOK_SECRET" "")
    (Asymmetric.getEnv environ "REDIS_PASSWORD" "").
Proof.
  unfold asymmetric_config, Asymmetric.loadConfig.
  cbn [Asymmetric.WebhookSecret Asymmetric.RedisPassword].
  destruct (String.eqb (Asymmetric.getEnv environ "WEBHOOK_SECRET" "") "");
    destruct (String.eqb (Asymmetric.getEnv environ "REDIS_PASSWORD" "") ""); reflexivity.
Qed.

(** The run of the symmetric [main], by whether Redis answers the
    startup ping and whether the listener fails. *)
Lemma symmetric_main_run (environ : string -> string) (dial : string -> RedisClient)
    (http : HTTPServer) :
  let cfg := symmetric_config environ in
  let client := dial (Symmetric.RedisAddr cfg) in
  let addr := (":" ++ Symmetric.Port cfg)%string in
  exists o w, run (SymmetricProcess.main environ dial http) = (o, w) /\
    (clock w <= 5 * Second)%N /\
    if ping_ok client (5 * Second) then
      serving w = [EvHandleFunc "/webhook"; EvHandleFunc "/health"; EvListenAndServe addr] /\
      match serve_err http addr with
      | None =>
          o = Returned tt /\
          filter is_redis_close (trace w) = [EvRedisClose] /\
          last (trace w) EvAwaitSignal = EvRedisClose
      | Some err =>
          o = Exited 1 /\
          filter is_redis_close (trace w) = [] /\
          last (trace w) EvAwaitSignal = EvLog "Server error: %v" [ArgError err]
      end
    else
      o = Exited 1 /\ serving w = [] /\ filter is_redis_close (trace w) = [].
Proof.
  intros cfg client addr. unfold addr, client, cfg.
  rewrite ping_ok_cases, symmetric_config_value.
  unfold SymmetricProcess.main, SymmetricProcess.loadConfig, SymmetricProcess.NewServer,
    SymmetricProcess.Close, Ping, serving.
  cbv zeta. set (cfg' := Symmetric.mkConfig _ _ _ _).
  destruct (String.eqb (Symmetric.WebhookSecret cfg') "");
    eval_run;
    (destruct (ping_reply (dial (Symmetric.RedisAddr cfg'))) as [[latency [e|]]|]; [| |]);
    try (destruct (latency <? 5 * Second)%N eqn:E);
    eval_run;
    try (destruct (serve_err http (":" ++ Symmetric.Port cfg')) as [err|];
         [|destruct (shutdown_err http) as [serr|]]);
    eval_run; (eexists; eexists; split; [reflexivity|]); cbn [clock trace];
    (split; [try apply N.ltb_lt in E; lia|]);
    repeat split; reflexivity.
Qed.

(** The run of the asymmetric [main], by whether Redis answers the
    startup ping, whether the key material is good and whether the
    listener fails. *)
Lemma asymmetric_main_run
    (ParsePKIXPublicKey : list byte -> Asymmetric.PublicKey + GoError)
    (environ : string -> string) (dial : string -> string -> RedisClient)
    (http : HTTPServer) :
  let cfg := asymmetric_config environ in
  let client := dial (Asymmetric.RedisAddr cfg) (Asymmetric.RedisPassword cfg) in
  let addr := (":" ++ Asymmetric.Port cfg)%string in
  exists o w, run (Asymmetric.main ParsePKIXPublicKey environ dial http) = (o, w) /\
    (clock w <= 5 * Second)%N /\
    if ping_ok client (5 * Second) && key_ok ParsePKIXPublicKey cfg client then
      serving w = [EvHandleFunc "/webhook"; EvHandleFunc "/health"; EvListenAndServe addr] /\
      match serve_err http addr with
      | None =>
          o = Returned tt /\
          filter is_redis_close (trace w) = [EvRedisClose] /\
          last (trace w) EvAwaitSignal = EvRedisClose
      | Some err =>
          o = Exited 1 /\
          filter is_redis_close (trace w) = [] /\
          last (trace w) EvAwaitSignal = EvLog "Server error: %v" [ArgError err]
      end
    else
      o = Exited 1 /\ serving w = [] /\ filter is_redis_close (trace w) = [].
Proof.
  intros cfg client addr. unfold addr, client, cfg, key_ok.
  rewrite ping_ok_cases, asymmetric_config_value.
  unfold Asymmetric.main, Asymmetric.loadConfig, Asymmetric.NewServer, Ping, serving.
  cbv zeta. set (cfg' := Asymmetric.mkConfig _ _ _ _ _).
  destruct (String.eqb (Asymmetric.WebhookSecret cfg') "");
    destruct (String.eqb (Asymmetric.RedisPassword cfg') "");
    eval_run;
    (destruct (ping_reply (dial (Asymmetric.RedisAddr cfg') (Asymmetric.RedisPassword cfg')))
       as [[latency [e|]]|]; [| |]);
    try (destruct (latency <? 5 * Second)%N eqn:E);
    eval_run; cbn [andb];
    try (destruct (Asymmetric.initialiseKey ParsePKIXPublicKey _) as [s' [kerr|]]);
    eval_run;
    try (destruct (serve_err http (":" ++ Asymmetric.Port cfg')) as [err|];
         [|destruct (shutdown_err http) as [serr|]]);
    eval_run;
    (eexists; eexists; split; [reflexivity|]); cbn [clock trace];
    (split; [try apply N.ltb_lt in E; lia|]);
    repeat split; reflexivity.
Qed.





(** Property X4.  In both revisions the deferred [server.Close()] runs
    exactly once, as the last thing [main] does, when [main] returns
    after serving and shutting down; whenever it does not return (startup
    fails or the listener fails, and [log.Fatalf] exits the process with
    status 1) the Redis client is never closed. *)
Theorem redis_closed_only_after_serving
    (ParsePKIXPublicKey : list byte -> Asymmetric.PublicKey + GoError)
    (environ : string -> string) (http : HTTPServer) :
  (forall dial : string -> RedisClient,
      let o := fst (run (SymmetricProcess.main environ dial http)) in
      let w := snd (run (SymmetricProcess.main environ dial http)) in
      (o = Returned tt ->
       filter is_redis_close (trace w) = [EvRedisClose] /\
       last (trace w) EvAwaitSignal = EvRedisClose) /\
      (o <> Returned tt -> o = Exited 1 /\ filter is_redis_close (trace w) = [])) /\
  (forall dial : string -> string -> RedisClient,
      let o := fst (run (Asymmetric.main ParsePKIXPublicKey environ dial http)) in
      let w := snd (run (Asymmetric.main ParsePKIXPublicKey environ dial http)) in
      (o = Returned tt ->
       filter is_redis_close (trace w) = [EvRedisClose] /\
       last (trace w) EvAwaitSignal = EvRedisClose) /\
      (o <> Returned tt -> o = Exited 1 /\ filter is_redis_close (trace w) = [])).
Proof.
  split; intros dial o w.
  - destruct (symmetric_main_run environ dial http) as (o' & w' & Hrun & _ & H).
    unfold o, w. rewrite Hrun. cbn [fst snd].
    destruct (ping_ok _ _).
    + destruct H as [_ H]. destruct (serve_err http _) as [err|].
      * destruct H as (-> & H1 & _). split; [discriminate | tauto].
      * destruct H as (-> & H1 & H2). split; [tauto | intros C; now elim C].
    + destruct H as (-> & _ & H1). split; [discriminate | tauto].
  - destruct (asymmetric_main_run ParsePKIXPublicKey environ dial http)
      as (o' & w' & Hrun & _ & H).
    unfold o, w. rewrite Hrun. cbn [fst snd].
    destruct (ping_ok _ _ && key_ok _ _ _).
    + destruct H as [_ H]. destruct (serve_err http _) as [err|].
      * destruct H as (-> & H1 & _). split; [discriminate | tauto].
      * destruct H as (-> & H1 & H2). split; [tauto | intros C; now elim C].
    + destruct H as (-> & _ & H1). split; [discriminate | tauto].
Qed.

Lemma redis_closed_only_after_serving_witness :
  filter is_redis_close
    (trace (snd (run (SymmetricProcess.main (Fixture.environ "")
                        (fun _ => Fixture.redis_up) Fixture.http_up)))) = [EvRedisClose] /\
  filter is_redis_close
    (trace (snd (run (Asymmetric.main Fixture.ParsePKIXPublicKey
                        (Fixture.environ Fixture.ed25519_secret)
                        (fun _ _ => Fixture.redis_up) Fixture.http_up)))) = [] /\
  filter is_redis_close
    (trace (snd (run (SymmetricProcess.main (Fixture.environ "")
                        (fun _ => Fixture.redis_up) Fixture.http_down)))) = [].
Proof.
  destruct (redis_closed_only_after_serving Fixture.ParsePKIXPublicKey (Fixture.environ "")
              Fixture.http_up) as [Hsym _].
  destruct (redis_closed_only_after_serving Fixture.ParsePKIXPublicKey
              (Fixture.environ Fixture.ed25519_secret) Fixture.http_up) as [_ Hasym].
  destruct (redis_closed_only_after_serving Fixture.ParsePKIXPublicKey (Fixture.environ "")
              Fixture.http_down) as [Hdown _].
  split; [|split].
  - apply (proj1 (Hsym (fun _ => Fixture.redis_up))). vm_compute. reflexivity.
  - apply (proj2 (Hasym (fun _ _ => Fixture.redis_up))). vm_compute. discriminate.
  - apply (proj2 (Hdown (fun _ => Fixture.redis_up))). vm_compute. discriminate.
Defined.


(** ** Key initialisation *)

(** Property X6.  [initialiseKey] touches nothing but the key: the
    configuration and the Redis client of the server are kept; when it
    fails the server is left exactly as it was, when it succeeds a key is
    in place; and calling it again on its result changes nothing and
    gives the same answer. *)
Theorem initialiseKey_only_sets_key
    (ParsePKIXPublicKey : list byte -> Asymmetric.PublicKey + GoError)
    (s : Asymmetric.Server) :
  let s' := fst (Asymmetric.initialiseKey ParsePKIXPublicKey s) in
  let err := snd (Asymmetric.initialiseKey ParsePKIXPublicKey s) in
  Asymmetric.config s' = Asymmetric.config s /\
  Asymmetric.redisClient s' = Asymmetric.redisClient s /\
  (err <> None -> s' = s) /\
  (err = None -> exists k, Asymmetric.publicKey s' = Some k) /\
  Asymmetric.initialiseKey ParsePKIXPublicKey s' = (s', err).
Proof.
  intros s' err. unfold s', err, Asymmetric.initialiseKey.
  destruct (Base64.DecodeString (Asymmetric.WebhookSecret (Asymmetric.config s)))
    as [der|] eqn:Hd.
  - destruct (ParsePKIXPublicKey der) as [[k| | | |]|e] eqn:Hp; cbn [fst snd];
      rewrite ?Hd, ?Hp; cbn [Asymmetric.config Asymmetric.redisClient Asymmetric.publicKey];
      rewrite ?Hd, ?Hp;
      (split; [reflexivity|]); (split; [reflexivity|]);
      (split; [try reflexivity; intros C; now elim C|]);
      (split; [try discriminate; intros _; eexists; reflexivity | reflexivity]).
  - cbn [fst snd]. rewrite Hd.
    split; [reflexivity|]. split; [reflexivity|]. split; [reflexivity|].
    split; [discriminate | reflexivity].
Qed.

(** The test [TestVerifySignature] builds its server from a configuration
    alone and verifies the HMAC signature of its payload: on the
    asymmetric revision that call panics. *)
Lemma nil_key_panics_witness :
  exists msg,
    Asymmetric.verifySignature Fixture.Sum256 Fixture.VerifyPKCS1v15
      (Asymmetric.mkServer (Fixture.asymmetric_config "test-secret") Fixture.redis_up None)
      Fixture.payload Fixture.validSignature = Panicked msg.
Proof.
  destruct (Base64.DecodeString Fixture.validSignature) as [sigBytes|] eqn:Hd;
    [|vm_compute in Hd; discriminate].
  apply (nil_key_panics Fixture.Sum256 Fixture.VerifyPKCS1v15
           (Fixture.asymmetric_config "test-secret") Fixture.redis_up
           Fixture.payload sigBytes Fixture.validSignature).
  - discriminate.
  - exact Hd.
Defined.

(** ** What the webhook handlers do besides the request path *)

(** The symmetric handler: how often it writes, closes the body and
    warns. *)
Lemma symmetric_handler_events (s : Symmetric.Server) (r : Request) :
  exists w, run (Symmetric.handleWebhook s r) = (Returned tt, w) /\
    (exists code data,
        filter is_response_write (trace w) = [EvWriteHeader code; EvWrite data] /\
        status w = Some code /\ written w = data) /\
    filter is_close_body (trace w)
      = (if String.eqb (Method r) "POST" && readable r then [EvCloseBody] else []) /\
    last (trace w) EvReadBody
      = (if String.eqb (Method r) "POST" && readable r then EvCloseBody
         else last (trace w) EvReadBody) /\
    filter is_no_secret_warning (trace w)
      = (if String.eqb (Symmetric.WebhookSecret (Symmetric.config s)) ""
            && String.eqb (Method r) "POST" && readable r
         then [no_secret_warning] else []).
Proof.
  unfold Symmetric.handleWebhook, Symmetric.verifySignature, MethodPost, readable.
  destruct (String.eqb (Symmetric.WebhookSecret (Symmetric.config s)) "");
    (destruct (String.eqb (Method r) "POST"); eval_run;
     [destruct (Body r) as [body|err]; eval_run;
      [try destruct (HMAC.Equal _ _); eval_run;
       try (destruct (JSON.Unmarshal body JSON.zero_event) as [ev [e|]]); eval_run;
       try destruct (publish_err (Symmetric.redisClient s)
                       (Symmetric.RedisChannel (Symmetric.config s)) body);
       eval_run | ] | ]);
    (eexists; split; [reflexivity|]);
    (split; [eexists; eexists; split; [reflexivity|split; reflexivity]|]);
    repeat split; reflexivity.
Qed.

(** The asymmetric handler on any server, with or without a key: either
    it returns having written one response, or it panics in
    [verifySignature] having written nothing. *)
Lemma asymmetric_handler_events (Sum256 : list byte -> list byte)
    (VerifyPKCS1v15 : Asymmetric.RSAPublicKey -> list byte -> list byte -> option GoError)
    (s : Asymmetric.Server) (r : Request) :
  exists o w, run (Asymmetric.handleWebhook Sum256 VerifyPKCS1v15 s r) = (o, w) /\
    filter is_close_body (trace w) = [] /\
    ((o = Returned tt /\
      exists code data,
        filter is_response_write (trace w) = [EvWriteHeader code; EvWrite data] /\
        status w = Some code /\ written w = data) \/
     (exists msg body sigBytes,
        o = Panicked msg /\
        Method r = "POST"%string /\ Body r = inl body /\
        Asymmetric.WebhookSecret (Asymmetric.config s) <> ""%string /\
        Asymmetric.publicKey s = None /\
        Base64.DecodeString (Header_Get (Header r) X_Hook_Signature) = Some sigBytes /\
        status w = None /\ written w = [] /\
        trace w = [EvReadBody;
                   EvVerifySignature body (Header_Get (Header r) X_Hook_Signature)])).
Proof.
  unfold Asymmetric.handleWebhook, Asymmetric.verifySignature, MethodPost, X_Hook_Signature.
  assert (Done : forall w0 : World,
    (exists code data,
        filter is_response_write (trace w0) = [EvWriteHeader code; EvWrite data] /\
        status w0 = Some code /\ written w0 = data) ->
    filter is_close_body (trace w0) = [] ->
    exists o w, (Returned tt, w0) = (o, w) /\
      filter is_close_body (trace w) = [] /\
      ((o = Returned tt /\
        exists code data,
          filter is_response_write (trace w) = [EvWriteHeader code; EvWrite data] /\
          status w = Some code /\ written w = data) \/
       (exists msg body sigBytes,
          o = Panicked msg /\
          Method r = "POST"%string /\ Body r = inl body /\
          Asymmetric.WebhookSecret (Asymmetric.config s) <> ""%string /\
          Asymmetric.publicKey s = None /\
          Base64.DecodeString (Header_Get (Header r) "X-Hook-Signature") = Some sigBytes /\
          status w = None /\ written w = [] /\
          trace w = [EvReadBody;
                     EvVerifySignature body (Header_Get (Header r) "X-Hook-Signature")]))).
  { intros w0 H1 H2. exists (Returned tt), w0. split; [reflexivity|]. split; [exact H2|].
    left. split; [reflexivity | exact H1]. }
  destruct (String.eqb (Method r) "POST") eqn:Hm; eval_run;
    [|apply Done; [eexists; eexists; split; [reflexivity|split; reflexivity] | reflexivity]].
  apply String.eqb_eq in Hm.
  destruct (Body r) as [body|err] eqn:Hb; eval_run;
    [|apply Done; [eexists; eexists; split; [reflexivity|split; reflexivity] | reflexivity]].
  destruct (String.eqb (Asymmetric.WebhookSecret (Asymmetric.config s)) "") eqn:Hs.
  - eval_run.
    destruct (JSON.Unmarshal body JSON.zero_event) as [ev [e|]]; eval_run;
      try destruct (publish_err (Asymmetric.redisClient s)
                      (Asymmetric.RedisChannel (Asymmetric.config s)) body);
      eval_run;
      (apply Done; [eexists; eexists; split; [reflexivity|split; reflexivity] | reflexivity]).
  - apply String.eqb_neq in Hs.
    destruct (Base64.DecodeString (Header_Get (Header r) "X-Hook-Signature"))
      as [sigBytes|] eqn:Hd; eval_run;
      [|apply Done; [eexists; eexists; split; [reflexivity|split; reflexivity]
                    | reflexivity]].
    destruct (Asymmetric.publicKey s) as [k|] eqn:Hk; eval_run.
    + destruct (VerifyPKCS1v15 k (Sum256 body) sigBytes); eval_run;
        try (destruct (JSON.Unmarshal body JSON.zero_event) as [ev [e|]]); eval_run;
        try destruct (publish_err (Asymmetric.redisClient s)
                        (Asymmetric.RedisChannel (Asymmetric.config s)) body);
        eval_run;
        (apply Done; [eexists; eexists; split; [reflexivity|split; reflexivity]
                     | reflexivity]).
    + eexists; eexists. split; [reflexivity|]. split; [reflexivity|]. right.
      eexists; exists body, sigBytes. split; [reflexivity|].
      repeat (split; [assumption || reflexivity|]). reflexivity.
Qed.

(** Property X8.  The asymmetric handler on a server without a key, with
    a secret set: a POST whose signature header is valid base64 makes the
    handler panic in [verifySignature], after the body has been read and
    before anything is written, logged or published; a POST whose
    signature header is not base64 is answered 401 as usual. *)
Theorem handler_without_key (Sum256 : list byte -> list byte)
    (VerifyPKCS1v15 : Asymmetric.RSAPublicKey -> list byte -> list byte -> option GoError)
    (cfg : Asymmetric.Config) (redis : RedisClient) (r : Request) (body : list byte) :
  Method r = "POST"%string -> Body r = inl body ->
  Asymmetric.WebhookSecret cfg <> ""%string ->
  let s := Asymmetric.mkServer cfg redis None in
  let signature := Header_Get (Header r) X_Hook_Signature in
  let o := fst (run (Asymmetric.handleWebhook Sum256 VerifyPKCS1v15 s r)) in
  let w := snd (run (Asymmetric.handleWebhook Sum256 VerifyPKCS1v15 s r)) in
  (forall sigBytes, Base64.DecodeString signature = Some sigBytes ->
     (exists msg, o = Panicked msg) /\
     status w = None /\ written w = [] /\
     trace w = [EvReadBody; EvVerifySignature body signature]) /\
  (Base64.DecodeString signature = None ->
     o = Returned tt /\ status w = Some 401 /\ published w = []).
Proof.
  intros Hm Hb Hs s signature o w. apply String.eqb_neq in Hs.
  unfold o, w, signature, s, Asymmetric.handleWebhook, Asymmetric.verifySignature,
    MethodPost, X_Hook_Signature.
  cbn [Asymmetric.config Asymmetric.publicKey].
  rewrite Hm, Hs. eval_run. rewrite Hb. eval_run.
  destruct (Base64.DecodeString (Header_Get (Header r) "X-Hook-Signature"))
    as [sigBytes|]; eval_run.
  - split; [|discriminate]. intros sb _.
    split; [eexists; reflexivity|]. repeat split; reflexivity.
  - split; [discriminate|]. intros _. repeat split; reflexivity.
Qed.

Lemma handler_without_key_witness :
  let s := Asymmetric.mkServer (Fixture.asymmetric_config "test-secret")
             Fixture.redis_up None in
  (exists msg,
      fst (run (Asymmetric.handleWebhook Fixture.Sum256 Fixture.VerifyPKCS1v15 s
                  (Fixture.post Fixture.payload Fixture.validSignature)))
      = Panicked msg) /\
  status (snd (run (Asymmetric.handleWebhook Fixture.Sum256 Fixture.VerifyPKCS1v15 s
                      (Fixture.post Fixture.payload "invalid-signature")))) = Some 401.
Proof.
  intros s. split.
  - destruct (Base64.DecodeString Fixture.validSignature) as [sigBytes|] eqn:Hd;
      [|vm_compute in Hd; discriminate].
    apply (proj1 (handler_without_key Fixture.Sum256 Fixture.VerifyPKCS1v15
                    (Fixture.asymmetric_config "test-secret") Fixture.redis_up
                    (Fixture.post Fixture.payload Fixture.validSignature) Fixture.payload
                    eq_refl eq_refl ltac:(discriminate)) sigBytes Hd).
  - apply (proj2 (handler_without_key Fixture.Sum256 Fixture.VerifyPKCS1v15
                    (Fixture.asymmetric_config "test-secret") Fixture.redis_up
                    (Fixture.post Fixture.payload "invalid-signature") Fixture.payload
                    eq_refl eq_refl ltac:(discriminate))).
    vm_compute. reflexivity.
Defined.

(** Property X9.  The symmetric handler closes the request body exactly
    once, as the last thing it does, when the method is POST and the body
    could be read, and never otherwise (not on 405, not after a failed
    read).  The asymmetric handler never closes it. *)
Theorem body_closed_iff_read :
  (forall (s : Symmetric.Server) (r : Request),
      let w := snd (run (Symmetric.handleWebhook s r)) in
      (String.eqb (Method r) "POST" && readable r = true ->
       filter is_close_body (trace w) = [EvCloseBody] /\
       last (trace w) EvReadBody = EvCloseBody) /\
      (String.eqb (Method r) "POST" && readable r = false ->
       filter is_close_body (trace w) = [])) /\
  (forall Sum256 VerifyPKCS1v15 (s : Asymmetric.Server) (r : Request),
      filter is_close_body
        (trace (snd (run (Asymmetric.handleWebhook Sum256 VerifyPKCS1v15 s r)))) = []).
Proof.
  split.
  - intros s r w.
    destruct (symmetric_handler_events s r) as (w' & Hrun & _ & Hc & Hl & _).
    unfold w. rewrite Hrun. cbn [snd]. rewrite Hc, Hl.
    destruct (String.eqb (Method r) "POST" && readable r).
    + split; [intros _; split; reflexivity | discriminate].
    + split; [discriminate | reflexivity].
  - intros Sum256 Verify s r.
    destruct (asymmetric_handler_events Sum256 Verify s r) as (o & w & Hrun & Hc & _).
    rewrite Hrun. exact Hc.
Qed.

Lemma body_closed_iff_read_witness :
  filter is_close_body
    (trace (snd (run (Symmetric.handleWebhook Fixture.server
                        (Fixture.post Fixture.payload "invalid-signature")))))
    = [EvCloseBody] /\
  filter is_close_body
    (trace (snd (run (Symmetric.handleWebhook Fixture.server
                        (mkRequest "POST" (inr (ErrIO "unexpected EOF")) [])))))
    = [].
Proof.
  destruct body_closed_iff_read as [H _]. split.
  - apply (proj1 (H Fixture.server (Fixture.post Fixture.payload "invalid-signature"))).
    reflexivity.
  - apply (proj2 (H Fixture.server (mkRequest "POST" (inr (ErrIO "unexpected EOF")) []))).
    reflexivity.
Defined.

Lemma health_response (redis : RedisClient) :
  let m : Exec unit :=
    (err <- Ping redis (2 * Second) ;;
     match err with
     | Some _ => http_Error "Service unavailable" StatusServiceUnavailable
     | None => WriteHeader StatusOK ;; Write (Bytes.of_string "OK")
     end)%exec in
  exists code data,
    filter is_response_write (trace (snd (run m))) = [EvWriteHeader code; EvWrite data] /\
    status (snd (run m)) = Some code /\ written (snd (run m)) = data.
Proof.
  intros m. unfold m, Ping.
  destruct (ping_reply redis) as [[latency [e|]]|]; eval_run;
    try destruct (latency <? 2 * Second)%N; eval_run;
    (eexists; eexists; split; [reflexivity|split; reflexivity]).
Qed.

(** Property X10.  Every handler writes its response exactly once: one
    [WriteHeader] followed by one [Write], the status and body of the
    response being those two.  This holds of the webhook and health
    handlers of both revisions; the asymmetric webhook handler writes
    nothing at all in the one case where it does not return. *)
Theorem response_written_once :
  (forall (s : Symmetric.Server) (r : Request),
      let w := snd (run (Symmetric.handleWebhook s r)) in
      exists code data,
        filter is_response_write (trace w) = [EvWriteHeader code; EvWrite data] /\
        status w = Some code /\ written w = data) /\
  (forall Sum256 VerifyPKCS1v15 (s : Asymmetric.Server) (r : Request),
      let o := fst (run (Asymmetric.handleWebhook Sum256 VerifyPKCS1v15 s r)) in
      let w := snd (run (Asymmetric.handleWebhook Sum256 VerifyPKCS1v15 s r)) in
      (exists code data,
          o = Returned tt /\
          filter is_response_write (trace w) = [EvWriteHeader code; EvWrite data] /\
          status w = Some code /\ written w = data) \/
      ((exists msg, o = Panicked msg) /\
       filter is_response_write (trace w) = [] /\ status w = None /\ written w = [])) /\
  (forall (s : Symmetric.Server) (r : Request),
      let w := snd (run (Symmetric.handleHealth s r)) in
      exists code data,
        filter is_response_write (trace w) = [EvWriteHeader code; EvWrite data] /\
        status w = Some code /\ written w = data) /\
  (forall (s : Asymmetric.Server) (r : Request),
      let w := snd (run (Asymmetric.handleHealth s r)) in
      exists code data,
        filter is_response_write (trace w) = [EvWriteHeader code; EvWrite data] /\
        status w = Some code /\ written w = data).
Proof.
  split; [|split; [|split]].
  - intros s r w. destruct (symmetric_handler_events s r) as (w' & Hrun & H & _).
    unfold w. rewrite Hrun. exact H.
  - intros Sum256 Verify s r o w.
    destruct (asymmetric_handler_events Sum256 Verify s r) as (o' & w' & Hrun & _ & H).
    unfold o, w. rewrite Hrun. cbn [fst snd].
    destruct H as [[-> (code & data & H)] | (msg & body & sb & -> & _ & _ & _ & _ & _ & H1 & H2 & H3)].
    + left. exists code, data. split; [reflexivity | exact H].
    + right. split; [eexists; reflexivity|]. rewrite H3. repeat split; assumption.
  - intros s r w. exact (health_response (Symmetric.redisClient s)).
  - intros s r w. exact (health_response (Asymmetric.redisClient s)).
Qed.

(** Property X13.  With no secret configured, the symmetric handler logs
    the warning that verification is skipped once for every POST request
    whose body it could read, that is, on every request it verifies, not
    once at startup; with a secret configured it never logs it. *)
Theorem no_secret_warning_per_request (s : Symmetric.Server) (r : Request) :
  filter is_no_secret_warning (trace (snd (run (Symmetric.handleWebhook s r))))
  = (if String.eqb (Symmetric.WebhookSecret (Symmetric.config s)) ""
        && String.eqb (Method r) "POST" && readable r
     then [no_secret_warning] else []).
Proof.
  destruct (symmetric_handler_events s r) as (w & Hrun & _ & _ & _ & H).
  rewrite Hrun. exact H.
Qed.

(** ** The signature header *)

(** Property X11.  Of a request's header the webhook handlers read the
    first value of [X-Hook-Signature] and nothing else: two requests with
    the same method, the same body and the same first signature value are
    handled identically, whatever other headers or further signature
    values they carry.  In both revisions. *)
Theorem only_signature_header_matters (r1 r2 : Request) :
  Method r1 = Method r2 -> Body r1 = Body r2 ->
  Header_Get (Header r1) X_Hook_Signature = Header_Get (Header r2) X_Hook_Signature ->
  (forall s : Symmetric.Server,
      run (Symmetric.handleWebhook s r1) = run (Symmetric.handleWebhook s r2)) /\
  (forall Sum256 VerifyPKCS1v15 (s : Asymmetric.Server),
      run (Asymmetric.handleWebhook Sum256 VerifyPKCS1v15 s r1)
      = run (Asymmetric.handleWebhook Sum256 VerifyPKCS1v15 s r2)).
Proof.
  unfold X_Hook_Signature. intros Hm Hb Hh.
  split; intros; unfold Symmetric.handleWebhook, Asymmetric.handleWebhook, io_ReadAll;
    rewrite Hm, Hb, Hh; reflexivity.
Qed.

Lemma only_signature_header_matters_witness :
  let r1 := Fixture.post Fixture.payload Fixture.validSignature in
  let r2 := mkRequest "POST" (inl Fixture.payload)
              [("Content-Type"%string, ["application/json"%string]);
               ("X-Hook-Signature"%string, [Fixture.validSignature; "other"%string]);
               ("X-Hook-Signature"%string, ["shadowed"%string])] in
  run (Symmetric.handleWebhook Fixture.server r1)
  = run (Symmetric.handleWebhook Fixture.server r2).
Proof.
  intros r1 r2.
  apply (proj1 (only_signature_header_matters r1 r2 eq_refl eq_refl eq_refl)).
Defined.

(** Property X12.  In the symmetric revision with a secret configured,
    the expected signature is always 88 characters long, so a POST whose
    signature header has any other length (a missing header has length
    zero) is answered 401 and nothing is published, whatever its body. *)
Theorem wrong_length_signature_unauthorized (s : Symmetric.Server) (r : Request)
    (body : list byte) :
  Symmetric.WebhookSecret (Symmetric.config s) <> ""%string ->
  Method r = "POST"%string -> Body r = inl body ->
  String.length (Header_Get (Header r) X_Hook_Signature) <> 88%nat ->
  let w := snd (run (Symmetric.handleWebhook s r)) in
  String.length (Symmetric.expectedSignature s body) = 88%nat /\
  status w = Some 401 /\ published w = [].
Proof.
  intros Hs Hm Hb Hlen w.
  assert (H88 : String.length (Symmetric.expectedSignature s body) = 88%nat)
    by (rewrite <- of_string_length; apply expectedSignature_length).
  split; [exact H88|].
  assert (Hrej : symmetric_accepts s body (Header_Get (Header r) X_Hook_Signature) = false).
  { apply symmetric_rejects_iff; [exact Hs|]. intros E. apply Hlen. now rewrite E. }
  destruct (symmetric_handleWebhook_observed s r) as (w' & Hrun & Hobs).
  unfold w. rewrite Hrun. cbn [snd].
  rewrite published_steps.
  unfold observed, spec_request_path in Hobs.
  rewrite Hm, Hb in Hobs. rewrite String.eqb_refl in Hobs. cbn [negb] in Hobs.
  rewrite Hrej in Hobs. cbn [negb] in Hobs.
  inversion Hobs as [[H1 H2 H3]]. rewrite H3. split; reflexivity.
Qed.

(** A POST without any header, to the server of the tests. *)
Lemma wrong_length_signature_unauthorized_witness :
  status (snd (run (Symmetric.handleWebhook Fixture.server
                      (mkRequest "POST" (inl Fixture.payload) [])))) = Some 401 /\
  published (snd (run (Symmetric.handleWebhook Fixture.server
                         (mkRequest "POST" (inl Fixture.payload) [])))) = [].
Proof.
  apply (wrong_length_signature_unauthorized Fixture.server
           (mkRequest "POST" (inl Fixture.payload) []) Fixture.payload).
  - discriminate.
  - reflexivity.
  - reflexivity.
  - discriminate.
Defined.

(** ** From startup to the first request *)

Lemma asymmetric_NewServer_server (dial : string -> string -> RedisClient)
    (cfg : Asymmetric.Config) (s0 : Asymmetric.Server) (w0 : World) :
  run (Asymmetric.NewServer dial cfg) = (Returned (inl s0), w0) ->
  s0 = Asymmetric.mkServer cfg
         (dial (Asymmetric.RedisAddr cfg) (Asymmetric.RedisPassword cfg)) None.
Proof.
  unfold Asymmetric.NewServer, Ping. cbv zeta.
  destruct (ping_reply _) as [[latency [e|]]|]; [| |];
    try destruct (latency <? 5 * Second)%N; eval_run;
    intros H; inversion H; reflexivity.
Qed.

(** Property X17.  A server as [main] builds it, by [NewServer] followed
    by a successful [initialiseKey], handles every request without
    panicking and answers it with a status: the key the handler relies on
    is in place by then, and the configuration is still the one given to
    [NewServer]. *)
Theorem started_server_always_answers
    (ParsePKIXPublicKey : list byte -> Asymmetric.PublicKey + GoError)
    (Sum256 : list byte -> list byte)
    (VerifyPKCS1v15 : Asymmetric.RSAPublicKey -> list byte -> list byte -> option GoError)
    (dial : string -> string -> RedisClient) (cfg : Asymmetric.Config)
    (s0 s : Asymmetric.Server) (w0 : World) (r : Request) :
  run (Asymmetric.NewServer dial cfg) = (Returned (inl s0), w0) ->
  Asymmetric.initialiseKey ParsePKIXPublicKey s0 = (s, None) ->
  Asymmetric.config s = cfg /\
  fst (run (Asymmetric.handleWebhook Sum256 VerifyPKCS1v15 s r)) = Returned tt /\
  exists code,
    status (snd (run (Asymmetric.handleWebhook Sum256 VerifyPKCS1v15 s r))) = Some code.
Proof.
  intros Hnew Hinit.
  apply asymmetric_NewServer_server in Hnew. subst s0.
  destruct (initialiseKey_ok ParsePKIXPublicKey _ _ Hinit) as [k ->].
  cbn [Asymmetric.config Asymmetric.redisClient].
  split; [reflexivity|].
  destruct (asymmetric_handler_events Sum256 VerifyPKCS1v15
              (Asymmetric.mkServer cfg
                 (dial (Asymmetric.RedisAddr cfg) (Asymmetric.RedisPassword cfg)) (Some k)) r)
    as (o & w & Hrun & _ & [[-> (code & data & _ & Hst & _)] | H]).
  - rewrite Hrun. split; [reflexivity|]. now exists code.
  - destruct H as (msg & body & sb & _ & _ & _ & _ & Hk & _). discriminate.
Qed.

Lemma started_server_always_answers_witness :
  let s := Fixture.asymmetric_server in
  fst (run (Asymmetric.handleWebhook Fixture.Sum256 Fixture.VerifyPKCS1v15 s
              (Fixture.post Fixture.payload Fixture.validSignature))) = Returned tt /\
  exists code,
    status (snd (run (Asymmetric.handleWebhook Fixture.Sum256 Fixture.VerifyPKCS1v15 s
                        (Fixture.post Fixture.payload Fixture.validSignature))))
    = Some code.
Proof.
  intros s.
  destruct (run (Asymmetric.NewServer (fun _ _ => Fixture.redis_up)
                   (Fixture.asymmetric_config Fixture.rsa_secret))) as [o w0] eqn:Hnew.
  assert (Ho : o = Returned (inl (Asymmetric.mkServer
                 (Fixture.asymmetric_config Fixture.rsa_secret) Fixture.redis_up None)))
    by (vm_compute in Hnew; inversion Hnew; reflexivity).
  subst o.
  apply (started_server_always_answers Fixture.ParsePKIXPublicKey Fixture.Sum256
           Fixture.VerifyPKCS1v15 (fun _ _ => Fixture.redis_up)
           (Fixture.asymmetric_config Fixture.rsa_secret) _ s w0
           (Fixture.post Fixture.payload Fixture.validSignature) Hnew).
  vm_compute. reflexivity.
Defined.

(** ** The library functions as the code relies on them *)

(** Property X14.  [base64.StdEncoding.DecodeString] undoes
    [EncodeToString]: the text the symmetric revision compares with is
    one the decoder of the asymmetric revision takes back to the bytes it
    came from, and two different byte strings never have the same
    text. *)
Theorem base64_round_trip (src : list byte) :
  Base64.DecodeString (Base64.EncodeToString src) = Some src /\
  (forall other, Base64.EncodeToString other = Base64.EncodeToString src -> other = src) /\
  String.length (Base64.EncodeToString src) = (4 * Nat.div (length src + 2) 3)%nat.
Proof.
  split; [apply DecodeString_EncodeToString|].
  split; [intros other; apply EncodeToString_inj|].
  unfold Base64.EncodeToString. rewrite <- of_string_length, of_to_string.
  apply Encode_length.
Qed.

(** Property X15.  [hmac.Equal] answers true exactly on equal byte
    strings, of whatever lengths: the accumulating comparison loses
    nothing against plain equality. *)
Theorem hmac_Equal_is_equality (mac1 mac2 : list byte) :
  HMAC.Equal mac1 mac2 = true <-> mac1 = mac2.
Proof. apply Equal_true_iff. Qed.

Lemma checkValid_leading_space (space data : list byte) :
  forallb JSON.isSpace space = true ->
  JSON.checkValid (space ++ data) = JSON.checkValid data.
Proof.
  intros H. unfold JSON.checkValid. f_equal.
  induction space as [|c space IH]; [reflexivity|].
  cbn [forallb] in H. apply andb_true_iff in H. destruct H as [Hc H].
  cbn [app JSON.scan_all].
  unfold JSON.run_step. cbn [JSON.step JSON.reset].
  unfold JSON.do_stateBeginValue. rewrite Hc. now apply IH.
Qed.

Lemma skip_space_leading_space (space data : list byte) :
  forallb JSON.isSpace space = true ->
  JSON.skip_space (space ++ data) = JSON.skip_space data.
Proof.
  intros H. induction space as [|c space IH]; [reflexivity|].
  cbn [forallb] in H. apply andb_true_iff in H. destruct H as [Hc H].
  cbn [app JSON.skip_space]. rewrite Hc. now apply IH.
Qed.

(** Property X18.  Leading white space (space, tab, line feed, carriage
    return) before the JSON value of a body changes nothing in how
    [json.Unmarshal] decodes it into the envelope, error included. *)
Theorem leading_space_is_ignored (space data : list byte) (v : JSON.WebhookEvent) :
  forallb JSON.isSpace space = true ->
  JSON.Unmarshal (space ++ data) v = JSON.Unmarshal data v.
Proof.
  intros H. unfold JSON.Unmarshal.
  now rewrite checkValid_leading_space, skip_space_leading_space.
Qed.

Lemma leading_space_is_ignored_witness :
  JSON.Unmarshal (Bytes.of_string "  " ++ Fixture.payload) JSON.zero_event
  = JSON.Unmarshal Fixture.payload JSON.zero_event.
Proof. apply leading_space_is_ignored. reflexivity. Defined.

(** Property X16.  The symmetric [verifySignature] has no effect but a
    log line: it returns the same verdict in whatever state it is called,
    leaves the response and the clock alone, and adds nothing to the
    events but its warning, which it logs exactly when no secret is
    configured. *)
Theorem symmetric_verifySignature_only_logs (s : Symmetric.Server) (payload : list byte)
    (signature : string) (w : World) :
  let o := fst (Symmetric.verifySignature s payload signature w) in
  let w' := snd (Symmetric.verifySignature s payload signature w) in
  o = Returned (symmetric_accepts s payload signature) /\
  status w' = status w /\ written w' = written w /\ clock w' = clock w /\
  trace w' = trace w ++ (if String.eqb (Symmetric.WebhookSecret (Symmetric.config s)) ""
                         then [no_secret_warning] else []).
Proof.
  intros o w'. unfold o, w', symmetric_accepts, Symmetric.verifySignature.
  destruct (String.eqb (Symmetric.WebhookSecret (Symmetric.config s)) "").
  - repeat split; reflexivity.
  - cbn [fst snd ret]. rewrite app_nil_r. repeat split; reflexivity.
Qed.

(** The request of [TestHandleWebhookInvalidMethod]. *)
Lemma wrong_method_only_answers_witness :
  side_effects (snd (run (Symmetric.handleWebhook Fixture.server Fixture.get))) = [] /\
  side_effects (snd (run (Asymmetric.handleWebhook Fixture.Sum256 Fixture.VerifyPKCS1v15
                            Fixture.asymmetric_server Fixture.get))) = [].
Proof.
  destruct (wrong_method_only_answers Fixture.get ltac:(discriminate)) as [Hsym Hasym].
  split; [apply Hsym | apply Hasym].
Defined.
